(* ===== verification/_CoqProject ===== *)
-Q . S2P
Prelude.v
JsValue.v
AuthStore.v
JsonText.v
JsonPrefix.v
Accounts.v
Callback.v
Pkce.v
Enroll.v
Usage.v
History.v
Concurrent.v
