(* ===== verification/Prelude.v ===== *)
(** * A verification development for the multi-account credential tools

    The repository holds two Bun/TypeScript scripts that share one JSON file,
    the credential store [~/.local/share/opencode/auth.json]:

    - [src/add-account.ts] enrolls an account.  It prints an OAuth
      authorization URL carrying a PKCE challenge (the verifier rides in
      [state]), reads the callback URL the operator pastes, extracts
      [code] and [state], exchanges them at the token endpoint, and
      upserts the account record [{name, access, refresh, expires}] into
      [anthropic.multiAccounts.accounts] of the store, which it then
      rewrites whole.
    - [src/usage.ts] reads the same store and prints, per account, three
      50-cell usage bars from [anthropic.multiAccounts.usage].
    - [src/node-compat.d.ts] only declares types for the Node modules.

    ** Files, in dependency order

    - [Prelude]: the completion type [throws] of JavaScript statements
      (a value or a thrown [js_error]) with its bind notation
      [x <- m ;; k] and [try! m catch! h] in [ma_scope]; association
      lists ([assoc_get], [assoc_set]) for object properties; the search
      [find_index] / [find_index_m] behind [Array.prototype.findIndex];
      the hint databases [ma] and [ma_rw] and the tactic [throws_inv].
    - [JsValue]: the JavaScript values the scripts handle ([jsval]:
      primitives with binary64 numbers, arrays with their named
      properties, objects as ordered property lists, inherited built-ins),
      [truthy], strict-mode property reads and writes ([js_get],
      [js_set_named], along paths), the value [JSON.stringify] keeps
      ([json_of]) and JSON documents ([is_json]); the interface [JsHost]
      for the engine's number/string conversions and date formatting.
    - [AuthStore]: the store file ([file_state]: absent, unparsable, or a
      parsed document), [loadAuth] and [saveAuth] of add-account.ts:12-23.
    - [JsonText]: the text of the store file: [json_text], the output of
      [JSON.stringify(data, null, 2)] (two-space indentation,
      [QuoteJSONString] escapes), and [json_parse], the [JSON.parse] of
      add-account.ts:15 and usage.ts:12 as a recursive-descent parser
      ([parse_value] / [parse_elems] / [parse_members]) with fuel;
      [file_of_text] is the [file_state] a text gives [loadAuth].
    - [JsonPrefix]: a lexer state (inside a string, after a backslash,
      bracket depth) that shows what [json_parse] accepts is balanced and
      that a printed container is open on each of its proper prefixes.
    - [Accounts]: add-account.ts:108-130, one definition per statement
      ([ensure_anthropic], [ensure_multiAccounts], [ensure_accounts],
      [name_is], [js_findIndex], [make_account], [store_account]) composed
      in [upsert_account]; the abstract contract [upsert_list] (replace the
      record of that name in place, or append).
    - [Callback]: add-account.ts:48-96: [URLSearchParams] ([sp_get],
      [sp_set]), the authorization query [authorize_query], the trim of
      the pasted line, [extract_code], [split_hash] and the token request
      body [token_request]; the URL parser is the interface [UrlParser].
    - [Pkce]: the pair of [generatePKCE()] (add-account.ts:46), a library
      modelled from its contract: base64url ([b64url_encode]) and SHA-256
      ([sha256], FIPS 180-4 on 32-bit words kept as [Z] with their
      wrap-around, checked against the RFC 7636 test vector), the random
      bytes an input.
    - [Enroll]: the whole run [main] (add-account.ts:35-137) as a function
      from the run's inputs ([env]: argument, PKCE pair, typed line, token
      endpoint reply, clock, file-system writability) and the store file to
      the [outcome] (exit status, request sent, store after, messages);
      [exchange] and [persist] are its two later phases.
    - [Usage]: the whole of usage.ts as [usage_main], a function from the
      store file to the printed lines ([usage_line]) and the exit status:
      its [loadAuth] ([loadAuth_usage], fatal on any error), the bar
      [progressBar] (lines 21-27) on the exact integral value of
      [Math.round] ([js_round], [jsint]), [formatResetTime] (lines 30-40),
      and the loop [render_accounts] / [render_account] / [render_window]
      (lines 49-75), where an uncaught exception ends the script with
      status 1 after the lines already printed ([seq_trace]).
    - [History]: runs of [add-account.ts] one after another:
      [enroll_history] folds [persist] (as [persist_store]) over a list of
      runs, each a name, a token response and a clock.
    - [Concurrent]: the two scripts run side by side on the one file,
      which neither locks.  A system state is the file and a list of
      processes at a phase of their run; a step advances one process by
      one file operation: an enrollment reads ([loadAuth] and the upsert,
      [enroll_read]), truncates and writes ([writeFileSync] opens with
      [O_TRUNC], so the file is empty in between); a report reads once.
      [step_at] is the step of one process, [run] a schedule.

    ** What is proved

    - Refinement (C1): on a store of the expected shape the statement
      sequence of lines 108-130 implements [upsert_list] and leaves every
      other property of the document in place.
    - Invariant (C2): enrollment keeps account names distinct and leaves
      exactly one record under the enrolled name, the new one (full
      replacement, no merge).
    - Functional behaviour of whole runs: creation of the store on a
      missing or unparsable file with the record
      [{name, access, refresh, expires: now + expires_in * 1000}] (C3,
      whose witness evaluates the spec's example); a failed exchange
      leaves the store as it was (C4); no argument, usage and status 1 (C7).
    - Round trips: pasted [code]/[state] to the token request body (C5);
      the PKCE verifier through [state] to the request (C6).
    - Findings (C8-C11): a store whose root is a JSON array loses the
      account; a failed write is preceded by a success report; a rejected
      [fetch] ends with status 0; a code containing ["#"] is split.
    - The usage bar (C12-C13): for a rounded percentage [p] in [0, 100]
      the bar is [p / 2] full cells, a half cell iff [p] is odd, 50 cells
      in all; outside [0, 1] a negative value throws and a value above 1
      overflows the width.
    - The usage report (C14-C18): a store of the expected shape is
      reported whole, one block per account in store order, exit 0; an
      unreadable store exits 1; a missing subtree is "no configuration"
      with exit 0 (the spec calls it an error); an account named after an
      [Object.prototype] key is shown with empty windows instead of
      "no usage data"; a negative utilization stops the report.
    - Concurrency (C19-C21): two enrollments that both read first lose
      the first update; an enrollment that reads during another's write
      wipes the store down to its own record; a report beside an
      enrollment prints the report of the old store, of the new one, or a
      read error (an invariant over every schedule).
    - Malformed store (C22): a parseable store whose accounts hold [null]
      makes the enrollment fail with a [TypeError], the file unchanged and
      exit status 0, where the spec expects the default document.
    - Runs in sequence (C23): from a missing store, the accounts after a
      sequence of enrollments are [upsert_list] folded over their records,
      with distinct names (a refinement across runs).
    - The file's text (C24): [JSON.parse] reads what [saveAuth] writes
      back as the very document [Stored] records, so the abstraction of
      the file by its parse is exact (for numbers the host prints as
      tokens it reads back as themselves).
    - The PKCE pair (C25): from 32 random bytes or more, the authorization
      URL carries a challenge of exactly 43 and a verifier of at least 43
      unreserved URL characters.
    - A torn store (C26): a non-empty proper prefix of the text [saveAuth]
      writes, what a reader sees while [writeFileSync] writes or after a
      write cut short, is [Unparsable], as the concurrent model's empty
      intermediate file ([Concurrent.empty_file]) is.

    ** Modelling choices

    - Both scripts are ES modules, hence strict code: a write to a
      primitive throws ([js_set_named]).
    - JavaScript numbers are Rocq's primitive binary64 floats, so
      [Date.now() + expires_in * 1000] is computed as the engine does.
    - Strings are Rocq strings of 8-bit characters; trimming and
      splitting are modelled on ASCII.
    - The store text is abstracted by its parse: [Stored d] is a text that
      [JSON.parse] reads as [d]; writing [v] stores [json_of v].
    - Library algorithms the scripts only call are interfaces whose laws
      the theorems do not assume: [UrlParser] ([new URL]), [JsHost]
      (number/string conversions, [Intl.DateTimeFormat]).  Each has a
      small concrete instance used only by the witnesses.
    - [Math.round] and the bar's arithmetic are computed exactly from the
      float's mantissa and exponent; [.length] of an array below 2^53
      elements is a non-zero number (proved from [SpecFloat]'s rounding).
    - Every recursion is structural except the JSON parser, which runs on
      fuel [S (length text)]: each value consumes at least one character
      and each element two more (its separator and its indentation), so
      [json_size v <= length (json_text ind v)] ([json_text_length]) and
      the fuel is always enough for a printed text.

    ** Not modelled (yet), and the plan for the next sittings

    1. [formatResetTime] for every timestamp: that [t * 1000] is exact
       for integral seconds below 8.64e12 needs binary64 multiplication
       lemmas; the theorems take the reset times as they are.
    2. Writes the file system refuses half-way, in the concurrent model
       (the sequential model has them: [fs_writable]).  A write that lands
       in pieces shows the readers proper prefixes of the text, which
       C26 shows are unparsable like the model's empty file.
    3. The source of randomness of [generatePKCE] ([crypto.getRandomValues])
       is an input: entropy is not a property a kernel can check.
    4. The JSON parser on texts [saveAuth] did not write (hand-edited
       files) is modelled but only the round trip (C24) and the
       rejection of truncated texts (C26) are proved; [\u] escapes above
       [\u00ff] are outside the 8-bit string model.
    5. Console glyphs and wording, the readline prompt's I/O, and
       [url.toString()] are not modelled. *)

From Stdlib Require Import ZArith.
From stdpp Require Import base list sets strings.

Declare Scope ma_scope.
Delimit Scope ma_scope with ma.
Open Scope ma_scope.

(** ** Completions of JavaScript code

    A statement of the modelled TypeScript either yields a value or throws.
    The kinds of exception the sources can raise are listed here; the
    callers ([main().catch(console.error)] in [add-account.ts], the uncaught
    top level of [usage.ts]) decide what a thrown error does to the process. *)

Inductive js_error : Type :=
  | TypeError     (** property read on [null]/[undefined], write to a
                      primitive in strict mode, call of a non-function *)
  | RangeError    (** [String.prototype.repeat] with a negative or infinite
                      count, formatting an invalid [Date] *)
  | SyntaxError   (** [JSON.parse] or [response.json()] on a non-JSON text *)
  | SystemError   (** a failed file-system or network call ([writeFileSync]
                      on a missing directory, [fetch] without a route) *).

Inductive throws (A : Type) : Type :=
  | Ok (a : A)
  | Throw (e : js_error).
Arguments Ok {A} a.
Arguments Throw {A} e.

(** Sequencing: run [m]; if it throws, the exception propagates. *)
Definition tbind {A B} (m : throws A) (f : A -> throws B) : throws B :=
  match m with Ok a => f a | Throw e => Throw e end.

Notation "x <- m ;; k" := (tbind m (fun x => k))
  (at level 100, m at next level, right associativity) : ma_scope.

(** [try { m } catch (e) { h(e) }] *)
Definition catch_throws {A} (m : throws A) (h : js_error -> throws A) : throws A :=
  match m with Ok a => Ok a | Throw e => h e end.

Notation "'try!' m 'catch!' h" := (catch_throws m h)
  (at level 10, m at level 100, h at level 200) : ma_scope.

Create HintDb ma discriminated.
Create Rewrite HintDb ma_rw.
#[export] Hint Constants Transparent : ma.

Lemma bind_Ok {A B} (a : A) (f : A -> throws B) : tbind (Ok a) f = f a.
Proof. reflexivity. Qed.

Lemma bind_Throw {A B} (e : js_error) (f : A -> throws B) : tbind (Throw e) f = Throw e.
Proof. reflexivity. Qed.

Lemma bind_Ok_inv {A B} (m : throws A) (f : A -> throws B) b :
  tbind m f = Ok b -> exists a, m = Ok a /\ f a = Ok b.
Proof. destruct m; simpl; [eauto | discriminate]. Qed.

Lemma bind_Throw_inv {A B} (m : throws A) (f : A -> throws B) e :
  tbind m f = Throw e -> m = Throw e \/ exists a, m = Ok a /\ f a = Throw e.
Proof. destruct m as [a|e']; simpl; [eauto | intros [= ->]; auto]. Qed.

#[export] Hint Rewrite @bind_Ok @bind_Throw : ma_rw.

(** Take apart a hypothesis about a completion. *)
Ltac throws_inv :=
  repeat match goal with
  | H : Ok _ = Ok _ |- _ => injection H as H; try subst
  | H : Throw _ = Throw _ |- _ => injection H as H; try subst
  | H : Throw _ = Ok _ |- _ => discriminate H
  | H : Ok _ = Throw _ |- _ => discriminate H
  | H : tbind _ _ = Ok _ |- _ =>
      let a := fresh "a" in let Ha := fresh "Ha" in
      apply bind_Ok_inv in H as (a & Ha & H)
  end.

(** ** Strings *)

Lemma append_String x (t b : string) : String x t +:+ b = String x (t +:+ b).
Proof. reflexivity. Qed.

Lemma append_empty_l (a : string) : EmptyString +:+ a = a.
Proof. reflexivity. Qed.

Lemma append_assoc_str (a b c : string) : (a +:+ b) +:+ c = a +:+ (b +:+ c).
Proof. induction a as [|x t IH]; [done|]. rewrite !append_String. by rewrite IH. Qed.

Lemma append_empty_r (a : string) : a +:+ EmptyString = a.
Proof. induction a as [|x t IH]; [done|]. by rewrite append_String, IH. Qed.

Lemma length_append_str (a b : string) :
  String.length (a +:+ b) = String.length a + String.length b.
Proof. induction a as [|x t IH]; simpl; [done|]. by rewrite IH. Qed.

#[export] Hint Rewrite append_String append_assoc_str append_empty_r length_append_str : ma_rw.

(** ** Association lists: the own properties of a JavaScript object

    A JavaScript object is an ordered list of (key, value) pairs with
    distinct keys.  A read finds the key; a write replaces the value in
    place when the key exists and appends the pair otherwise, which is the
    order [JSON.stringify] later follows. *)

Section Assoc.
Context {A : Type}.
Implicit Types (l : list (string * A)) (k : string) (v : A).

Fixpoint assoc_get k l : option A :=
  match l with
  | [] => None
  | (k', v) :: t => if String.eqb k k' then Some v else assoc_get k t
  end.

Fixpoint assoc_set k v l : list (string * A) :=
  match l with
  | [] => [(k, v)]
  | (k', v') :: t =>
      if String.eqb k k' then (k', v) :: t else (k', v') :: assoc_set k v t
  end.

Lemma assoc_get_set_eq k v l : assoc_get k (assoc_set k v l) = Some v.
Proof.
  induction l as [|[k' v'] t IH]; simpl; [by rewrite String.eqb_refl|].
  destruct (String.eqb_spec k k') as [->|]; simpl.
  - by rewrite String.eqb_refl.
  - by rewrite (proj2 (String.eqb_neq _ _) n).
Qed.

Lemma assoc_get_set_ne k k2 v l :
  k <> k2 -> assoc_get k2 (assoc_set k v l) = assoc_get k2 l.
Proof.
  intros Hne. induction l as [|[k' v'] t IH]; simpl.
  - by rewrite (proj2 (String.eqb_neq k2 k) (not_eq_sym Hne)).
  - destruct (String.eqb_spec k k') as [->|]; simpl.
    + by rewrite (proj2 (String.eqb_neq k2 k') (not_eq_sym Hne)).
    + by rewrite IH.
Qed.

Lemma assoc_get_None k l : assoc_get k l = None <-> k ∉ map fst l.
Proof.
  induction l as [|[k' v'] t IH]; simpl; [set_solver|].
  destruct (String.eqb_spec k k') as [->|Hne].
  - split; [discriminate | set_solver].
  - rewrite IH. set_solver.
Qed.

Lemma assoc_get_Some_in k v l : assoc_get k l = Some v -> (k, v) ∈ l.
Proof.
  induction l as [|[k' v'] t IH]; simpl; [discriminate|].
  destruct (String.eqb_spec k k') as [->|]; [intros [= ->]; left|].
  intros H. right. by apply IH.
Qed.

Lemma assoc_set_keys_present k v l :
  k ∈ map fst l -> map fst (assoc_set k v l) = map fst l.
Proof.
  induction l as [|[k' v'] t IH]; simpl; [set_solver|].
  destruct (String.eqb_spec k k') as [->|Hne]; simpl; [done|].
  intros Hin. rewrite IH; [done | set_solver].
Qed.

Lemma assoc_set_keys_absent k v l :
  k ∉ map fst l -> map fst (assoc_set k v l) = map fst l ++ [k].
Proof.
  induction l as [|[k' v'] t IH]; simpl; [done|].
  destruct (String.eqb_spec k k') as [->|Hne]; simpl; [set_solver|].
  intros Hin. rewrite IH; [done | set_solver].
Qed.

(** A new key goes last. *)
Lemma assoc_set_absent_app k v l : k ∉ map fst l -> assoc_set k v l = l ++ [(k, v)].
Proof.
  induction l as [|[k' v'] t IH]; simpl; [done|]. intros Hk.
  destruct (String.eqb_spec k k') as [->|Hne]; [set_solver|]. rewrite IH; [done | set_solver].
Qed.

Lemma assoc_set_NoDup k v l :
  NoDup (map fst l) -> NoDup (map fst (assoc_set k v l)).
Proof.
  intros Hnd. destruct (decide (k ∈ map fst l)) as [Hin|Hout].
  - by rewrite assoc_set_keys_present.
  - rewrite assoc_set_keys_absent by done.
    apply NoDup_app. repeat split; [done| |apply NoDup_singleton]. set_solver.
Qed.

Lemma assoc_set_idem k v l :
  assoc_get k l = Some v -> assoc_set k v l = l.
Proof.
  induction l as [|[k' v'] t IH]; simpl; [discriminate|].
  destruct (String.eqb_spec k k') as [->|]; [by intros [= ->]|].
  intros H. by rewrite IH.
Qed.
End Assoc.

#[export] Hint Rewrite @assoc_get_set_eq : ma_rw.

(** ** Searching a list: [Array.prototype.findIndex] *)

Section FindIndex.
Context {B : Type}.

(** The pure search: the first position whose element satisfies [p]. *)
Fixpoint find_index (p : B -> bool) (l : list B) : option nat :=
  match l with
  | [] => None
  | x :: t => if p x then Some 0 else S <$> find_index p t
  end.

(** The search with a callback that may throw, as [findIndex] runs it:
    elements are visited left to right and the first exception stops the
    search. *)
Fixpoint find_index_m (p : B -> throws bool) (l : list B) : throws (option nat) :=
  match l with
  | [] => Ok None
  | x :: t =>
      b <- p x;;
      if b then Ok (Some 0) else (r <- find_index_m p t;; Ok (S <$> r))
  end.

Lemma find_index_Some p l i :
  find_index p l = Some i ->
  (exists x, l !! i = Some x /\ p x = true) /\
  (forall j y, j < i -> l !! j = Some y -> p y = false).
Proof.
  revert i. induction l as [|x t IH]; intros i; simpl; [discriminate|].
  destruct (p x) eqn:Hp.
  - intros [= <-]. split; [eauto | intros j y Hj; lia].
  - destruct (find_index p t) as [i'|] eqn:Ht; simpl; [|discriminate].
    intros [= <-]. destruct (IH i' eq_refl) as [[y [Hy Hpy]] Hbefore].
    split; [eauto|].
    intros [|j] z Hj Hz; simpl in Hz; [by simplify_eq|].
    apply (Hbefore j z); [lia | done].
Qed.

Lemma find_index_None p l :
  find_index p l = None <-> Forall (fun x => p x = false) l.
Proof.
  induction l as [|x t IH]; simpl; [split; auto|].
  rewrite Forall_cons. destruct (p x) eqn:Hp; [split; [discriminate | intros [? _]; congruence]|].
  destruct (find_index p t); simpl; rewrite <- IH; naive_solver.
Qed.

Lemma find_index_lt p l i : find_index p l = Some i -> i < length l.
Proof.
  intros H. destruct (find_index_Some p l i H) as [[x [Hx _]] _].
  by eapply lookup_lt_Some.
Qed.

Lemma find_index_app_None p l x :
  find_index p l = None -> p x = true -> find_index p (l ++ [x]) = Some (length l).
Proof.
  induction l as [|y t IH]; simpl; [by intros _ ->|].
  destruct (p y); [discriminate|].
  destruct (find_index p t); simpl; [discriminate|]. intros _ Hx. by rewrite IH.
Qed.

Lemma find_index_m_pure (p : B -> throws bool) (q : B -> bool) l :
  Forall (fun x => p x = Ok (q x)) l -> find_index_m p l = Ok (find_index q l).
Proof.
  induction 1 as [|x t Hx Ht IH]; simpl; [done|].
  rewrite Hx. simpl. destruct (q x); [done|]. by rewrite IH.
Qed.

Lemma find_index_m_throw (p : B -> throws bool) l1 x l2 e :
  Forall (fun y => exists b, p y = Ok b /\ b = false) l1 -> p x = Throw e ->
  find_index_m p (l1 ++ x :: l2) = Throw e.
Proof.
  intros Hl1 Hx. induction Hl1 as [|y t [b [Hy ->]] Ht IH]; simpl.
  - by rewrite Hx.
  - rewrite Hy. simpl. by rewrite IH.
Qed.
End FindIndex.

#[export] Hint Resolve find_index_lt : ma.
