(* ===== verification/JsValue.v ===== *)
(** * JsValue: the JavaScript values the two scripts manipulate

    The credential store is a JSON text; [JSON.parse] turns it into a tree of
    JavaScript objects, arrays and primitives which [add-account.ts] then
    mutates with property writes, [Array.prototype.findIndex] and [push],
    and which [JSON.stringify] turns back into text.  This file models that
    value space: the values ([jsval]), truthiness ([truthy], used by every
    [if (!x)] and [x || 0] of the sources), property reads ([js_get]) and
    writes ([js_set_named]) with their strict-mode exceptions (both scripts
    are ES modules, hence strict code), and the value [JSON.stringify] keeps
    ([json_of]), together with the characterisation of JSON documents
    ([is_json]) and the round-trip lemmas between them.

    Numbers are IEEE-754 binary64 values (Rocq's primitive [float]), as in
    JavaScript.  Strings are Rocq strings of 8-bit characters: the model
    treats a JavaScript string as its sequence of code units and does not
    model characters outside ASCII. *)

From Stdlib Require Import ZArith Floats Ascii.
From stdpp Require Import base list sets strings.
From S2P Require Import Prelude.

(** ** Values *)

#[local] Set Warnings "-register-all".

Inductive jsval : Type :=
  | JUndefined
  | JNull
  | JBool (b : bool)
  | JNum (n : float)
  | JStr (s : string)
  (** An array: its elements, and the named (non-index) properties a script
      may have added to it; [JSON.stringify] ignores the latter. *)
  | JArr (elems : list jsval) (props : list (string * jsval))
  (** A plain object: its own enumerable properties in creation order. *)
  | JObj (props : list (string * jsval))
  (** A member inherited from a built-in prototype ([Object.prototype.toString],
      [Array.prototype.findIndex], ...): a function, or [Object.prototype]
      itself for ["__proto__"].  Its identity is the key it was read at. *)
  | JBuiltin (key : string).

(** Induction through the nested lists of arrays and objects. *)
Definition jsval_ind' (P : jsval -> Prop)
  (Hu : P JUndefined) (Hn : P JNull) (Hb : forall b, P (JBool b))
  (Hnum : forall n, P (JNum n)) (Hs : forall s, P (JStr s))
  (Ha : forall es ps, Forall P es -> Forall (fun kv => P kv.2) ps -> P (JArr es ps))
  (Ho : forall ps, Forall (fun kv => P kv.2) ps -> P (JObj ps))
  (Hf : forall k, P (JBuiltin k)) : forall v, P v :=
  fix go v :=
    match v with
    | JUndefined => Hu
    | JNull => Hn
    | JBool b => Hb b
    | JNum n => Hnum n
    | JStr s => Hs s
    | JArr es ps =>
        Ha es ps
          ((fix goe l := match l return Forall P l with
                         | [] => @List.Forall_nil _ P
                         | e :: t => @List.Forall_cons _ P e t (go e) (goe t) end) es)
          ((fix gop l := match l return Forall (fun kv => P kv.2) l with
                         | [] => @List.Forall_nil _ (fun kv => P kv.2)
                         | kv :: t => @List.Forall_cons _ (fun kv => P kv.2) kv t (go kv.2) (gop t) end) ps)
    | JObj ps =>
        Ho ps
          ((fix gop l := match l return Forall (fun kv => P kv.2) l with
                         | [] => @List.Forall_nil _ (fun kv => P kv.2)
                         | kv :: t => @List.Forall_cons _ (fun kv => P kv.2) kv t (go kv.2) (gop t) end) ps)
    | JBuiltin k => Hf k
    end.

(** ** Numbers *)

(** The binary64 value of a natural number (exact below 2^53). *)
Definition float_of_nat (n : nat) : float := PrimFloat.of_uint63 (Uint63.of_Z (Z.of_nat n)).

(** ** Truthiness: [ToBoolean] *)

Definition truthy (v : jsval) : bool :=
  match v with
  | JUndefined | JNull => false
  | JBool b => b
  | JNum n => negb (PrimFloat.is_zero n || PrimFloat.is_nan n)
  | JStr s => negb (String.eqb s "")
  | JArr _ _ | JObj _ | JBuiltin _ => true
  end.

(** [v === s] for a string primitive [s]. *)
Definition js_eq_str (v : jsval) (s : string) : bool :=
  match v with JStr t => String.eqb t s | _ => false end.

(** ** Built-in prototype members (ECMAScript 2023)

    A read of a key that an object does not own continues on its prototype.
    Every key a script reads at a fixed name ([anthropic], [multiAccounts],
    [accounts], [name], [usage], ...) is absent from these lists; only the
    dynamic read [multi.usage[account.name]] of [usage.ts] can reach them. *)

Definition object_proto_keys : list string :=
  ["constructor"; "__defineGetter__"; "__defineSetter__"; "hasOwnProperty";
   "__lookupGetter__"; "__lookupSetter__"; "isPrototypeOf";
   "propertyIsEnumerable"; "toString"; "valueOf"; "__proto__"; "toLocaleString"].

Definition array_proto_keys : list string :=
  ["at"; "concat"; "copyWithin"; "entries"; "every"; "fill"; "filter"; "find";
   "findIndex"; "findLast"; "findLastIndex"; "flat"; "flatMap"; "forEach";
   "includes"; "indexOf"; "join"; "keys"; "lastIndexOf"; "map"; "pop"; "push";
   "reduce"; "reduceRight"; "reverse"; "shift"; "slice"; "some"; "sort";
   "splice"; "toReversed"; "toSorted"; "toSpliced"; "unshift"; "values"; "with"]
  ++ object_proto_keys.

Definition string_proto_keys : list string :=
  ["at"; "charAt"; "charCodeAt"; "codePointAt"; "concat"; "endsWith";
   "includes"; "indexOf"; "isWellFormed"; "lastIndexOf"; "localeCompare";
   "match"; "matchAll"; "normalize"; "padEnd"; "padStart"; "repeat"; "replace";
   "replaceAll"; "search"; "slice"; "split"; "startsWith"; "substring";
   "substr"; "toLocaleLowerCase"; "toLocaleUpperCase"; "toLowerCase";
   "toUpperCase"; "toWellFormed"; "trim"; "trimEnd"; "trimStart"; "trimLeft";
   "trimRight"; "anchor"; "big"; "blink"; "bold"; "fixed"; "fontcolor";
   "fontsize"; "italics"; "link"; "small"; "strike"; "sub"; "sup"]
  ++ object_proto_keys.

Definition number_proto_keys : list string :=
  ["toExponential"; "toFixed"; "toPrecision"] ++ object_proto_keys.

Definition function_proto_keys : list string :=
  ["apply"; "bind"; "call"] ++ object_proto_keys.

Definition inherited (keys : list string) (k : string) : jsval :=
  if existsb (String.eqb k) keys then JBuiltin k else JUndefined.

(** ** Array indices: canonical decimal strings below 2^32 - 1 *)

Definition digit_value (c : Ascii.ascii) : option N :=
  let n := Ascii.N_of_ascii c in
  if (48 <=? n)%N && (n <=? 57)%N then Some (n - 48)%N else None.

Fixpoint digits_value (s : string) (acc : N) : option N :=
  match s with
  | EmptyString => Some acc
  | String c t => d ← digit_value c; digits_value t (acc * 10 + d)%N
  end.

Definition array_index (k : string) : option nat :=
  match k with
  | String "0"%char EmptyString => Some 0
  | String "0"%char _ | EmptyString => None
  | _ => n ← digits_value k 0; if (n <? 4294967295)%N then Some (N.to_nat n) else None
  end.

(** ** Property read: [v[k]] *)

Definition js_get (v : jsval) (k : string) : throws jsval :=
  match v with
  | JUndefined | JNull => Throw TypeError
  | JBool _ => Ok (inherited (["toString"; "valueOf"] ++ object_proto_keys) k)
  | JNum _ => Ok (inherited number_proto_keys k)
  | JStr s =>
      if String.eqb k "length" then Ok (JNum (float_of_nat (String.length s))) else
      match array_index k with
      | Some i => Ok (match String.get i s with
                      | Some c => JStr (String c EmptyString)
                      | None => JUndefined end)
      | None => Ok (inherited string_proto_keys k)
      end
  | JArr es ps =>
      if String.eqb k "length" then Ok (JNum (float_of_nat (length es))) else
      match array_index k with
      | Some i => Ok (default JUndefined (es !! i))
      | None =>
          match assoc_get k ps with
          | Some x => Ok x
          | None => Ok (inherited array_proto_keys k)
          end
      end
  | JObj ps =>
      match assoc_get k ps with
      | Some x => Ok x
      | None => Ok (inherited object_proto_keys k)
      end
  | JBuiltin _ => Ok (inherited function_proto_keys k)
  end.

(** ** Property write: [v[k] = x] for a key that is neither an array index,
    nor ["length"], nor the inherited accessor ["__proto__"]

    In strict code a write to a primitive throws, as does any access to
    [null] or [undefined].  On an array the key becomes a named property. *)

Definition js_set_named (v : jsval) (k : string) (x : jsval) : throws jsval :=
  match v with
  | JObj ps => Ok (JObj (assoc_set k x ps))
  | JArr es ps => Ok (JArr es (assoc_set k x ps))
  | JBuiltin _ => Ok v
  | JUndefined | JNull | JBool _ | JNum _ | JStr _ => Throw TypeError
  end.

(** [v.k1.k2...kn] *)
Fixpoint js_get_path (v : jsval) (ks : list string) : throws jsval :=
  match ks with
  | [] => Ok v
  | k :: ks' => w <- js_get v k;; js_get_path w ks'
  end.

(** [v.k1...kn = x]: the objects along the path are shared with [v], so the
    write is visible from [v]; the model rebuilds the path. *)
Fixpoint js_set_path (v : jsval) (ks : list string) (x : jsval) : throws jsval :=
  match ks with
  | [] => Ok x
  | [k] => js_set_named v k x
  | k :: ks' => w <- js_get v k;; w' <- js_set_path w ks' x;; js_set_named v k w'
  end.

(** ** What [JSON.stringify] keeps

    [SerializeJSONProperty]: [undefined] and functions have no JSON form (an
    object drops such a property, an array writes [null]); non-finite
    numbers are written [null]; [-0] is written [0]; the named properties of
    an array are not written. *)

Fixpoint json_of (v : jsval) : option jsval :=
  match v with
  | JUndefined | JBuiltin _ => None
  | JNull => Some JNull
  | JBool b => Some (JBool b)
  | JNum n =>
      Some (if PrimFloat.is_finite n
            then JNum (if PrimFloat.is_zero n then PrimFloat.zero else n)
            else JNull)
  | JStr s => Some (JStr s)
  | JArr es _ =>
      Some (JArr ((fix go l := match l with
                               | [] => []
                               | e :: t => default JNull (json_of e) :: go t end) es) [])
  | JObj ps =>
      Some (JObj ((fix go l := match l with
                               | [] => []
                               | (k, e) :: t =>
                                   match json_of e with
                                   | Some j => (k, j) :: go t
                                   | None => go t
                                   end end) ps))
  end.

(** A JSON document value: what [JSON.parse] can return. *)
Fixpoint is_json (v : jsval) : bool :=
  match v with
  | JNull | JBool _ | JStr _ => true
  | JNum n => Leibniz.eqb n PrimFloat.zero || (PrimFloat.is_finite n && negb (PrimFloat.is_zero n))
  | JArr es ps =>
      ((fix go l := match l with [] => true | e :: t => is_json e && go t end) es)
      && bool_decide (ps = [])
  | JObj ps =>
      ((fix go l := match l with [] => true | (_, e) :: t => is_json e && go t end) ps)
      && bool_decide (NoDup (map fst ps))
  | JUndefined | JBuiltin _ => false
  end.

(** ** The host engine's conversions

    A few operations of the scripts depend on algorithms of the JavaScript
    engine that the model takes as given rather than re-implementing: the
    decimal reading and writing of numbers ([StringToNumber],
    [Number::toString]) and the locale formatting of a [Date].  They form the
    interface [JsHost]; every definition that needs one of them takes the
    instance as an argument, and every theorem holds for all instances. *)

Class JsHost : Type := {
  host_string_to_number : string -> float;
  host_number_to_string : float -> string;
  (** [Intl.DateTimeFormat('default', ...).format(new Date(ms))] *)
  host_format_date : Z -> string;
  (** the longest string the engine builds; [repeat] beyond it throws a
      [RangeError] (2^31 - 1 code units in JavaScriptCore) *)
  host_max_string_length : Z
}.

Section Conversions.
Context `{JsHost}.

(** [ToString] *)
Fixpoint js_to_string (v : jsval) : string :=
  match v with
  | JUndefined => "undefined"
  | JNull => "null"
  | JBool b => if b then "true" else "false"
  | JNum n => host_number_to_string n
  | JStr s => s
  | JArr es _ =>
      (* Array.prototype.join(","), with null and undefined as "" *)
      (fix go l := match l with
                   | [] => ""
                   | [e] => match e with JUndefined | JNull => "" | _ => js_to_string e end
                   | e :: t =>
                       (match e with JUndefined | JNull => "" | _ => js_to_string e end)
                         +:+ ("," +:+ go t)
                   end) es
  | JObj _ => "[object Object]"
  | JBuiltin k =>
      if String.eqb k "__proto__" then "[object Object]"
      else "function " +:+ k +:+ "() { [native code] }"
  end.

(** [ToNumber] *)
Definition js_to_number (v : jsval) : float :=
  match v with
  | JUndefined => PrimFloat.nan
  | JNull => PrimFloat.zero
  | JBool b => if b then PrimFloat.one else PrimFloat.zero
  | JNum n => n
  | JStr s => host_string_to_number s
  | JArr _ _ => host_string_to_number (js_to_string v)
  | JObj _ | JBuiltin _ => PrimFloat.nan
  end.
End Conversions.

(** ** Reads and writes at the keys the scripts use *)

(** The keys [add-account.ts] writes and reads at fixed names. *)
Definition store_keys : list string :=
  ["anthropic"; "multiAccounts"; "accounts"; "name"; "access_token";
   "refresh_token"; "expires_in"].

Lemma store_keys_plain k :
  k ∈ store_keys -> (k ∉ array_proto_keys) /\ array_index k = None /\ k <> "length".
Proof.
  intros Hk. apply list_elem_of_In in Hk. simpl in Hk.
  repeat (destruct Hk as [<-|Hk]); [..|contradiction];
    (split_and!; [apply (bool_decide_unpack _); vm_compute; exact I
                 | reflexivity | discriminate]).
Qed.

Lemma inherited_not_in keys k : k ∉ keys -> inherited keys k = JUndefined.
Proof.
  intros Hk. unfold inherited. destruct (existsb _ _) eqn:E; [|done].
  apply existsb_exists in E as [k' [Hin Heq]]. apply String.eqb_eq in Heq as ->.
  apply list_elem_of_In in Hin. contradiction.
Qed.

(** A read at a store key sees the own property or [undefined]. *)
Lemma js_get_obj_key ps k :
  k ∈ store_keys -> js_get (JObj ps) k = Ok (default JUndefined (assoc_get k ps)).
Proof.
  intros Hk. destruct (store_keys_plain k Hk) as (Hp & _ & _). simpl.
  destruct (assoc_get k ps); [done|]. simpl. rewrite inherited_not_in; [done|].
  unfold array_proto_keys in Hp. set_solver.
Qed.

Lemma js_get_arr_key es ps k :
  k ∈ store_keys -> js_get (JArr es ps) k = Ok (default JUndefined (assoc_get k ps)).
Proof.
  intros Hk. destruct (store_keys_plain k Hk) as (Hp & Hi & Hl). simpl.
  rewrite (proj2 (String.eqb_neq _ _) Hl), Hi.
  destruct (assoc_get k ps); [done|]. simpl. by rewrite inherited_not_in.
Qed.

Lemma js_get_set_named v k x v' :
  k ∈ store_keys -> js_set_named v k x = Ok v' ->
  (exists ps, v = JObj ps \/ exists es, v = JArr es ps) -> js_get v' k = Ok x.
Proof.
  intros Hk Hset [ps [->|[es ->]]]; simpl in Hset; throws_inv.
  - rewrite js_get_obj_key by done. by rewrite assoc_get_set_eq.
  - rewrite js_get_arr_key by done. by rewrite assoc_get_set_eq.
Qed.

Ltac solve_store_key := apply list_elem_of_In; simpl; tauto.

#[export] Hint Rewrite js_get_obj_key js_get_arr_key using solve_store_key : ma_rw.

(** ** [JSON.stringify] followed by [JSON.parse]

    The development abstracts the text of the store by the value [JSON.parse]
    reads back from it, [json_of d] for a document written from [d].  The
    lemmas below are the two facts the rest relies on: what is written is a
    JSON document, and a JSON document is written back unchanged. *)

(** Every object reachable in a value has distinct keys: the values
    [JSON.parse] builds have it and property writes keep it. *)
Fixpoint keys_nodup (v : jsval) : bool :=
  match v with
  | JArr es _ => (fix go l := match l with [] => true | e :: t => keys_nodup e && go t end) es
  | JObj ps =>
      bool_decide (NoDup (map fst ps)) &&
      (fix go l := match l with [] => true | (_, e) :: t => keys_nodup e && go t end) ps
  | _ => true
  end.

Lemma float_zero_eq n : Leibniz.eqb n PrimFloat.zero = true -> n = PrimFloat.zero.
Proof. apply FloatAxioms.Leibniz.eqb_spec. Qed.

Lemma json_of_num_json n :
  Leibniz.eqb n PrimFloat.zero || (PrimFloat.is_finite n && negb (PrimFloat.is_zero n)) = true ->
  json_of (JNum n) = Some (JNum n).
Proof.
  simpl. intros [Hz%float_zero_eq | [Hf Hnz]%andb_prop]%orb_prop.
  - by subst.
  - rewrite Hf. apply negb_true_iff in Hnz. by rewrite Hnz.
Qed.

(** A JSON document is its own [JSON.stringify] view. *)
Lemma json_of_json v : is_json v = true -> json_of v = Some v.
Proof.
  induction v as [| | | n | | es ps Hes _ | ps Hps |] using jsval_ind'; simpl; try done.
  - apply json_of_num_json.
  - intros [Hall Hps0]%andb_prop. apply bool_decide_eq_true in Hps0 as ->.
    do 2 f_equal. induction Hes as [|e t He Ht IH]; simpl in *; [done|].
    apply andb_prop in Hall as [He' Ht']. rewrite He by done. simpl. f_equal. by apply IH.
  - intros [Hall _]%andb_prop. do 2 f_equal.
    induction Hps as [|[k e] t He Ht IH]; simpl in *; [done|].
    apply andb_prop in Hall as [He' Ht']. rewrite He by done. f_equal. by apply IH.
Qed.

Lemma json_of_props_keys_sublist (ps : list (string * jsval)) :
  sublist (map fst ((fix go l := match l with
                                 | [] => []
                                 | (k, e) :: t =>
                                     match json_of e with
                                     | Some j => (k, j) :: go t
                                     | None => go t
                                     end end) ps)) (map fst ps).
Proof.
  induction ps as [|[k e] t IH]; simpl; [done|].
  destruct (json_of e); simpl; [by apply sublist_skip | by apply sublist_cons].
Qed.

(** What [JSON.stringify] writes is a JSON document. *)
Lemma json_of_is_json v j : keys_nodup v = true -> json_of v = Some j -> is_json j = true.
Proof.
  revert j. induction v as [| | | n | | es ps Hes _ | ps Hps |] using jsval_ind';
    simpl; intros j Hwf Hj; simplify_eq; try done.
  - destruct (PrimFloat.is_finite n) eqn:Hf; [|done]. simpl.
    destruct (PrimFloat.is_zero n) eqn:Hz; simpl.
    + reflexivity.
    + rewrite Hf, Hz. by destruct (Leibniz.eqb n PrimFloat.zero).
  - apply andb_true_intro. split; [|by apply bool_decide_eq_true].
    induction Hes as [|e t He Ht IH]; simpl in *; [done|].
    apply andb_prop in Hwf as [He' Ht']. apply andb_true_intro. split; [|by apply IH].
    destruct (json_of e) eqn:E; simpl; [by eapply He | done].
  - apply andb_prop in Hwf as [Hnd%bool_decide_eq_true Hwf]. apply andb_true_intro. split.
    + clear Hnd. induction Hps as [|[k e] t He Ht IH]; simpl in *; [done|].
      apply andb_prop in Hwf as [He' Ht']. destruct (json_of e) eqn:E; simpl; [|by apply IH].
      apply andb_true_intro. split; [by eapply He | by apply IH].
    + apply bool_decide_eq_true. eapply sublist_NoDup; [exact Hnd | apply json_of_props_keys_sublist].
Qed.

(** Proofs rewrite reads with the lemmas above rather than unfolding them. *)
Arguments js_get : simpl never.

(** The nested checks of [is_json] as list predicates. *)
Lemma is_json_arr_iff es ps :
  is_json (JArr es ps) = true <-> Forall (fun e => is_json e = true) es /\ ps = [].
Proof.
  simpl. rewrite andb_true_iff, bool_decide_eq_true. apply and_iff_compat_r.
  induction es as [|e es IH]; simpl; [split; constructor|].
  rewrite andb_true_iff, IH. split; [intros []; by constructor | by inversion 1].
Qed.

Lemma is_json_obj_iff ps :
  is_json (JObj ps) = true <->
  Forall (fun kv => is_json kv.2 = true) ps /\ NoDup (map fst ps).
Proof.
  simpl. rewrite andb_true_iff, bool_decide_eq_true. apply and_iff_compat_r.
  induction ps as [|[k e] ps IH]; simpl; [split; constructor|].
  rewrite andb_true_iff, IH. split; [intros []; by constructor | by inversion 1].
Qed.

(** ** A concrete host, for running the model on examples

    Decimal integers only, both ways: enough to evaluate the scripts on the
    inputs of the examples; the theorems do not depend on it. *)
Fixpoint float_of_digits (s : string) (acc : float) : float :=
  match s with
  | EmptyString => acc
  | String c t =>
      match digit_value c with
      | Some d => float_of_digits t (acc * float_of_nat 10 + float_of_nat (N.to_nat d))%float
      | None => PrimFloat.nan
      end
  end.

(** The decimal digits of [n] ([fuel] bounds their number). *)
Fixpoint decimal_digits (fuel : nat) (n : N) (acc : string) : string :=
  match fuel with
  | O => acc
  | S f =>
      let acc' := String (Ascii.ascii_of_N (48 + n mod 10)) acc in
      if (n <? 10)%N then acc' else decimal_digits f (n / 10) acc'
  end.

(** The integer a float holds, if it is integral. *)
Definition float_integer (x : float) : option Z :=
  match Prim2SF x with
  | S754_zero _ => Some 0%Z
  | S754_finite s m e =>
      let z := if s then Z.neg m else Z.pos m in
      if (0 <=? e)%Z then Some (z * 2 ^ e)%Z
      else if (Z.pos m mod 2 ^ (- e) =? 0)%Z then Some (z / 2 ^ (- e))%Z else None
  | _ => None
  end.

Definition sample_host : JsHost := {|
  host_string_to_number s :=
    match s with
    | EmptyString => PrimFloat.zero
    | String "-"%char t => (- float_of_digits t PrimFloat.zero)%float
    | _ => float_of_digits s PrimFloat.zero
    end;
  host_number_to_string x :=
    match float_integer x with
    | Some z => (if (z <? 0)%Z then "-" else "") +:+ decimal_digits 20 (Z.to_N (Z.abs z)) ""
    | None => ""
    end;
  host_format_date _ := "";
  host_max_string_length := 2147483647
|}.
