(* ===== verification/AuthStore.v ===== *)
(** * AuthStore: the credential store file and its accessors

    [src/add-account.ts] reads and writes one JSON file, [AUTH_FILE]
    (~/.local/share/opencode/auth.json).  [loadAuth] (lines 12-19) returns a
    default document when the file is missing and also when reading or
    parsing it throws; [saveAuth] (lines 21-23) writes the whole document
    with [JSON.stringify(data, null, 2)].

    The file is modelled by what the program can observe of it: absent, a
    text that [JSON.parse] rejects, or a text whose parse is the JSON
    document [doc].  Two texts with the same parse (they differ in
    whitespace only) are the same state. *)

From stdpp Require Import base list strings.
From S2P Require Import Prelude JsValue.

Inductive file_state : Type :=
  | Absent                      (** [existsSync(AUTH_FILE)] is false *)
  | Unparsable (text : string)  (** [readFileSync] or [JSON.parse] throws *)
  | Stored (doc : jsval).       (** [JSON.parse] returns [doc] *)

(** What a stored text can hold: a JSON document. *)
Definition file_ok (f : file_state) : Prop :=
  match f with Stored d => is_json d = true | _ => True end.

(** [{ anthropic: { multiAccounts: { accounts: [] } } }] *)
Definition default_auth : jsval :=
  JObj [("anthropic", JObj [("multiAccounts", JObj [("accounts", JArr [] [])])])].

(** add-account.ts:12-19 *)
Definition loadAuth (f : file_state) : jsval :=
  match f with
  | Absent => default_auth
  | Unparsable _ => default_auth
  | Stored doc => doc
  end.

(** add-account.ts:21-23.  [JSON.stringify] of a value with no JSON form
    returns [undefined], which [writeFileSync] rejects with a [TypeError];
    a write the file system refuses ([writable = false]) throws. *)
Definition saveAuth (writable : bool) (data : jsval) : throws file_state :=
  match json_of data with
  | None => Throw TypeError
  | Some text => if writable then Ok (Stored text) else Throw SystemError
  end.

