(* ===== verification/JsonText.v ===== *)
(** * JsonText: the text of the store file

    [saveAuth] writes [JSON.stringify(data, null, 2)] (add-account.ts:22)
    and both scripts read the file back with [JSON.parse] (add-account.ts:15,
    usage.ts:12).  The rest of the development abstracts the file by the
    value the text parses to ([AuthStore.Stored]); this file gives the text
    and proves that the abstraction is exact: [JSON.parse] of what
    [JSON.stringify] writes is [json_of] of the saved value.

    - [json_text ind v]: [SerializeJSONProperty] with the gap of two spaces
      ([QuoteJSONString] for strings, [SerializeJSONObject] and
      [SerializeJSONArray] with their line breaks and indentation);
    - [parse_value] / [parse_elems] / [parse_members]: the JSON grammar
      (ECMA-404) read by recursive descent, with fuel; a repeated key keeps
      its first position and its last value, as [CreateDataProperty] does;
    - [json_parse]: the whole text, surrounded by white space only.

    Numbers are written by the host's [Number::toString] and read by its
    [StringToNumber] ([JsHost]); the round trip asks of each number of the
    document that the host reads back what it wrote ([nums_ok]).  Strings
    are 8-bit: a [\u] escape above [\u00ff] is outside the model. *)

From Stdlib Require Import Ascii Floats.
From stdpp Require Import base list sets strings.
From S2P Require Import Prelude JsValue AuthStore.

(** ** Characters *)

Definition quote_char : ascii := "034"%char.
Definition bslash : ascii := "092"%char.
Definition newline : ascii := "010"%char.

Definition hex_digit (n : N) : ascii :=
  match String.get (N.to_nat n) "0123456789abcdef" with Some c => c | None => "0"%char end.

(** [QuoteJSONString], one code unit. *)
Definition json_escape (c : ascii) : string :=
  let n := Ascii.N_of_ascii c in
  if (c =? quote_char)%char then String bslash (String quote_char EmptyString)
  else if (c =? bslash)%char then String bslash (String bslash EmptyString)
  else if (n =? 8)%N then String bslash "b"
  else if (n =? 9)%N then String bslash "t"
  else if (n =? 10)%N then String bslash "n"
  else if (n =? 12)%N then String bslash "f"
  else if (n =? 13)%N then String bslash "r"
  else if (n <? 32)%N then
    String bslash (String "u" (String "0" (String "0"
      (String (hex_digit (n / 16)) (String (hex_digit (n mod 16)) EmptyString)))))
  else String c EmptyString.

Fixpoint escape_all (s : string) : string :=
  match s with
  | EmptyString => EmptyString
  | String c t => json_escape c +:+ escape_all t
  end.

Definition json_quote (s : string) : string :=
  String quote_char (escape_all s +:+ String quote_char EmptyString).

(** ** [JSON.stringify(v, null, 2)] *)

Definition gap : string := "  ".

Section Printer.
Context `{JsHost}.

(** The text of a JSON value at indentation [ind]: elements and members one
    per line at [ind +:+ gap], separated by commas, the closing bracket on a
    line of its own at [ind]. *)
Fixpoint json_text (ind : string) (v : jsval) : string :=
  match v with
  | JNull => "null"
  | JBool b => if b then "true" else "false"
  | JNum n => host_number_to_string n
  | JStr s => json_quote s
  | JArr [] _ => "[]"
  | JArr (e :: es) _ =>
      "[" +:+ String newline ((ind +:+ gap) +:+ (json_text (ind +:+ gap) e +:+
        foldr (fun x acc => ("," +:+ String newline (ind +:+ gap)) +:+ (json_text (ind +:+ gap) x +:+ acc))
          (String newline (ind +:+ "]")) es))
  | JObj [] => "{}"
  | JObj ((k, e) :: ps) =>
      "{" +:+ String newline ((ind +:+ gap) +:+
        ((json_quote k +:+ (": " +:+ json_text (ind +:+ gap) e)) +:+
         foldr (fun kv acc => ("," +:+ String newline (ind +:+ gap)) +:+
                  ((json_quote kv.1 +:+ (": " +:+ json_text (ind +:+ gap) kv.2)) +:+ acc))
           (String newline (ind +:+ "}")) ps))
  | JUndefined | JBuiltin _ => EmptyString
  end.

(** [JSON.stringify(v, null, 2)]: [undefined] when [v] has no JSON form. *)
Definition json_stringify (v : jsval) : option string := json_text "" <$> json_of v.
End Printer.

(** ** [JSON.parse] *)

Definition is_ws (c : ascii) : bool :=
  (c =? " ")%char || (c =? "009")%char || (c =? newline)%char || (c =? "013")%char.

Fixpoint skip_ws (s : string) : string :=
  match s with
  | String c t => if is_ws c then skip_ws t else s
  | EmptyString => EmptyString
  end.

Definition is_digit (c : ascii) : bool := bool_decide (is_Some (digit_value c)).

Definition is_num_char (c : ascii) : bool :=
  is_digit c || (c =? "-")%char || (c =? "+")%char || (c =? ".")%char ||
  (c =? "e")%char || (c =? "E")%char.

(** The longest prefix of number characters, and the rest. *)
Fixpoint span_num (s : string) : string * string :=
  match s with
  | String c t => if is_num_char c then let '(a, b) := span_num t in (String c a, b) else ("", s)
  | EmptyString => ("", "")
  end.

Fixpoint skip_digits (s : string) : string :=
  match s with
  | String c t => if is_digit c then skip_digits t else s
  | EmptyString => EmptyString
  end.

Definition digits1 (s : string) : option string :=
  match s with String c t => if is_digit c then Some (skip_digits t) else None | _ => None end.

(** The number grammar: [-? (0 | [1-9][0-9]* ) (. [0-9]+)? ([eE] [+-]? [0-9]+)?]. *)
Definition int_part (s : string) : option string :=
  match s with
  | String c t => if (c =? "0")%char then Some t else digits1 s
  | EmptyString => None
  end.

Definition frac_part (s : string) : option string :=
  match s with
  | String c t => if (c =? ".")%char then digits1 t else Some s
  | EmptyString => Some EmptyString
  end.

Definition exp_part (s : string) : option string :=
  match s with
  | String c t =>
      if (c =? "e")%char || (c =? "E")%char then
        match t with
        | String d u => if (d =? "+")%char || (d =? "-")%char then digits1 u else digits1 t
        | EmptyString => None
        end
      else Some s
  | EmptyString => Some EmptyString
  end.

(** The optional sign, then the rest. *)
Definition unsigned (tok : string) : string :=
  match tok with String c t => if (c =? "-")%char then t else tok | EmptyString => tok end.

Definition valid_number (tok : string) : bool :=
  match r1 ← int_part (unsigned tok); r2 ← frac_part r1; exp_part r2 with
  | Some EmptyString => true
  | _ => false
  end.

Definition hex_value (c : ascii) : option N :=
  let n := Ascii.N_of_ascii c in
  if (48 <=? n)%N && (n <=? 57)%N then Some (n - 48)%N
  else if (97 <=? n)%N && (n <=? 102)%N then Some (n - 87)%N
  else if (65 <=? n)%N && (n <=? 70)%N then Some (n - 55)%N
  else None.

(** The character a one-letter escape stands for. *)
Definition unescape (e : ascii) : option ascii :=
  if (e =? quote_char)%char then Some quote_char
  else if (e =? bslash)%char then Some bslash
  else if (e =? "/")%char then Some "/"%char
  else if (e =? "b")%char then Some "008"%char
  else if (e =? "f")%char then Some "012"%char
  else if (e =? "n")%char then Some newline
  else if (e =? "r")%char then Some "013"%char
  else if (e =? "t")%char then Some "009"%char
  else None.

(** The characters of a string literal after its opening quote, up to the
    closing quote, and the text after it. *)
Fixpoint parse_string_body (s : string) : option (string * string) :=
  match s with
  | EmptyString => None
  | String c t =>
      if (c =? quote_char)%char then Some (EmptyString, t)
      else if (c =? bslash)%char then
        match t with
        | String e u =>
            match unescape e with
            | Some x => '(b, r) ← parse_string_body u; Some (String x b, r)
            | None =>
                if (e =? "u")%char then
                  match u with
                  | String h1 (String h2 (String h3 (String h4 w))) =>
                      d1 ← hex_value h1; d2 ← hex_value h2; d3 ← hex_value h3; d4 ← hex_value h4;
                      let code := (((d1 * 16 + d2) * 16 + d3) * 16 + d4)%N in
                      if (code <? 256)%N then
                        '(b, r) ← parse_string_body w; Some (String (Ascii.ascii_of_N code) b, r)
                      else None
                  | _ => None
                  end
                else None
            end
        | EmptyString => None
        end
      else if (Ascii.N_of_ascii c <? 32)%N then None
      else '(b, r) ← parse_string_body t; Some (String c b, r)
  end.

Section Parser.
Context `{JsHost}.

Fixpoint parse_value (fuel : nat) (s : string) : option (jsval * string) :=
  match fuel with
  | O => None
  | S f =>
      match skip_ws s with
      | EmptyString => None
      | String c t =>
          if (c =? "n")%char then
            match t with String "u"%char (String "l"%char (String "l"%char r)) => Some (JNull, r) | _ => None end
          else if (c =? "t")%char then
            match t with String "r"%char (String "u"%char (String "e"%char r)) => Some (JBool true, r) | _ => None end
          else if (c =? "f")%char then
            match t with
            | String "a"%char (String "l"%char (String "s"%char (String "e"%char r))) => Some (JBool false, r)
            | _ => None
            end
          else if (c =? quote_char)%char then '(b, r) ← parse_string_body t; Some (JStr b, r)
          else if (c =? "[")%char then
            match skip_ws t with
            | String d r => if (d =? "]")%char then Some (JArr [] [], r) else parse_elems f t []
            | EmptyString => None
            end
          else if (c =? "{")%char then
            match skip_ws t with
            | String d r => if (d =? "}")%char then Some (JObj [], r) else parse_members f t []
            | EmptyString => None
            end
          else
            let '(tok, r) := span_num (String c t) in
            if valid_number tok then Some (JNum (host_string_to_number tok), r) else None
      end
  end
with parse_elems (fuel : nat) (s : string) (acc : list jsval) : option (jsval * string) :=
  match fuel with
  | O => None
  | S f =>
      '(v, r) ← parse_value f s;
      match skip_ws r with
      | String d r' =>
          if (d =? ",")%char then parse_elems f r' (acc ++ [v])
          else if (d =? "]")%char then Some (JArr (acc ++ [v]) [], r')
          else None
      | EmptyString => None
      end
  end
with parse_members (fuel : nat) (s : string) (acc : list (string * jsval))
  : option (jsval * string) :=
  match fuel with
  | O => None
  | S f =>
      match skip_ws s with
      | String c t =>
          if (c =? quote_char)%char then
            '(k, r) ← parse_string_body t;
            match skip_ws r with
            | String d r1 =>
                if (d =? ":")%char then
                  '(v, r2) ← parse_value f r1;
                  match skip_ws r2 with
                  | String d' r3 =>
                      if (d' =? ",")%char then parse_members f r3 (assoc_set k v acc)
                      else if (d' =? "}")%char then Some (JObj (assoc_set k v acc), r3)
                      else None
                  | EmptyString => None
                  end
                else None
            | EmptyString => None
            end
          else None
      | EmptyString => None
      end
  end.

(** [JSON.parse(text)]; [None] is its [SyntaxError]. *)
Definition json_parse (text : string) : option jsval :=
  match parse_value (S (String.length text)) text with
  | Some (v, r) => if String.eqb (skip_ws r) "" then Some v else None
  | None => None
  end.

(** What [loadAuth] finds in a file holding [text]. *)
Definition file_of_text (text : string) : file_state :=
  match json_parse text with Some v => Stored v | None => Unparsable text end.

(** Every number of [v] is written by the host as a JSON number token that
    it reads back as the same number. *)
Fixpoint nums_ok (v : jsval) : bool :=
  match v with
  | JNum n =>
      valid_number (host_number_to_string n) &&
      Leibniz.eqb (host_string_to_number (host_number_to_string n)) n
  | JArr es _ => forallb nums_ok es
  | JObj ps => forallb (fun kv => nums_ok kv.2) ps
  | _ => true
  end.
End Parser.

(** The fuel a value needs: one per value, two more per element. *)
Fixpoint json_size (v : jsval) : nat :=
  match v with
  | JArr es _ => S (sum_list_with (fun e => json_size e + 2) es)
  | JObj ps => S (sum_list_with (fun kv => json_size kv.2 + 2) ps)
  | _ => 1
  end.

(** ** Strings: [QuoteJSONString] is read back by the string grammar *)

(** Each of the 256 characters, escaped or not, is read back as itself. *)
Lemma escape_parse c t :
  parse_string_body (json_escape c +:+ t) = ('(b, r) ← parse_string_body t; Some (String c b, r)).
Proof. destruct c as [[] [] [] [] [] [] [] []]; reflexivity. Qed.

Lemma string_body_parse s rest :
  parse_string_body (escape_all s +:+ String quote_char rest) = Some (s, rest).
Proof.
  induction s as [|c s IH]; [reflexivity|]. simpl escape_all.
  rewrite append_assoc_str, escape_parse, IH. reflexivity.
Qed.

(** ** White space and delimiters *)

Fixpoint all_ws (w : string) : bool :=
  match w with EmptyString => true | String c t => is_ws c && all_ws t end.

(** What may follow a value in a printed text: the end, a line break, a
    comma or a closing bracket. *)
Definition delim (rest : string) : bool :=
  match rest with
  | EmptyString => true
  | String c _ => is_ws c || (c =? ",")%char || (c =? "]")%char || (c =? "}")%char
  end.

Lemma skip_ws_app w s : all_ws w = true -> skip_ws (w +:+ s) = skip_ws s.
Proof. induction w as [|c t IH]; simpl; [done|]. intros [-> Ht]%andb_prop. by apply IH. Qed.

Lemma all_ws_app a b : all_ws (a +:+ b) = all_ws a && all_ws b.
Proof. induction a as [|c t IH]; simpl; [done|]. by rewrite IH, andb_assoc. Qed.

Lemma all_ws_indent ind : all_ws ind = true -> all_ws (ind +:+ gap) = true.
Proof. intros Hi. by rewrite all_ws_app, Hi. Qed.

Lemma skip_ws_char c t : is_ws c = false -> skip_ws (String c t) = String c t.
Proof. simpl. by intros ->. Qed.

Lemma skip_ws_line ind s :
  all_ws ind = true -> skip_ws (String newline (ind +:+ s)) = skip_ws s.
Proof. intros Hi. simpl. by apply skip_ws_app. Qed.

Lemma all_ws_newline ind : all_ws ind = true -> all_ws (String newline ind) = true.
Proof. done. Qed.

#[export] Hint Resolve all_ws_indent all_ws_newline : ma.

(** ** Number tokens *)

Fixpoint all_num (s : string) : bool :=
  match s with EmptyString => true | String c t => is_num_char c && all_num t end.

(** [s] is [r] preceded by number characters. *)
Definition num_suffix (s r : string) : Prop := exists p, s = p +:+ r /\ all_num p = true.

Lemma num_suffix_refl s : num_suffix s s.
Proof. by exists EmptyString. Qed.

Lemma num_suffix_cons c s r :
  is_num_char c = true -> num_suffix s r -> num_suffix (String c s) r.
Proof. intros Hc (p & -> & Hp). exists (String c p). simpl. by rewrite Hc, Hp. Qed.

Lemma digit_num c : is_digit c = true -> is_num_char c = true.
Proof. unfold is_num_char. by intros ->. Qed.

Lemma skip_digits_suffix s : num_suffix s (skip_digits s).
Proof.
  induction s as [|c t IH]; simpl; [apply num_suffix_refl|].
  destruct (is_digit c) eqn:Hc; [by apply num_suffix_cons; [apply digit_num|] | apply num_suffix_refl].
Qed.

Lemma digits1_suffix s r : digits1 s = Some r -> num_suffix s r.
Proof.
  destruct s as [|c t]; simpl; [done|]. destruct (is_digit c) eqn:Hc; [|done].
  intros [= <-]. apply num_suffix_cons; [by apply digit_num | apply skip_digits_suffix].
Qed.

Lemma eqb_num_char c d : (c =? d)%char = true -> is_num_char d = true -> is_num_char c = true.
Proof. by intros ->%Ascii.eqb_eq. Qed.

Lemma int_part_suffix s r : int_part s = Some r -> num_suffix s r.
Proof.
  destruct s as [|c t]; unfold int_part; [done|].
  destruct (c =? "0")%char eqn:Hc; [|apply digits1_suffix].
  intros [= <-]. apply num_suffix_cons; [by eapply eqb_num_char | apply num_suffix_refl].
Qed.

Lemma frac_part_suffix s r : frac_part s = Some r -> num_suffix s r.
Proof.
  destruct s as [|c t]; unfold frac_part; [intros [= <-]; apply num_suffix_refl|].
  destruct (c =? ".")%char eqn:Hc; [|intros [= <-]; apply num_suffix_refl].
  intros Hd. apply num_suffix_cons; [by eapply eqb_num_char | by apply digits1_suffix].
Qed.

Lemma exp_part_suffix s r : exp_part s = Some r -> num_suffix s r.
Proof.
  destruct s as [|c t]; unfold exp_part; [intros [= <-]; apply num_suffix_refl|].
  destruct ((c =? "e")%char || (c =? "E")%char) eqn:Hc; [|intros [= <-]; apply num_suffix_refl].
  assert (is_num_char c = true) as Hn
    by (apply orb_true_iff in Hc as [Hc|Hc]; by eapply eqb_num_char).
  intros Ht. apply num_suffix_cons; [done|]. destruct t as [|d u]; [done|].
  destruct ((d =? "+")%char || (d =? "-")%char) eqn:Hd; [|by apply digits1_suffix].
  apply num_suffix_cons; [|by apply digits1_suffix].
  apply orb_true_iff in Hd as [Hd|Hd]; by eapply eqb_num_char.
Qed.

Lemma num_suffix_trans s r u : num_suffix s r -> num_suffix r u -> num_suffix s u.
Proof.
  intros (p & -> & Hp) (q & -> & Hq). exists (p +:+ q). rewrite append_assoc_str. split; [done|].
  clear -Hp Hq. induction p as [|c t IH]; simpl in *; [done|].
  apply andb_prop in Hp as [-> Ht]. by apply IH.
Qed.

Lemma unsigned_suffix tok : num_suffix tok (unsigned tok).
Proof.
  destruct tok as [|c t]; simpl; [apply num_suffix_refl|].
  destruct (c =? "-")%char eqn:Hc; [|apply num_suffix_refl].
  apply num_suffix_cons; [by eapply eqb_num_char | apply num_suffix_refl].
Qed.

(** A valid number token is a non-empty run of number characters. *)
Lemma valid_number_all_num tok :
  valid_number tok = true -> tok <> EmptyString /\ all_num tok = true.
Proof.
  intros Hv. split; [by intros ->|]. unfold valid_number in Hv.
  destruct (int_part (unsigned tok)) as [r1|] eqn:E1; [|done]. simpl in Hv.
  destruct (frac_part r1) as [r2|] eqn:E2; [|done]. simpl in Hv.
  destruct (exp_part r2) as [[|? ?]|] eqn:E3; try done.
  destruct (num_suffix_trans _ _ _ (unsigned_suffix tok)
    (num_suffix_trans _ _ _ (int_part_suffix _ _ E1)
      (num_suffix_trans _ _ _ (frac_part_suffix _ _ E2) (exp_part_suffix _ _ E3))))
    as (p & -> & Hp).
  by rewrite append_empty_r.
Qed.

Lemma span_num_app tok rest :
  all_num tok = true -> delim rest = true -> span_num (tok +:+ rest) = (tok, rest).
Proof.
  intros Ht Hr. induction tok as [|c t IH]; simpl in *.
  - destruct rest as [|c t]; [done|]. simpl.
    destruct c as [[] [] [] [] [] [] [] []]; vm_compute in Hr |- *; try done.
  - apply andb_prop in Ht as [-> Ht]. by rewrite IH.
Qed.

(** The first character of a number token sends [parse_value] to the number
    branch. *)
Lemma num_char_cases c :
  is_num_char c = true ->
  is_ws c = false /\ (c =? "n")%char = false /\ (c =? "t")%char = false /\
  (c =? "f")%char = false /\ (c =? quote_char)%char = false /\ (c =? "[")%char = false /\
  (c =? "{")%char = false /\ (c =? "]")%char = false /\ (c =? "}")%char = false.
Proof. destruct c as [[] [] [] [] [] [] [] []]; vm_compute; intros Hc; by try discriminate. Qed.

Lemma foldr_app_rest {A} (F : A -> string) (sep z rest : string) (l : list A) :
  foldr (fun x acc => sep +:+ (F x +:+ acc)) z l +:+ rest =
  foldr (fun x acc => sep +:+ (F x +:+ acc)) (z +:+ rest) l.
Proof. induction l as [|x l IH]; simpl; [done|]. by rewrite !append_assoc_str, IH. Qed.

Section ParseLemmas.
Context `{JsHost}.

(** The text of a JSON value starts with a character that is not white
    space and closes nothing. *)
Lemma json_text_head ind v :
  is_json v = true -> nums_ok v = true ->
  exists c u, json_text ind v = String c u /\ is_ws c = false /\
              (c =? "]")%char = false /\ (c =? "}")%char = false.
Proof.
  intros Hj Hn. destruct v as [| |[]|n|s|[|e es] ps|[|[k e] ps]|k]; try discriminate;
    try by do 2 eexists.
  simpl in Hn. apply andb_prop in Hn as [Hv _].
  destruct (valid_number_all_num _ Hv) as [Hne Hall]. simpl json_text.
  destruct (host_number_to_string n) as [|c u]; [done|]. simpl in Hall.
  apply andb_prop in Hall as [Hc _]. exists c, u. by destruct (num_char_cases c Hc) as (? & _ & _ & _ & _ & _ & _ & ? & ?).
Qed.

Lemma parse_number f w tok rest :
  all_ws w = true -> valid_number tok = true -> delim rest = true ->
  parse_value (S f) (w +:+ (tok +:+ rest)) = Some (JNum (host_string_to_number tok), rest).
Proof.
  intros Hw Hv Hr. destruct (valid_number_all_num tok Hv) as [Hne Hall].
  cbn [parse_value]. rewrite skip_ws_app by done.
  destruct tok as [|c t]; [done|]. pose proof Hall as Hall'. simpl in Hall'.
  apply andb_prop in Hall' as [Hc _].
  destruct (num_char_cases c Hc) as (Hws & Hn & Ht & Hf & Hq & Hb & Hbr & _).
  rewrite append_String, skip_ws_char by done. rewrite Hn, Ht, Hf, Hq, Hb, Hbr.
  rewrite <- append_String, span_num_app by done. by rewrite Hv.
Qed.

Lemma parse_string f w s rest :
  all_ws w = true -> parse_value (S f) (w +:+ (json_quote s +:+ rest)) = Some (JStr s, rest).
Proof.
  intros Hw. cbn [parse_value]. rewrite skip_ws_app by done. unfold json_quote.
  rewrite append_String, skip_ws_char by reflexivity. cbn -[parse_string_body].
  rewrite append_assoc_str, append_String. change (EmptyString +:+ rest) with rest.
  by rewrite string_body_parse.
Qed.
End ParseLemmas.

(** ** The round trip *)

Section RoundTrip.
Context `{JsHost}.

(** [v] is read back from its text, at any indentation, after any white
    space, before any delimiter, with enough fuel. *)
Definition parses_back (v : jsval) : Prop :=
  forall ind w rest fuel,
    all_ws ind = true -> all_ws w = true -> is_json v = true -> nums_ok v = true ->
    delim rest = true -> json_size v < fuel ->
    parse_value fuel (w +:+ (json_text ind v +:+ rest)) = Some (v, rest).

Lemma parse_elems_text ind ind0 e es w acc rest f :
  Forall parses_back (e :: es) -> all_ws ind = true -> all_ws ind0 = true -> all_ws w = true ->
  Forall (fun x => is_json x = true /\ nums_ok x = true) (e :: es) ->
  sum_list_with (fun x => json_size x + 2) (e :: es) <= f ->
  parse_elems f (w +:+ (json_text ind e +:+
     foldr (fun x acc => ("," +:+ String newline ind) +:+ (json_text ind x +:+ acc))
       (String newline (ind0 +:+ String "]"%char rest)) es)) acc =
  Some (JArr (acc ++ e :: es) [], rest).
Proof.
  revert e w acc f. induction es as [|x es IH]; intros e w acc f HP Hi Hi0 Hw Hj Hs;
    destruct f as [|f]; try (simpl in Hs; lia);
    apply Forall_cons in HP as [He HPs]; apply Forall_cons in Hj as [[Hje Hne] Hjs];
    cbn [parse_elems].
  - rewrite He; [| done | done | done | done | by cbn [foldr] | simpl in Hs; lia]. cbn [mbind option_bind].
    cbn [foldr]. rewrite skip_ws_line, skip_ws_char by done. done.
  - cbn [foldr]. rewrite He; [| done | done | done | done | done | simpl in Hs; lia].
    cbn [mbind option_bind].
    rewrite append_assoc_str, append_String, append_empty_l, skip_ws_char by done. simpl.
    rewrite IH; [by rewrite <- app_assoc | done | done | done | by simpl; rewrite Hi | done |].
    simpl in Hs. simpl. lia.
Qed.
Lemma parse_members_text ind ind0 k e ps w acc rest f :
  Forall (fun kv => parses_back kv.2) ((k, e) :: ps) ->
  all_ws ind = true -> all_ws ind0 = true -> all_ws w = true ->
  Forall (fun kv => is_json kv.2 = true /\ nums_ok kv.2 = true) ((k, e) :: ps) ->
  NoDup (map fst (acc ++ (k, e) :: ps)) ->
  sum_list_with (fun kv => json_size kv.2 + 2) ((k, e) :: ps) <= f ->
  parse_members f (w +:+ (json_quote k +:+ (": " +:+ (json_text ind e +:+
     foldr (fun kv acc => ("," +:+ String newline ind) +:+
              ((json_quote kv.1 +:+ (": " +:+ json_text ind kv.2)) +:+ acc))
       (String newline (ind0 +:+ String "}"%char rest)) ps)))) acc =
  Some (JObj (acc ++ (k, e) :: ps), rest).
Proof.
  revert k e w acc f. induction ps as [|[k2 x] ps IH]; intros k e w acc f HP Hi Hi0 Hw Hj Hnd Hs;
    destruct f as [|f]; try (simpl in Hs; lia);
    apply Forall_cons in HP as [He HPs]; apply Forall_cons in Hj as [[Hje Hne] Hjs].
  all: assert (Hk : k ∉ map fst acc)
    by (rewrite map_app, NoDup_app in Hnd; destruct Hnd as (_ & Hdis & _);
        intros Hin; apply (Hdis k Hin); simpl; set_solver).
  all: simpl in Hs; cbn [parse_members]; rewrite skip_ws_app by done; unfold json_quote at 1.
  all: rewrite append_String, skip_ws_char by done; simpl.
  all: rewrite append_assoc_str, append_String, append_empty_l, string_body_parse.
  all: cbn [mbind option_bind]; rewrite append_String, skip_ws_char by done; simpl.
  all: cbn [snd] in He, Hje, Hne; rewrite He; [| done | done | done | done | reflexivity | lia].
  all: cbn [mbind option_bind]; rewrite assoc_set_absent_app by done.
  - cbn [foldr]. rewrite skip_ws_line, skip_ws_char by done. done.
  - cbn [foldr]. rewrite append_assoc_str, append_String, append_empty_l, skip_ws_char by done.
    simpl. rewrite (append_assoc_str (json_quote k2)), (append_assoc_str ": ").
    rewrite IH; [by rewrite <- app_assoc | done | done | done | by simpl; rewrite Hi | done
      | by rewrite <- app_assoc | simpl; lia].
Qed.
Lemma skip_ws_opening ind x rest :
  all_ws ind = true -> skip_ws (String newline (ind +:+ x) +:+ rest) = skip_ws (x +:+ rest).
Proof. intros Hi. rewrite append_String, append_assoc_str. by apply skip_ws_line. Qed.

Lemma quote_head k x :
  json_quote k +:+ x = String quote_char (escape_all k +:+ (String quote_char EmptyString +:+ x)).
Proof. unfold json_quote. by rewrite append_String, append_assoc_str. Qed.

Lemma closing_rest ind (c : ascii) rest :
  String newline (ind +:+ String c EmptyString) +:+ rest = String newline (ind +:+ String c rest).
Proof. by rewrite append_String, append_assoc_str. Qed.

Lemma forallb_and {A} (P : A -> Prop) (g : A -> bool) l :
  Forall P l -> forallb g l = true -> Forall (fun x => P x /\ g x = true) l.
Proof.
  induction l as [|x l IH]; intros Hp Hg; [constructor|]. simpl in Hg.
  apply andb_prop in Hg as [Hx Hg]. apply Forall_cons in Hp as [Hpx Hp]. constructor; auto.
Qed.

(** Every JSON value is read back from its text. *)
Lemma json_parses_back v : parses_back v.
Proof.
  induction v as [| | b | n | s | es ps Hes _ | ps Hps | k] using jsval_ind';
    intros ind w rest fuel Hi Hw Hj Hn Hr Hs; try discriminate;
    (destruct fuel as [|f]; [simpl in Hs; lia|]).
  - cbn [parse_value]. rewrite skip_ws_app by done. cbn [json_text].
    by rewrite !append_String, append_empty_l.
  - cbn [parse_value]. rewrite skip_ws_app by done. cbn [json_text].
    destruct b; by rewrite !append_String, append_empty_l.
  - simpl in Hn. apply andb_prop in Hn as [Hv Heq]. apply FloatAxioms.Leibniz.eqb_spec in Heq.
    cbn [json_text]. by rewrite parse_number, Heq.
  - by apply parse_string.
  - apply is_json_arr_iff in Hj as [Hjs ->]. simpl in Hs.
    pose proof (forallb_and _ nums_ok es Hjs Hn) as Hall.
    cbn [parse_value]. rewrite skip_ws_app by done. destruct es as [|e es].
    + cbn [json_text]. by rewrite !append_String, append_empty_l.
    + cbn [json_text]. rewrite append_assoc_str, append_String, append_empty_l, skip_ws_char by done.
      cbn -[skip_ws parse_elems json_text foldr]. rewrite skip_ws_opening by auto with ma.
      apply Forall_cons in Hall as Hall0. destruct Hall0 as [[Hje Hne] _].
      destruct (json_text_head (ind +:+ gap) e Hje Hne) as (c & u & Hte & Hcw & Hc1 & _).
      rewrite Hte at 1. rewrite (append_String c u), (append_String c (u +:+ _)), skip_ws_char, Hc1 by done.
      rewrite (append_String newline), !append_assoc_str.
      rewrite <- (append_assoc_str ind gap), <- (append_String newline (ind +:+ gap)).
      rewrite foldr_app_rest, closing_rest.
      apply parse_elems_text; auto with ma. lia.
  - apply is_json_obj_iff in Hj as [Hjs Hnd]. simpl in Hs.
    pose proof (forallb_and _ (fun kv => nums_ok kv.2) ps Hjs Hn) as Hall.
    cbn [parse_value]. rewrite skip_ws_app by done. destruct ps as [|[k e] ps].
    + cbn [json_text]. by rewrite !append_String, append_empty_l.
    + cbn [json_text]. rewrite append_assoc_str, append_String, append_empty_l, skip_ws_char by done.
      cbn -[skip_ws parse_members json_text json_quote foldr]. rewrite skip_ws_opening by auto with ma.
      match goal with |- context [skip_ws ?t] =>
        assert (Hq : exists r, skip_ws t = String quote_char r) end.
      { rewrite !append_assoc_str, quote_head.
        eexists. by apply skip_ws_char. }
      destruct Hq as [r Hq]. rewrite Hq. cbn -[parse_members json_text json_quote foldr].
      rewrite (append_String newline), !append_assoc_str, <- (append_assoc_str ind gap).
      rewrite <- (append_String newline (ind +:+ gap)), foldr_app_rest, closing_rest.
      apply (parse_members_text _ _ _ _ _ _ []); auto with ma. lia.
Qed.
End RoundTrip.

(** ** The fuel [json_parse] gives is enough *)

Lemma foldr_length_ge {A} (g : A -> nat) (F : A -> string) (sep z : string) (l : list A) :
  2 <= String.length sep -> Forall (fun x => g x <= String.length (F x)) l ->
  sum_list_with (fun x => g x + 2) l + String.length z <=
  String.length (foldr (fun x acc => sep +:+ (F x +:+ acc)) z l).
Proof.
  intros Hsep Hl. induction Hl as [|x l Hx Hl IH]; simpl; [done|].
  rewrite !length_append_str. lia.
Qed.

Section Length.
Context `{JsHost}.

(** A JSON value's text is at least as long as the fuel it needs. *)
Lemma json_text_length v ind :
  is_json v = true -> nums_ok v = true -> json_size v <= String.length (json_text ind v).
Proof.
  revert ind. induction v as [| | b | n | s | es ps Hes _ | ps Hps | k] using jsval_ind';
    intros ind Hj Hn; try discriminate; try (destruct b); try (simpl; lia).
  - simpl in Hn. apply andb_prop in Hn as [Hv _]. apply valid_number_all_num in Hv as [Hne _].
    simpl. destruct (host_number_to_string n); [done | simpl; lia].
  - apply is_json_arr_iff in Hj as [Hjs ->]. pose proof (forallb_and _ nums_ok es Hjs Hn) as Hall.
    destruct es as [|e es]; [simpl; lia|]. apply Forall_cons in Hes as [He Hes].
    apply Forall_cons in Hall as [[Hje Hne] Hall]. specialize (He (ind +:+ gap) Hje Hne).
    cbn [json_text json_size sum_list_with].
    match goal with |- context [foldr ?F ?z es] => set (T := foldr F z es) end.
    assert (HT : sum_list_with (fun x => json_size x + 2) es <= String.length T).
    { etrans; [|apply (foldr_length_ge json_size)]; [lia | rewrite length_append_str; simpl; lia |].
      eapply Forall_impl; [apply Forall_and; split; [exact Hes | exact Hall]|]. intros x [Hx [Hxj Hxn]]. by apply Hx. }
    rewrite !length_append_str. cbn [String.length]. rewrite !length_append_str.
    unfold gap in *. cbn [String.length]. lia.
  - apply is_json_obj_iff in Hj as [Hjs _].
    pose proof (forallb_and _ (fun kv => nums_ok kv.2) ps Hjs Hn) as Hall.
    destruct ps as [|[k e] ps]; [simpl; lia|]. apply Forall_cons in Hps as [He Hps].
    apply Forall_cons in Hall as [[Hje Hne] Hall]. cbn [snd] in *. specialize (He (ind +:+ gap) Hje Hne).
    cbn [json_text json_size sum_list_with].
    match goal with |- context [foldr ?F ?z ps] => set (T := foldr F z ps) end.
    assert (HT : sum_list_with (fun kv => json_size kv.2 + 2) ps <= String.length T).
    { etrans; [|apply (foldr_length_ge (fun kv => json_size kv.2))]; [lia | rewrite length_append_str; simpl; lia |].
      eapply Forall_impl; [apply Forall_and; split; [exact Hps | exact Hall]|]. intros [k' x] [Hx [Hxj Hxn]].
      cbn [fst snd] in *. rewrite !length_append_str. specialize (Hx (ind +:+ gap) Hxj Hxn). lia. }
    rewrite !length_append_str. cbn [String.length]. rewrite !length_append_str.
    unfold gap in *. cbn [String.length snd]. lia.
Qed.
End Length.

Section Parse.
Context `{JsHost}.

(** [JSON.parse] reads a JSON value back from its text at the top level. *)
Lemma json_parse_text v :
  is_json v = true -> nums_ok v = true -> json_parse (json_text "" v) = Some v.
Proof.
  intros Hj Hn. unfold json_parse.
  pose proof (json_parses_back v "" "" "" (S (String.length (json_text "" v))) eq_refl eq_refl Hj Hn
    eq_refl (le_n_S _ _ (json_text_length v "" Hj Hn))) as Hp.
  rewrite append_empty_r in Hp. change ("" +:+ ?x) with x in Hp. by rewrite Hp.
Qed.

(** ** [saveAuth] followed by [loadAuth], on the text *)

(** C24: what [saveAuth] writes, [JSON.stringify(data, null, 2)], is a
    text that [JSON.parse] reads back as exactly the file state the rest of
    the development gives to the save: the abstraction of the file by its
    parsed document is exact, provided the host reads each number back as
    the number it printed. *)
Theorem saveAuth_text_roundtrip d f :
  keys_nodup d = true -> saveAuth true d = Ok f -> nums_ok (loadAuth f) = true ->
  exists text, json_stringify d = Some text /\ file_of_text text = f.
Proof.
  unfold saveAuth, json_stringify. intros Hk Hs Hn.
  destruct (json_of d) as [j|] eqn:Hj; [|done]. injection Hs as <-. simpl in Hn.
  exists (json_text "" j). split; [done|]. unfold file_of_text.
  rewrite json_parse_text; [done | by eapply json_of_is_json | done].
Qed.
End Parse.

(** A store with one account whose expiry is a millisecond timestamp. *)
Definition text_doc : jsval :=
  JObj [("anthropic", JObj [("multiAccounts", JObj [("accounts",
    JArr [JObj [("name", JStr "work"); ("access", JStr (String "a" (String quote_char "b"))); ("expires", JNum 1700003600000%float)]] [])])])].

Lemma saveAuth_text_roundtrip_witness :
  keys_nodup text_doc = true /\ @saveAuth true text_doc = Ok (Stored text_doc) /\
  @nums_ok sample_host text_doc = true /\
  exists text, @json_stringify sample_host text_doc = Some text /\
               @file_of_text sample_host text = Stored text_doc.
Proof.
  split_and!; [reflexivity | reflexivity | vm_compute; reflexivity |].
  apply (@saveAuth_text_roundtrip sample_host text_doc (Stored text_doc)); vm_compute; reflexivity.
Defined.
