(* ===== verification/JsonPrefix.v ===== *)
(** * JsonPrefix: a store file cut short does not parse

    [saveAuth] (add-account.ts:22) writes the store with one
    [writeFileSync], which truncates the file first and then writes the
    text; a reader that runs in between, or a write cut short, sees a
    proper prefix of the text.  This file proves that [JSON.parse] rejects
    every non-empty proper prefix of the text of a container, so such a
    file is [Unparsable] and both [loadAuth] functions take their error
    path (the default document in add-account.ts, exit status 1 in
    usage.ts).

    The proof follows the nesting of the text with a lexer state
    ([lex]: inside a string literal or not, after a backslash or not, the
    depth of open brackets):
    - everything [parse_value] accepts leaves the state where it found it
      ([parse_sound]), so an accepted text ends at depth 0;
    - every proper non-empty prefix of a printed container is inside a
      string or at depth at least 1 ([container_prefix_open]). *)

From Stdlib Require Import Ascii.
From stdpp Require Import base list strings.
From S2P Require Import Prelude JsValue AuthStore JsonText.

(** ** The lexer state *)

Record lex : Type := Lex { in_str : bool; esc : bool; depth : nat }.

Definition lex_char (st : lex) (c : ascii) : lex :=
  if in_str st then
    if esc st then Lex true false (depth st)
    else if (c =? bslash)%char then Lex true true (depth st)
    else if (c =? quote_char)%char then Lex false false (depth st)
    else st
  else if (c =? quote_char)%char then Lex true false (depth st)
  else if (c =? "[")%char || (c =? "{")%char then Lex false false (S (depth st))
  else if (c =? "]")%char || (c =? "}")%char then Lex false false (pred (depth st))
  else st.

Fixpoint lex_string (st : lex) (s : string) : lex :=
  match s with EmptyString => st | String c t => lex_string (lex_char st c) t end.

(** Outside any string, at depth [k]. *)
Definition out (k : nat) : lex := Lex false false k.

(** Inside a string, or at depth [k] or more. *)
Definition weak (k : nat) (st : lex) : Prop := in_str st = true \/ k <= depth st.

(** ** Lemmas on the lexer *)

Lemma lex_app st a b : lex_string st (a +:+ b) = lex_string (lex_string st a) b.
Proof. revert st. induction a as [|c a IH]; intros st; [done|]. apply IH. Qed.

Lemma lex_ws k w : all_ws w = true -> lex_string (out k) w = out k.
Proof.
  induction w as [|c w IH]; [done|]. simpl. intros [Hc Hw]%andb_prop.
  destruct c as [[] [] [] [] [] [] [] []]; vm_compute in Hc; try discriminate; by apply IH.
Qed.

Lemma lex_num k a : all_num a = true -> lex_string (out k) a = out k.
Proof.
  induction a as [|c a IH]; [done|]. simpl. intros [Hc Ha]%andb_prop.
  destruct c as [[] [] [] [] [] [] [] []]; vm_compute in Hc; try discriminate; by apply IH.
Qed.

Lemma skip_ws_split s : exists w, s = w +:+ skip_ws s /\ all_ws w = true.
Proof.
  induction s as [|c s IH]; [by exists ""|]. simpl. destruct (is_ws c) eqn:Hc.
  - destruct IH as [w [Hs Hw]]. exists (String c w).
    split; [by rewrite append_String, <- Hs | simpl; by rewrite Hc, Hw].
  - by exists "".
Qed.

Lemma span_num_split s a b : span_num s = (a, b) -> s = a +:+ b /\ all_num a = true.
Proof.
  revert a b. induction s as [|c s IH]; intros a b; simpl; [by intros [= <- <-]|].
  destruct (is_num_char c) eqn:Hc; [|by intros [= <- <-]].
  destruct (span_num s) as [a' b'] eqn:E. intros [= <- <-].
  destruct (IH a' b' eq_refl) as [-> Ha]. simpl. by rewrite Hc, Ha.
Qed.

Lemma hex_value_plain h n :
  hex_value h = Some n -> (h =? quote_char)%char = false /\ (h =? bslash)%char = false.
Proof. destruct h as [[] [] [] [] [] [] [] []]; vm_compute; by try discriminate. Qed.

Lemma lex_in_plain k c :
  (c =? bslash)%char = false -> (c =? quote_char)%char = false ->
  lex_char (Lex true false k) c = Lex true false k.
Proof. unfold lex_char. simpl. by intros -> ->. Qed.

Lemma lex_in_bslash k : lex_char (Lex true false k) bslash = Lex true true k.
Proof. reflexivity. Qed.

Lemma lex_in_esc k c : lex_char (Lex true true k) c = Lex true false k.
Proof. reflexivity. Qed.

Lemma lex_in_quote k : lex_char (Lex true false k) quote_char = out k.
Proof. reflexivity. Qed.

(** A string literal's body leaves the string at the depth it entered. *)
Lemma string_body_sound n t b r k :
  String.length t <= n -> parse_string_body t = Some (b, r) ->
  exists q, t = q +:+ r /\ lex_string (Lex true false k) q = out k.
Proof.
  revert t b r. induction n as [|n IH]; intros t b r Hn Ht; [destruct t; simpl in *; [done | lia]|].
  destruct t as [|c t]; [done|]. simpl in Ht.
  destruct (c =? quote_char)%char eqn:Hq.
  - injection Ht as <- <-. apply Ascii.eqb_eq in Hq as ->.
    exists (String quote_char ""). split; [done | reflexivity].
  - destruct (c =? bslash)%char eqn:Hb.
    + destruct t as [|e u]; [done|]. simpl in Hn.
      destruct (unescape e) as [x|] eqn:He.
      * destruct (parse_string_body u) as [[b' r']|] eqn:Hu; [|done]. injection Ht as <- <-.
        destruct (IH u b' r') as [q [-> Hq']]; [lia | done |].
        apply Ascii.eqb_eq in Hb as ->.
        exists (String bslash (String e q)). split; [done|]. cbn [lex_string].
        by rewrite lex_in_bslash, lex_in_esc.
      * destruct (e =? "u")%char; [|done].
        destruct u as [|h1 [|h2 [|h3 [|h4 w]]]]; try done. simpl in Hn.
        destruct (hex_value h1) eqn:E1, (hex_value h2) eqn:E2, (hex_value h3) eqn:E3,
          (hex_value h4) eqn:E4; try done. cbn [mbind option_bind] in Ht.
        case_match; [|done].
        destruct (parse_string_body w) as [[b' r']|] eqn:Hw; [|done]. injection Ht as <- <-.
        destruct (IH w b' r') as [q [-> Hq']]; [lia | done |].
        exists (String c (String e (String h1 (String h2 (String h3 (String h4 q)))))).
        apply Ascii.eqb_eq in Hb as ->. split; [done|]. cbn [lex_string].
        destruct (hex_value_plain _ _ E1), (hex_value_plain _ _ E2),
          (hex_value_plain _ _ E3), (hex_value_plain _ _ E4).
        by rewrite lex_in_bslash, lex_in_esc, !lex_in_plain.
    + destruct (Ascii.N_of_ascii c <? 32)%N; [done|].
      destruct (parse_string_body t) as [[b' r']|] eqn:Hu; [|done]. injection Ht as <- <-.
      destruct (IH t b' r') as [q [-> Hq']]; [simpl in Hn; lia | done |].
      exists (String c q). split; [done|]. cbn [lex_string]. by rewrite lex_in_plain.
Qed.

Lemma skip_ws_cons s c t :
  skip_ws s = String c t -> exists w, s = w +:+ String c t /\ all_ws w = true.
Proof. intros Hs. destruct (skip_ws_split s) as [w [Hw Ha]]. rewrite Hs in Hw. by exists w. Qed.

Ltac str_eq := autorewrite with ma_rw; reflexivity.

Lemma lex_open_arr k : lex_char (out k) "[" = out (S k).
Proof. reflexivity. Qed.
Lemma lex_open_obj k : lex_char (out k) "{" = out (S k).
Proof. reflexivity. Qed.
Lemma lex_close_arr k : lex_char (out (S k)) "]" = out k.
Proof. reflexivity. Qed.
Lemma lex_close_obj k : lex_char (out (S k)) "}" = out k.
Proof. reflexivity. Qed.
Lemma lex_out_quote k : lex_char (out k) quote_char = Lex true false k.
Proof. reflexivity. Qed.
Lemma lex_comma k : lex_char (out k) "," = out k.
Proof. reflexivity. Qed.
Lemma lex_colon k : lex_char (out k) ":" = out k.
Proof. reflexivity. Qed.

(** Reading a text through: append, white space, number tokens and the
    punctuation of the grammar. *)
Ltac lex_simp :=
  repeat progress (rewrite ?lex_app, ?lex_ws, ?lex_num by done; cbn [lex_string];
          rewrite ?lex_open_arr, ?lex_open_obj, ?lex_close_arr, ?lex_close_obj, ?lex_out_quote,
            ?lex_comma, ?lex_colon).

(** ** What the parser accepts is balanced

    A value read from [s] is a prefix [p] of [s] that leaves the lexer
    where it found it; the elements or members of a container, read after
    its opening bracket, close it. *)
Lemma parse_sound `{JsHost} f :
  (forall s x r k, parse_value f s = Some (x, r) ->
     exists p, s = p +:+ r /\ lex_string (out k) p = out k) /\
  (forall s acc x r k, parse_elems f s acc = Some (x, r) ->
     exists p, s = p +:+ r /\ lex_string (out (S k)) p = out k) /\
  (forall s acc x r k, parse_members f s acc = Some (x, r) ->
     exists p, s = p +:+ r /\ lex_string (out (S k)) p = out k).
Proof.
  induction f as [|f IH]; [done|]. destruct IH as (IHv & IHe & IHm). split_and!.
  - intros s x r k Hs. cbn [parse_value] in Hs.
    destruct (skip_ws s) as [|c t] eqn:Hsk; [done|].
    destruct (skip_ws_cons _ _ _ Hsk) as [w0 [-> Hw0]].
    destruct (c =? "n")%char eqn:Hn; [|destruct (c =? "t")%char eqn:Ht;
      [|destruct (c =? "f")%char eqn:Hf; [|destruct (c =? quote_char)%char eqn:Hq;
      [|destruct (c =? "[")%char eqn:Ho; [|destruct (c =? "{")%char eqn:Hb]]]]].
    + apply Ascii.eqb_eq in Hn as ->. repeat case_match; simplify_eq.
      exists (w0 +:+ "null"). split; [str_eq|]. rewrite lex_app, lex_ws by done. reflexivity.
    + apply Ascii.eqb_eq in Ht as ->. repeat case_match; simplify_eq.
      exists (w0 +:+ "true"). split; [str_eq|]. rewrite lex_app, lex_ws by done. reflexivity.
    + apply Ascii.eqb_eq in Hf as ->. repeat case_match; simplify_eq.
      exists (w0 +:+ "false"). split; [str_eq|]. rewrite lex_app, lex_ws by done. reflexivity.
    + apply Ascii.eqb_eq in Hq as ->.
      destruct (parse_string_body t) as [[b r']|] eqn:Hb; [|done]. simpl in Hs. simplify_eq.
      destruct (string_body_sound _ t b r k (le_n _) Hb) as [q [-> Hq]].
      exists (w0 +:+ String quote_char q). split; [str_eq|]. rewrite lex_app, lex_ws by done. done.
    + apply Ascii.eqb_eq in Ho as ->.
      destruct (skip_ws t) as [|d r'] eqn:Ht'; [done|]. destruct (d =? "]")%char eqn:Hd.
      * apply Ascii.eqb_eq in Hd as ->. simplify_eq.
        destruct (skip_ws_cons _ _ _ Ht') as [w1 [-> Hw1]].
        exists (w0 +:+ String "[" (w1 +:+ "]")). split; [str_eq|].
        lex_simp. reflexivity.
      * destruct (IHe t [] x r k Hs) as [p [-> Hp]].
        exists (w0 +:+ String "[" p). split; [str_eq|]. rewrite lex_app, lex_ws by done. exact Hp.
    + apply Ascii.eqb_eq in Hb as ->.
      destruct (skip_ws t) as [|d r'] eqn:Ht'; [done|]. destruct (d =? "}")%char eqn:Hd.
      * apply Ascii.eqb_eq in Hd as ->. simplify_eq.
        destruct (skip_ws_cons _ _ _ Ht') as [w1 [-> Hw1]].
        exists (w0 +:+ String "{" (w1 +:+ "}")). split; [str_eq|].
        lex_simp. reflexivity.
      * destruct (IHm t [] x r k Hs) as [p [-> Hp]].
        exists (w0 +:+ String "{" p). split; [str_eq|]. rewrite lex_app, lex_ws by done. exact Hp.
    + destruct (span_num (String c t)) as [tok r'] eqn:Hsp.
      destruct (valid_number tok); [|done]. simplify_eq.
      destruct (span_num_split _ _ _ Hsp) as [Hct Hall]. rewrite Hct.
      exists (w0 +:+ tok). split; [str_eq|]. rewrite lex_app, lex_ws, lex_num by done. done.
  - intros s acc x r k Hs. cbn [parse_elems] in Hs.
    destruct (parse_value f s) as [[v r0]|] eqn:Hv; [|done]. cbn [mbind option_bind] in Hs.
    destruct (IHv s v r0 (S k) Hv) as [p0 [-> Hp0]].
    destruct (skip_ws r0) as [|d r'] eqn:Hr; [done|]. destruct (skip_ws_cons _ _ _ Hr) as [w [-> Hw]].
    destruct (d =? ",")%char eqn:Hc; [|destruct (d =? "]")%char eqn:Hd; [|done]].
    + apply Ascii.eqb_eq in Hc as ->. destruct (IHe r' _ x r k Hs) as [p1 [-> Hp1]].
      exists (p0 +:+ (w +:+ String "," p1)). split; [str_eq|]. rewrite lex_app, Hp0. lex_simp. exact Hp1.
    + apply Ascii.eqb_eq in Hd as ->. simplify_eq.
      exists (p0 +:+ (w +:+ "]")). split; [str_eq|]. rewrite lex_app, Hp0. lex_simp. reflexivity.
  - intros s acc x r k Hs. cbn [parse_members] in Hs.
    destruct (skip_ws s) as [|c t] eqn:Hsk; [done|]. destruct (skip_ws_cons _ _ _ Hsk) as [w0 [-> Hw0]].
    destruct (c =? quote_char)%char eqn:Hq; [|done]. apply Ascii.eqb_eq in Hq as ->.
    destruct (parse_string_body t) as [[key r0]|] eqn:Hb; [|done]. cbn [mbind option_bind] in Hs.
    destruct (string_body_sound _ t key r0 (S k) (le_n _) Hb) as [q [-> Hq]].
    destruct (skip_ws r0) as [|d r1] eqn:Hr0; [done|]. destruct (skip_ws_cons _ _ _ Hr0) as [w1 [-> Hw1]].
    destruct (d =? ":")%char eqn:Hd; [|done]. apply Ascii.eqb_eq in Hd as ->.
    destruct (parse_value f r1) as [[v r2]|] eqn:Hv; [|done]. cbn [mbind option_bind] in Hs.
    destruct (IHv r1 v r2 (S k) Hv) as [p2 [-> Hp2]].
    destruct (skip_ws r2) as [|d' r3] eqn:Hr2; [done|]. destruct (skip_ws_cons _ _ _ Hr2) as [w2 [-> Hw2]].
    destruct (d' =? ",")%char eqn:Hc; [|destruct (d' =? "}")%char eqn:He; [|done]].
    + apply Ascii.eqb_eq in Hc as ->. destruct (IHm r3 _ x r k Hs) as [p3 [-> Hp3]].
      exists (w0 +:+ String quote_char (q +:+ (w1 +:+ String ":" (p2 +:+ (w2 +:+ String "," p3))))).
      split; [str_eq|]. lex_simp. rewrite Hq. lex_simp. rewrite Hp2. lex_simp. exact Hp3.
    + apply Ascii.eqb_eq in He as ->. simplify_eq.
      exists (w0 +:+ String quote_char (q +:+ (w1 +:+ String ":" (p2 +:+ (w2 +:+ "}"))))).
      split; [str_eq|]. lex_simp. rewrite Hq. lex_simp. rewrite Hp2. lex_simp. reflexivity.
Qed.

(** ** Every prefix of a printed value *)

Definition weakb (k : nat) (st : lex) : bool := in_str st || (k <=? depth st)%nat.

(** Every state met while reading [s] from [st], the first and the last
    included, is inside a string or at depth [k] or more. *)
Fixpoint all_weak (k : nat) (st : lex) (s : string) : bool :=
  weakb k st && match s with EmptyString => true | String c t => all_weak k (lex_char st c) t end.

(** A piece at depth [k]: read from outside any string at depth [k], it
    stays inside a string or at depth [k] or more and ends where it began. *)
Definition piece (k : nat) (s : string) : Prop :=
  lex_string (out k) s = out k /\ all_weak k (out k) s = true.

Lemma all_weak_app k st a b :
  all_weak k st (a +:+ b) = all_weak k st a && all_weak k (lex_string st a) b.
Proof.
  revert st. induction a as [|c a IH]; intros st; simpl.
  - destruct b; simpl; by destruct (weakb k st).
  - by rewrite IH, andb_assoc.
Qed.

Lemma all_weak_prefix k st s t u :
  all_weak k st s = true -> s = t +:+ u -> weakb k (lex_string st t) = true.
Proof.
  revert st s. induction t as [|c t IH]; intros st s Hs ->; simpl in *.
  - destruct u; simpl in Hs; by apply andb_prop in Hs as [? _].
  - rewrite ?append_String in Hs. simpl in Hs. apply andb_prop in Hs as [_ Hs]. by eapply IH.
Qed.

Lemma weakb_mono k st : weakb (S k) st = true -> weakb k st = true.
Proof.
  unfold weakb. intros [Hw|Hw]%orb_true_iff; apply orb_true_iff; [by left|right].
  apply Nat.leb_le in Hw. apply Nat.leb_le. lia.
Qed.

Lemma all_weak_mono k st s : all_weak (S k) st s = true -> all_weak k st s = true.
Proof.
  revert st. induction s as [|c s IH]; intros st; simpl; intros [Hw Hs]%andb_prop;
    rewrite (weakb_mono _ _ Hw); simpl; auto.
Qed.

Lemma piece_app k a b : piece k a -> piece k b -> piece k (a +:+ b).
Proof.
  intros [Ha Hwa] [Hb Hwb]. split; [by rewrite lex_app, Ha|]. by rewrite all_weak_app, Hwa, Ha.
Qed.

Lemma piece_empty k : piece k "".
Proof. split; [done|]. simpl. unfold weakb. simpl. by rewrite Nat.leb_refl. Qed.

Lemma piece_ws k w : all_ws w = true -> piece k w.
Proof.
  induction w as [|c w IH]; [intros; apply piece_empty|]. simpl. intros [Hc Hw]%andb_prop.
  destruct (IH Hw) as [H1 H2].
  destruct c as [[] [] [] [] [] [] [] []]; vm_compute in Hc; try discriminate;
    split; simpl; unfold weakb; simpl; by rewrite ?Nat.leb_refl.
Qed.

Lemma piece_num k a : all_num a = true -> piece k a.
Proof.
  induction a as [|c a IH]; [intros; apply piece_empty|]. simpl. intros [Hc Ha]%andb_prop.
  destruct (IH Ha) as [H1 H2].
  destruct c as [[] [] [] [] [] [] [] []]; vm_compute in Hc; try discriminate;
    split; simpl; unfold weakb; simpl; by rewrite ?Nat.leb_refl.
Qed.

Lemma piece_char k c : lex_char (out k) c = out k -> piece k (String c "").
Proof. intros Hc. split; simpl; rewrite Hc; [done|]. unfold weakb. simpl. by rewrite Nat.leb_refl. Qed.

Lemma escape_in k c :
  lex_string (Lex true false k) (json_escape c) = Lex true false k /\
  all_weak k (Lex true false k) (json_escape c) = true.
Proof. destruct c as [[] [] [] [] [] [] [] []]; split; reflexivity. Qed.

Lemma escape_all_in k s :
  lex_string (Lex true false k) (escape_all s) = Lex true false k /\
  all_weak k (Lex true false k) (escape_all s) = true.
Proof.
  induction s as [|c s [IH1 IH2]]; [done|]. simpl escape_all. destruct (escape_in k c) as [H1 H2].
  by rewrite lex_app, all_weak_app, H1, H2, IH1, IH2.
Qed.

Lemma piece_quote k s : piece k (json_quote s).
Proof.
  destruct (escape_all_in k s) as [H1 H2]. unfold json_quote. split.
  - cbn [lex_string]. by rewrite lex_out_quote, lex_app, H1.
  - cbn [all_weak]. rewrite lex_out_quote, all_weak_app, H1, H2. cbn [all_weak]. rewrite lex_in_quote.
    unfold weakb. simpl. by rewrite Nat.leb_refl.
Qed.

Lemma piece_foldr {A} k (F : A -> string) sep z l :
  piece k sep -> Forall (fun x => piece k (F x)) l -> piece k z ->
  piece k (foldr (fun x acc => sep +:+ (F x +:+ acc)) z l).
Proof. intros Hs Hl Hz. induction Hl; simpl; [done|]. by repeat apply piece_app. Qed.

(** A container: its opening bracket, a piece one level deeper, its
    closing bracket. *)
Lemma piece_bracket k o c body :
  lex_char (out k) o = out (S k) -> lex_char (out (S k)) c = out k -> piece (S k) body ->
  piece k (String o (body +:+ String c "")).
Proof.
  intros Ho Hc [Hb Hwb]. split.
  - cbn [lex_string]. by rewrite Ho, lex_app, Hb; simpl; rewrite Hc.
  - cbn [all_weak]. rewrite Ho, all_weak_app, (all_weak_mono _ _ _ Hwb), Hb. simpl.
    rewrite Hc. unfold weakb. simpl. rewrite Nat.leb_refl, (proj2 (Nat.leb_le k (S k))) by lia. done.
Qed.

Section Shape.
Context `{JsHost}.

Lemma arr_text ind e es ps :
  json_text ind (JArr (e :: es) ps) =
  String "[" ((String newline (ind +:+ gap) +:+ (json_text (ind +:+ gap) e +:+
    foldr (fun x acc => ("," +:+ String newline (ind +:+ gap)) +:+ (json_text (ind +:+ gap) x +:+ acc))
      (String newline ind) es)) +:+ "]").
Proof.
  cbn [json_text]. change (String newline (ind +:+ "]")) with (String newline ind +:+ "]").
  rewrite <- foldr_app_rest. str_eq.
Qed.

Lemma obj_text ind k e ps :
  json_text ind (JObj ((k, e) :: ps)) =
  String "{" ((String newline (ind +:+ gap) +:+
    ((json_quote k +:+ (": " +:+ json_text (ind +:+ gap) e)) +:+
     foldr (fun kv acc => ("," +:+ String newline (ind +:+ gap)) +:+
              ((json_quote kv.1 +:+ (": " +:+ json_text (ind +:+ gap) kv.2)) +:+ acc))
       (String newline ind) ps)) +:+ "}").
Proof.
  cbn [json_text]. change (String newline (ind +:+ "}")) with (String newline ind +:+ "}").
  rewrite <- foldr_app_rest. str_eq.
Qed.
End Shape.

Ltac piece_lit := split; [reflexivity | cbn; unfold weakb; simpl; by rewrite ?Nat.leb_refl].

Section Pieces.
Context `{JsHost}.

Lemma piece_sep k ind : all_ws ind = true -> piece k ("," +:+ String newline ind).
Proof. intros Hi. apply piece_app; [apply piece_char, lex_comma | by apply piece_ws, all_ws_newline]. Qed.

(** The text of a container: its bracket, a body one level deeper, its
    closing bracket, given that its elements are pieces. *)
Lemma arr_shape ind es k :
  all_ws ind = true -> Forall (fun e => forall ind k, all_ws ind = true -> piece k (json_text ind e)) es ->
  exists body, json_text ind (JArr es []) = String "[" (body +:+ "]") /\ piece (S k) body.
Proof.
  intros Hi Hes. destruct es as [|e es]; [exists ""; split; [done | apply piece_empty]|].
  eexists. split; [apply arr_text|]. apply Forall_cons in Hes as [He Hes].
  apply piece_app; [by apply piece_ws, all_ws_newline, all_ws_indent|].
  apply piece_app; [apply He; auto with ma|].
  apply piece_foldr; [by apply piece_sep, all_ws_indent | | by apply piece_ws, all_ws_newline].
  eapply Forall_impl; [exact Hes|]. intros x Hx. apply Hx; auto with ma.
Qed.

Lemma obj_shape ind ps k :
  all_ws ind = true ->
  Forall (fun kv => forall ind k, all_ws ind = true -> piece k (json_text ind kv.2)) ps ->
  exists body, json_text ind (JObj ps) = String "{" (body +:+ "}") /\ piece (S k) body.
Proof.
  intros Hi Hps. destruct ps as [|[key e] ps]; [exists ""; split; [done | apply piece_empty]|].
  eexists. split; [apply obj_text|].
  assert (Hm : forall kv, (forall ind k, all_ws ind = true -> piece k (json_text ind kv.2)) ->
             piece (S k) (json_quote kv.1 +:+ (": " +:+ json_text (ind +:+ gap) kv.2))).
  { intros kv Hx. apply piece_app; [apply piece_quote|].
    apply piece_app; [piece_lit | apply Hx; auto with ma]. }
  apply Forall_cons in Hps as [He Hps].
  apply piece_app; [by apply piece_ws, all_ws_newline, all_ws_indent|].
  apply piece_app; [exact (Hm (key, e) He)|].
  apply piece_foldr; [by apply piece_sep, all_ws_indent | | by apply piece_ws, all_ws_newline].
  eapply Forall_impl; [exact Hps|]. exact Hm.
Qed.

(** The text of a JSON value is a piece at every depth. *)
Lemma json_text_piece v ind k :
  all_ws ind = true -> is_json v = true -> nums_ok v = true -> piece k (json_text ind v).
Proof.
  revert ind k. induction v as [| | b | n | s | es ps Hes _ | ps Hps | key] using jsval_ind';
    intros ind k Hi Hj Hn; try discriminate.
  - piece_lit.
  - destruct b; piece_lit.
  - simpl in Hn. apply andb_prop in Hn as [Hv _]. apply piece_num, (valid_number_all_num _ Hv).
  - apply piece_quote.
  - apply is_json_arr_iff in Hj as [Hjs ->]. pose proof (forallb_and _ nums_ok es Hjs Hn) as Hall.
    destruct (arr_shape ind es k) as [body [-> Hb]]; [done| |by apply piece_bracket].
    eapply Forall_impl; [apply Forall_and; split; [exact Hes | exact Hall]|].
    intros x [Hx [Hxj Hxn]] ind' k' Hi'. by apply Hx.
  - apply is_json_obj_iff in Hj as [Hjs _].
    pose proof (forallb_and _ (fun kv => nums_ok kv.2) ps Hjs Hn) as Hall.
    destruct (obj_shape ind ps k) as [body [-> Hb]]; [done| |by apply piece_bracket].
    eapply Forall_impl; [apply Forall_and; split; [exact Hps | exact Hall]|].
    intros x [Hx [Hxj Hxn]] ind' k' Hi'. by apply Hx.
Qed.
End Pieces.

(** ** A proper prefix of a container is open *)

Lemma str_app_split t u a b :
  t +:+ u = a +:+ b ->
  (exists m, a = t +:+ m /\ u = m +:+ b) \/ (exists m, t = a +:+ m /\ b = m +:+ u).
Proof.
  revert a. induction t as [|c t IH]; intros a Heq; [by left; exists a|].
  destruct a as [|c' a]; [right; by exists (String c t)|].
  rewrite !append_String in Heq. injection Heq as <- Heq.
  destruct (IH a Heq) as [[m [-> ->]]|[m [-> ->]]]; [left|right]; exists m; by rewrite append_String.
Qed.

(** Every non-empty proper prefix of a container's text is inside a string
    or inside the container. *)
Lemma bracket_prefix_open k o c body t u :
  lex_char (out k) o = out (S k) -> piece (S k) body ->
  String o (body +:+ String c "") = t +:+ u -> t <> "" -> u <> "" ->
  weakb (S k) (lex_string (out k) t) = true.
Proof.
  intros Ho [Hb Hwb] Heq Ht Hu. destruct t as [|o' t]; [done|].
  rewrite append_String in Heq. injection Heq as <- Heq. cbn [lex_string]. rewrite Ho.
  destruct (str_app_split t u body (String c "") (eq_sym Heq)) as [[m [Hm _]]|[m [-> Hm]]].
  - by eapply all_weak_prefix.
  - destruct m as [|x m]; [|destruct m; [destruct u; [done|discriminate] | discriminate]].
    rewrite append_empty_r, Hb. unfold weakb. simpl. by rewrite Nat.leb_refl.
Qed.

Section Torn.
Context `{JsHost}.

(** Anything [JSON.parse] accepts reads back to outside any string at
    depth 0. *)
Lemma json_parse_balanced t x : json_parse t = Some x -> lex_string (out 0) t = out 0.
Proof.
  unfold json_parse. destruct (parse_value _ t) as [[v r]|] eqn:Hp; [|done].
  destruct (String.eqb (skip_ws r) "") eqn:Hr; [|done]. intros _.
  apply String.eqb_eq in Hr. destruct (skip_ws_split r) as [w [Hrw Hw]]. rewrite Hr, append_empty_r in Hrw.
  destruct (proj1 (parse_sound _) t v r 0 Hp) as [p [-> Hpl]]. by rewrite lex_app, Hpl, Hrw, lex_ws.
Qed.
End Torn.

(** ** The store file cut short *)

Section TornStore.
Context `{JsHost}.

Lemma json_parse_empty : json_parse "" = None.
Proof. reflexivity. Qed.

(** A non-empty proper prefix of a store's text is inside a string or
    inside the document's braces. *)
Lemma store_text_prefix_open ps t u :
  is_json (JObj ps) = true -> nums_ok (JObj ps) = true ->
  t +:+ u = json_text "" (JObj ps) -> t <> "" -> u <> "" ->
  weakb 1 (lex_string (out 0) t) = true.
Proof.
  intros Hj Hn Heq Ht Hu. destruct (obj_shape "" ps 0) as [body [Htext Hb]]; [done| |].
  - apply is_json_obj_iff in Hj as [Hjs _].
    pose proof (forallb_and _ (fun kv => nums_ok kv.2) ps Hjs Hn) as Hall.
    eapply Forall_impl; [exact Hall|]. intros kv [Hkj Hkn] ind k Hi. by apply json_text_piece.
  - rewrite Htext in Heq. exact (bracket_prefix_open 0 "{" "}" body t u eq_refl Hb (eq_sym Heq) Ht Hu).
Qed.

Lemma store_text_prefix_unparsable ps t u :
  is_json (JObj ps) = true -> nums_ok (JObj ps) = true ->
  t +:+ u = json_text "" (JObj ps) -> u <> "" -> file_of_text t = Unparsable t.
Proof.
  intros Hj Hn Heq Hu. unfold file_of_text.
  destruct (json_parse t) as [x|] eqn:Hp; [exfalso|done].
  destruct (decide (t = "")) as [->|Ht]; [by rewrite json_parse_empty in Hp|].
  apply json_parse_balanced in Hp. pose proof (store_text_prefix_open ps t u Hj Hn Heq Ht Hu) as Ho.
  by rewrite Hp in Ho.
Qed.

(** C26: a proper prefix of the text [saveAuth] writes for a store
    document, which is what a reader sees while [writeFileSync] is writing
    or after a write cut short, is not JSON: the file is [Unparsable], and
    [loadAuth] of add-account.ts takes its [catch] branch and returns the
    default document, as for the empty file.  A non-empty such prefix
    ends inside a string or inside the document's braces. *)
Theorem torn_store_text_unparsable ps text t u :
  is_json (JObj ps) = true -> nums_ok (JObj ps) = true ->
  json_stringify (JObj ps) = Some text -> t +:+ u = text -> u <> "" ->
  (t <> "" -> weakb 1 (lex_string (out 0) t) = true) /\
  file_of_text t = Unparsable t /\ loadAuth (file_of_text t) = default_auth.
Proof.
  intros Hj Hn Hs Heq Hu. unfold json_stringify in Hs. rewrite json_of_json in Hs by done.
  injection Hs as Hs. subst text.
  rewrite (store_text_prefix_unparsable ps t u Hj Hn Heq Hu). split_and!; [|done..].
  intros Ht. by apply (store_text_prefix_open ps t u).
Qed.

End TornStore.

(** A cut after the first 40 characters of a one-account store. *)
Lemma torn_store_text_unparsable_witness :
  let text := @json_text sample_host "" text_doc in
  is_json text_doc = true /\ @nums_ok sample_host text_doc = true /\
  @json_stringify sample_host text_doc = Some text /\
  String.substring 0 40 text +:+ String.substring 40 (String.length text - 40) text = text /\
  String.substring 40 (String.length text - 40) text <> "" /\
  ((String.substring 0 40 text <> "" -> weakb 1 (lex_string (out 0) (String.substring 0 40 text)) = true) /\
   @file_of_text sample_host (String.substring 0 40 text) = Unparsable (String.substring 0 40 text) /\
   loadAuth (@file_of_text sample_host (String.substring 0 40 text)) = default_auth).
Proof.
  intros text. assert (Hs : String.substring 0 40 text +:+ String.substring 40 (String.length text - 40) text = text)
    by (vm_compute; reflexivity).
  assert (Hu : String.substring 40 (String.length text - 40) text <> "") by (vm_compute; discriminate).
  refine (conj eq_refl (conj _ (conj eq_refl (conj Hs (conj Hu _))))); [vm_compute; reflexivity|].
  apply (@torn_store_text_unparsable sample_host
           (match text_doc with JObj ps => ps | _ => [] end) text _ _ eq_refl (eq_refl true) eq_refl Hs Hu).
Defined.
