(* ===== verification/Accounts.v ===== *)
(** * Accounts: the upsert of an enrolled account into the store

    Lines 108-132 of [src/add-account.ts] load the store, repair its shape
    ([if (!auth.anthropic) auth.anthropic = {}] and the two lines after it),
    look the account name up with [findIndex], build the account record from
    the token response, and either overwrite the record found or push a new
    one.  Each statement is one definition below, composed in
    [upsert_account] in the order of the source.

    The abstract contract is [upsert_list]: on the list of account records,
    replace the first record of that name, or append.  [upsert_refines]
    shows that on a store of the expected shape the statement sequence
    implements it and touches nothing else; the lemmas after it derive the
    properties the spec asks of enrollment (one record per name, full
    replacement, position kept, growth by one on a new name). *)

From Stdlib Require Import ZArith Floats.
From stdpp Require Import base list sets strings.
From S2P Require Import Prelude JsValue AuthStore.

Definition path_anthropic : list string := ["anthropic"].
Definition path_multi : list string := ["anthropic"; "multiAccounts"].
Definition path_accounts : list string := ["anthropic"; "multiAccounts"; "accounts"].

(** add-account.ts:109 *)
Definition ensure_anthropic (auth : jsval) : throws jsval :=
  a <- js_get_path auth path_anthropic;;
  if truthy a then Ok auth else js_set_path auth path_anthropic (JObj []).

(** add-account.ts:110 *)
Definition ensure_multiAccounts (auth : jsval) : throws jsval :=
  m <- js_get_path auth path_multi;;
  if truthy m then Ok auth
  else js_set_path auth path_multi (JObj [("accounts", JArr [] [])]).

(** add-account.ts:111 *)
Definition ensure_accounts (auth : jsval) : throws jsval :=
  l <- js_get_path auth path_accounts;;
  if truthy l then Ok auth else js_set_path auth path_accounts (JArr [] []).

(** The [findIndex] callback, [(a: any) => a.name === accountName]. *)
Definition name_is (accountName : string) (a : jsval) : throws bool :=
  n <- js_get a "name";; Ok (js_eq_str n accountName).

(** [arr.findIndex(p)]: -1 when no element satisfies [p]; a value that is
    not an array has no [findIndex] method, and calling it throws. *)
Definition js_findIndex (arr : jsval) (p : jsval -> throws bool) : throws Z :=
  match arr with
  | JArr es _ =>
      r <- find_index_m p es;;
      Ok (match r with Some i => Z.of_nat i | None => (-1)%Z end)
  | _ => Throw TypeError
  end.

Section WithHost.
Context `{JsHost}.

(** add-account.ts:117-122 *)
Definition make_account (accountName : string) (json : jsval) (now : float) : throws jsval :=
  access <- js_get json "access_token";;
  refresh <- js_get json "refresh_token";;
  expires_in <- js_get json "expires_in";;
  Ok (JObj [("name", JStr accountName); ("access", access); ("refresh", refresh);
            ("expires", JNum (now + js_to_number expires_in * 1000)%float)]).
End WithHost.

(** add-account.ts:124-130.  It runs after [findIndex] succeeded, so the
    accounts value is an array. *)
Definition store_account (auth : jsval) (existingIndex : Z) (account : jsval)
  : throws (jsval * bool) :=
  accs <- js_get_path auth path_accounts;;
  match accs with
  | JArr es ps =>
      if (0 <=? existingIndex)%Z
      then auth' <- js_set_path auth path_accounts
                      (JArr (<[Z.to_nat existingIndex := account]> es) ps);;
           Ok (auth', true)
      else auth' <- js_set_path auth path_accounts (JArr (es ++ [account]) ps);;
           Ok (auth', false)
  | _ => Throw TypeError
  end.

Section WithHost2.
Context `{JsHost}.

(** add-account.ts:108-130 after [loadAuth()]: the updated document and
    whether an existing account was updated ([true]) or one was added. *)
Definition upsert_account (auth : jsval) (accountName : string) (json : jsval)
  (now : float) : throws (jsval * bool) :=
  auth <- ensure_anthropic auth;;
  auth <- ensure_multiAccounts auth;;
  auth <- ensure_accounts auth;;
  accs <- js_get_path auth path_accounts;;
  existingIndex <- js_findIndex accs (name_is accountName);;
  account <- make_account accountName json now;;
  store_account auth existingIndex account.
End WithHost2.

(** ** The abstract contract: account records keyed by name *)

(** The name under which [findIndex] finds a record. *)
Definition record_name (a : jsval) : option string :=
  match js_get a "name" with Ok (JStr s) => Some s | _ => None end.

Definition has_name (name : string) (a : jsval) : bool :=
  bool_decide (record_name a = Some name).

Definition upsert_list (es : list jsval) (name : string) (account : jsval)
  : list jsval * bool :=
  match find_index (has_name name) es with
  | Some i => (<[i := account]> es, true)
  | None => (es ++ [account], false)
  end.

(** The document with its accounts array replaced, every other property of
    the document, of [anthropic] and of [multiAccounts] kept in place. *)
Definition with_accounts (ps pa pm : list (string * jsval)) (es : list jsval)
  (lp : list (string * jsval)) : jsval :=
  JObj (assoc_set "anthropic"
          (JObj (assoc_set "multiAccounts"
                   (JObj (assoc_set "accounts" (JArr es lp) pm)) pa)) ps).

(** A value whose properties can be read: not [null], not [undefined]. *)
Definition readable (a : jsval) : bool :=
  match a with JNull | JUndefined => false | _ => true end.

Lemma js_get_readable a k : readable a = true -> exists v, js_get a k = Ok v.
Proof. destruct a; unfold js_get; simpl; try discriminate; intros _; repeat case_match; eauto. Qed.

Lemma name_is_pure name a :
  readable a = true -> name_is name a = Ok (has_name name a).
Proof.
  intros Hr. unfold name_is, has_name, record_name.
  destruct (js_get_readable a "name" Hr) as [v ->]. simpl.
  destruct v as [| | | |s| | |]; simpl; try done.
  destruct (String.eqb_spec s name) as [->|Hne].
  - by rewrite bool_decide_true.
  - rewrite bool_decide_false; [done|]. congruence.
Qed.

Lemma js_findIndex_pure name es lp :
  Forall (fun a => readable a = true) es ->
  js_findIndex (JArr es lp) (name_is name) =
  Ok (match find_index (has_name name) es with
      | Some i => Z.of_nat i | None => (-1)%Z end).
Proof.
  intros Hr. simpl. rewrite (find_index_m_pure _ (has_name name)); [done|].
  eapply Forall_impl; [exact Hr|]. intros a. apply name_is_pure.
Qed.

(** ** A store of the expected shape

    [{ anthropic: { ..., multiAccounts: { ..., accounts: [ ... ] } } }],
    the properties other than these three being arbitrary. *)

Section Shaped.
Variables (ps pa pm : list (string * jsval)) (es : list jsval)
          (lp : list (string * jsval)).
Hypothesis Ha : assoc_get "anthropic" ps = Some (JObj pa).
Hypothesis Hm : assoc_get "multiAccounts" pa = Some (JObj pm).
Hypothesis Hl : assoc_get "accounts" pm = Some (JArr es lp).

Lemma shaped_get_path_accounts :
  js_get_path (JObj ps) path_accounts = Ok (JArr es lp).
Proof.
  simpl. rewrite js_get_obj_key, Ha by solve_store_key. simpl.
  rewrite js_get_obj_key, Hm by solve_store_key. simpl.
  by rewrite js_get_obj_key, Hl by solve_store_key.
Qed.

Lemma shaped_ensure_anthropic : ensure_anthropic (JObj ps) = Ok (JObj ps).
Proof.
  unfold ensure_anthropic. simpl. by rewrite js_get_obj_key, Ha by solve_store_key.
Qed.

Lemma shaped_ensure_multiAccounts : ensure_multiAccounts (JObj ps) = Ok (JObj ps).
Proof.
  unfold ensure_multiAccounts. simpl. rewrite js_get_obj_key, Ha by solve_store_key.
  simpl. by rewrite js_get_obj_key, Hm by solve_store_key.
Qed.

Lemma shaped_ensure_accounts : ensure_accounts (JObj ps) = Ok (JObj ps).
Proof. unfold ensure_accounts. by rewrite shaped_get_path_accounts. Qed.

Lemma shaped_set_path_accounts es' :
  js_set_path (JObj ps) path_accounts (JArr es' lp) =
  Ok (with_accounts ps pa pm es' lp).
Proof.
  simpl. rewrite js_get_obj_key, Ha by solve_store_key. simpl.
  by rewrite js_get_obj_key, Hm by solve_store_key.
Qed.

(** The statement sequence of lines 108-130 implements [upsert_list] on
    the accounts array and leaves the rest of the document in place. *)
Theorem upsert_refines `{JsHost} name json now account :
  Forall (fun a => readable a = true) es ->
  make_account name json now = Ok account ->
  upsert_account (JObj ps) name json now =
  Ok (with_accounts ps pa pm (upsert_list es name account).1 lp,
      (upsert_list es name account).2).
Proof.
  intros Hr Hacc. unfold upsert_account.
  rewrite shaped_ensure_anthropic, bind_Ok; cbv beta.
  rewrite shaped_ensure_multiAccounts, bind_Ok; cbv beta.
  rewrite shaped_ensure_accounts, bind_Ok; cbv beta.
  rewrite shaped_get_path_accounts, bind_Ok; cbv beta.
  rewrite js_findIndex_pure, bind_Ok by done; cbv beta.
  rewrite Hacc, bind_Ok; cbv beta.
  unfold store_account. rewrite shaped_get_path_accounts, bind_Ok; cbv beta.
  unfold upsert_list. destruct (find_index (has_name name) es) as [i|]; cbv beta iota.
  - rewrite (proj2 (Z.leb_le 0 (Z.of_nat i))) by lia.
    by rewrite Nat2Z.id, shaped_set_path_accounts.
  - replace (0 <=? -1)%Z with false by reflexivity.
    by rewrite shaped_set_path_accounts.
Qed.
(** An element of the accounts array that is [null] or [undefined], reached
    by [findIndex] before any record of the enrolled name, makes the
    callback's read [a.name] throw: the upsert fails with a [TypeError]. *)
Lemma upsert_unreadable_throws `{JsHost} name json now l1 x l2 :
  es = l1 ++ x :: l2 ->
  Forall (fun a => readable a = true /\ has_name name a = false) l1 ->
  readable x = false -> upsert_account (JObj ps) name json now = Throw TypeError.
Proof.
  intros Hes Hl1 Hx. unfold upsert_account.
  rewrite shaped_ensure_anthropic, bind_Ok; cbv beta.
  rewrite shaped_ensure_multiAccounts, bind_Ok; cbv beta.
  rewrite shaped_ensure_accounts, bind_Ok; cbv beta.
  rewrite shaped_get_path_accounts, bind_Ok, Hes; cbv beta. simpl js_findIndex.
  rewrite (find_index_m_throw _ l1 x l2 TypeError); [done| |by destruct x].
  eapply Forall_impl; [exact Hl1|]. intros a [Hr Hn].
  exists false. by rewrite name_is_pure, Hn.
Qed.

End Shaped.

(** ** Properties of the contract *)

(** The names of the named records of an accounts array. *)
Definition account_names (es : list jsval) : list string := omap record_name es.

Lemma omap_insert_same {A B} (f : A -> option B) (l : list A) i x y :
  l !! i = Some y -> f x = f y -> omap f (<[i := x]> l) = omap f l.
Proof.
  revert i. induction l as [|z t IH]; intros [|i]; simpl; try discriminate.
  - intros [= ->] ->. done.
  - intros Hi Hf. rewrite IH by done. done.
Qed.

Lemma has_name_record name a : has_name name a = true <-> record_name a = Some name.
Proof. unfold has_name. by rewrite bool_decide_eq_true. Qed.

Lemma find_index_none_names name es :
  find_index (has_name name) es = None -> name ∉ account_names es.
Proof.
  intros Hn%find_index_None Hin. unfold account_names in Hin.
  apply list_elem_of_omap in Hin as (a & Ha & Hra).
  rewrite Forall_forall in Hn. specialize (Hn a Ha).
  rewrite <- not_true_iff_false, has_name_record in Hn. contradiction.
Qed.

Section Contract.
Variables (es : list jsval) (name : string) (account : jsval).
Hypothesis Hacc : record_name account = Some name.

(** Enrolling under a name already present replaces that record whole,
    at its position; the array keeps its length. *)
Lemma upsert_list_found i :
  find_index (has_name name) es = Some i ->
  upsert_list es name account = (<[i := account]> es, true) /\
  (upsert_list es name account).1 !! i = Some account /\
  length (upsert_list es name account).1 = length es /\
  (forall j, j <> i -> (upsert_list es name account).1 !! j = es !! j).
Proof.
  intros Hi. unfold upsert_list. rewrite Hi. simpl. split_and!; [done| | |].
  - apply list_lookup_insert_eq. eauto with ma.
  - apply length_insert.
  - intros j Hj. by apply list_lookup_insert_ne.
Qed.

(** Enrolling under a new name appends the record. *)
Lemma upsert_list_new :
  find_index (has_name name) es = None ->
  upsert_list es name account = (es ++ [account], false).
Proof. intros Hn. unfold upsert_list. by rewrite Hn. Qed.

(** The names after an upsert: unchanged when the name was present, the
    new name appended otherwise. *)
Lemma upsert_list_names :
  account_names (upsert_list es name account).1 =
  if (upsert_list es name account).2 then account_names es
  else account_names es ++ [name].
Proof.
  unfold upsert_list, account_names.
  destruct (find_index (has_name name) es) as [i|] eqn:Hi; simpl.
  - destruct (find_index_Some _ _ _ Hi) as [[y [Hy Hny]] _].
    apply has_name_record in Hny.
    apply (omap_insert_same _ _ _ _ y); [done | by rewrite Hacc, Hny].
  - rewrite omap_app. simpl. by rewrite Hacc.
Qed.
End Contract.

Lemma names_absent_find_index name es :
  name ∉ account_names es -> find_index (has_name name) es = None.
Proof.
  intros Hn. apply find_index_None, Forall_forall. intros a Ha.
  apply not_true_iff_false. rewrite has_name_record. intros Hra.
  apply Hn, list_elem_of_omap. eauto.
Qed.

Lemma upsert_list_names_nodup es name account :
  record_name account = Some name ->
  NoDup (account_names es) -> NoDup (account_names (upsert_list es name account).1).
Proof.
  intros Hacc Hnd. rewrite upsert_list_names by done.
  destruct (find_index (has_name name) es) as [n|] eqn:Hn.
  - by rewrite (proj1 (upsert_list_found es name account n Hn)).
  - rewrite (upsert_list_new es name account Hn). apply NoDup_app.
    split_and!; [done| |apply NoDup_singleton].
    intros x Hx Hx'. apply list_elem_of_singleton in Hx'. subst x.
    by apply (find_index_none_names name es).
Qed.

Lemma filter_none_has_name name (t : list jsval) :
  (forall w, w ∈ t -> record_name w <> Some name) -> List.filter (has_name name) t = [].
Proof.
  induction t as [|w t IH]; intros Hno; simpl; [done|].
  destruct (has_name name w) eqn:Hw.
  - apply has_name_record in Hw. exfalso. apply (Hno w); [left | done].
  - apply IH. intros w' Hw'. apply Hno. by right.
Qed.

(** With distinct names, the records carrying a name are the one record. *)
Lemma filter_has_name_single name l y :
  NoDup (account_names l) -> y ∈ l -> record_name y = Some name ->
  List.filter (has_name name) l = [y].
Proof.
  induction l as [|z t IH]; [set_solver|].
  unfold account_names. simpl. intros Hnd Hy Hry.
  assert (Hnot : forall w, w ∈ t -> record_name w = Some name ->
                 record_name z <> Some name).
  { intros w Hw Hrw Hrz. rewrite Hrz in Hnd. apply NoDup_cons in Hnd as [Hn _].
    apply Hn, list_elem_of_omap. eauto. }
  apply elem_of_cons in Hy as [->|Hy].
  - rewrite (proj2 (has_name_record _ _) Hry). f_equal.
    apply filter_none_has_name. intros w Hw Hw'. by apply (Hnot w).
  - destruct (has_name name z) eqn:Hz.
    + apply has_name_record in Hz. exfalso. by apply (Hnot y).
    + apply IH; [|done|done]. destruct (record_name z); [|done].
      by apply NoDup_cons in Hnd as [_ ?].
Qed.

Lemma make_account_name `{JsHost} name json now account :
  make_account name json now = Ok account -> record_name account = Some name.
Proof.
  unfold make_account. intros Hmk. throws_inv. unfold record_name.
  by rewrite js_get_obj_key by solve_store_key.
Qed.

Lemma upsert_list_elem es name account : account ∈ (upsert_list es name account).1.
Proof.
  unfold upsert_list. destruct (find_index (has_name name) es) as [i|] eqn:Hi; simpl.
  - apply list_elem_of_lookup. exists i. apply list_lookup_insert_eq. eauto with ma.
  - set_solver.
Qed.

(** Evaluate reads of fixed keys in a concrete-shaped value. *)
Ltac js_eval :=
  repeat (progress (cbn -[js_get];
                    rewrite ?js_get_obj_key, ?js_get_arr_key by solve_store_key)).

(** After an enrollment into a store whose accounts carry distinct
    names, the accounts still carry distinct names, and the only record
    under the enrolled name is the new record: the old one is replaced as a
    whole, not merged. *)
Theorem upsert_account_one_record `{JsHost} ps pa pm es lp name json now account :
  assoc_get "anthropic" ps = Some (JObj pa) ->
  assoc_get "multiAccounts" pa = Some (JObj pm) ->
  assoc_get "accounts" pm = Some (JArr es lp) ->
  Forall (fun a => readable a = true) es ->
  NoDup (account_names es) ->
  make_account name json now = Ok account ->
  exists es' updated,
    upsert_account (JObj ps) name json now = Ok (with_accounts ps pa pm es' lp, updated) /\
    NoDup (account_names es') /\
    List.filter (has_name name) es' = [account].
Proof.
  intros Ha Hm Hl Hr Hnd Hacc.
  pose proof (make_account_name _ _ _ _ Hacc) as Hname.
  exists (upsert_list es name account).1, (upsert_list es name account).2.
  split_and!.
  - by apply (upsert_refines ps pa pm es lp).
  - by apply upsert_list_names_nodup.
  - apply filter_has_name_single; [by apply upsert_list_names_nodup | | done].
    apply upsert_list_elem.
Qed.

(** C8 (finding).  When the stored document is a JSON array, [auth.anthropic = {}]
    adds a named property to the array; the rest of the sequence fills it in
    and reports a new account, but [JSON.stringify] does not write named
    properties of an array: the document written is the one that was read. *)
Theorem upsert_root_array_drops_account `{JsHost} es name json now account :
  make_account name json now = Ok account ->
  exists doc', upsert_account (JArr es []) name json now = Ok (doc', false) /\
               json_of doc' = json_of (JArr es []).
Proof.
  intros Hacc. unfold upsert_account, ensure_anthropic, ensure_multiAccounts,
    ensure_accounts, store_account.
  js_eval. rewrite Hacc. js_eval. eexists. split; reflexivity.
Qed.

Lemma find_index_has_name_Some name es :
  is_Some (find_index (has_name name) es) <-> name ∈ account_names es.
Proof.
  split.
  - intros [i Hi]. destruct (find_index_Some _ _ _ Hi) as [[y [Hy Hny]] _].
    apply has_name_record in Hny. apply list_elem_of_omap.
    exists y. split; [by eapply list_elem_of_lookup_2 | done].
  - intros Hin. destruct (find_index (has_name name) es) eqn:E; [done|].
    by apply find_index_none_names in E.
Qed.

(** C1 (refinement). On a store of the expected shape, lines 108-130 implement the
    contract [upsert_list]: the accounts array becomes the one where the
    record of that name is replaced, or the record appended; every other
    property of the document, of [anthropic] and of [multiAccounts] keeps
    its value and place; and the run reports an update exactly when an
    account of that name was present. *)
Theorem upsert_account_refines `{JsHost} ps pa pm es lp name json now account :
  assoc_get "anthropic" ps = Some (JObj pa) ->
  assoc_get "multiAccounts" pa = Some (JObj pm) ->
  assoc_get "accounts" pm = Some (JArr es lp) ->
  Forall (fun a => readable a = true) es ->
  make_account name json now = Ok account ->
  exists doc' updated,
    upsert_account (JObj ps) name json now = Ok (doc', updated) /\
    doc' = with_accounts ps pa pm (upsert_list es name account).1 lp /\
    (updated = true <-> name ∈ account_names es).
Proof.
  intros Ha Hm Hl Hr Hacc. do 2 eexists. split_and!.
  - by apply (upsert_refines ps pa pm es lp).
  - done.
  - rewrite <- find_index_has_name_Some. unfold upsert_list.
    destruct (find_index (has_name name) es); simpl; split; try done.
Qed.

Lemma make_account_shape `{JsHost} name json now account :
  make_account name json now = Ok account ->
  exists access refresh expires,
    account = JObj [("name", JStr name); ("access", access); ("refresh", refresh);
                    ("expires", expires)].
Proof. unfold make_account. intros Hmk. throws_inv. eauto. Qed.

(** On the store [loadAuth] returns for a missing or unparsable file, the
    update creates the one-account document. *)
Lemma upsert_default `{JsHost} name json now account :
  make_account name json now = Ok account ->
  upsert_account default_auth name json now =
  Ok (JObj [("anthropic", JObj [("multiAccounts", JObj [("accounts", JArr [account] [])])])],
      false).
Proof.
  intros Hacc. unfold upsert_account, ensure_anthropic, ensure_multiAccounts,
    ensure_accounts, store_account, default_auth.
  js_eval. rewrite Hacc. js_eval. reflexivity.
Qed.

(** ** Witnesses *)

Definition sample_response : jsval :=
  JObj [("access_token", JStr "at-2"); ("refresh_token", JStr "rt-2");
        ("expires_in", JNum 3600%float)].

Definition sample_old_record : jsval :=
  JObj [("name", JStr "max-5x"); ("access", JStr "at-1"); ("refresh", JStr "rt-1");
        ("expires", JNum (float_of_nat 1000))].

Definition sample_pm : list (string * jsval) :=
  [("accounts", JArr [sample_old_record] []); ("usage", JObj [])].

Definition sample_pa : list (string * jsval) := [("multiAccounts", JObj sample_pm)].

Definition sample_store_props : list (string * jsval) := [("anthropic", JObj sample_pa)].

(** Re-enrolling "max-5x" into a store holding it: the record is replaced
    in place and an update is reported. *)
Lemma upsert_account_refines_witness :
  exists doc' updated,
    @upsert_account sample_host (JObj sample_store_props) "max-5x" sample_response
      (float_of_nat 5) = Ok (doc', updated) /\
    doc' = with_accounts sample_store_props sample_pa sample_pm
             (upsert_list [sample_old_record] "max-5x"
                (JObj [("name", JStr "max-5x"); ("access", JStr "at-2");
                       ("refresh", JStr "rt-2");
                       ("expires", JNum (float_of_nat 5 + js_to_number (H:=sample_host)
                                           (JNum 3600%float) * 1000)%float)])).1 [] /\
    (updated = true <-> "max-5x" ∈ account_names [sample_old_record]).
Proof.
  apply (@upsert_account_refines sample_host sample_store_props); try reflexivity.
  repeat constructor.
Defined.

(** A store whose root is the JSON array [[]]. *)
Lemma upsert_root_array_drops_account_witness :
  exists doc', @upsert_account sample_host (JArr [] []) "max-5x" sample_response
                 (float_of_nat 5) = Ok (doc', false) /\
               json_of doc' = json_of (JArr [] []).
Proof.
  apply (@upsert_root_array_drops_account sample_host [] "max-5x" sample_response
           (float_of_nat 5)
           (JObj [("name", JStr "max-5x"); ("access", JStr "at-2"); ("refresh", JStr "rt-2");
                  ("expires", JNum (float_of_nat 5 + js_to_number (H:=sample_host)
                                      (JNum 3600%float) * 1000)%float)])).
  reflexivity.
Defined.
