(* ===== verification/Callback.v ===== *)
(** * Callback: the authorization URL, the pasted callback, the token request

    [src/add-account.ts] builds the authorization URL by eight
    [url.searchParams.set] calls (lines 48-56), asks the operator to paste
    the callback URL (line 64, trimmed by [prompt], lines 25-33), extracts
    [code] and [state] from it and joins them as ["code#state"] (lines
    66-76), stops when nothing was extracted (78-81), and splits the joined
    string on ["#"] again to fill the JSON body of the token request (85-96).

    [URLSearchParams] is modelled as its list of name-value pairs with the
    WHATWG [set] and [get] algorithms.  The URL parser itself ([new URL])
    is a library the script only calls: it is the interface [UrlParser],
    and the theorems hold for every parser. *)

From Stdlib Require Import Ascii.
From stdpp Require Import base list sets strings.
From S2P Require Import Prelude JsValue.

Definition CLIENT_ID : string := "9d1c250a-e61b-44d9-88ed-5944d1962f5e".
Definition REDIRECT_URI : string := "https://console.anthropic.com/oauth/code/callback".
Definition SCOPE : string := "org:create_api_key user:profile user:inference".

(** ** [URLSearchParams] *)

Definition search_params : Type := list (string * string).

(** [params.get(name)]: the value of the first pair with that name. *)
Fixpoint sp_get (q : search_params) (name : string) : option string :=
  match q with
  | [] => None
  | (n, v) :: t => if String.eqb n name then Some v else sp_get t name
  end.

Fixpoint sp_set_first (name value : string) (found : bool) (q : search_params)
  : search_params :=
  match q with
  | [] => []
  | (n, v) :: t =>
      if String.eqb n name
      then if found then sp_set_first name value true t
           else (n, value) :: sp_set_first name value true t
      else (n, v) :: sp_set_first name value found t
  end.

(** [params.set(name, value)]: the first pair with that name gets the value
    and the others are removed; without such a pair one is appended. *)
Definition sp_set (name value : string) (q : search_params) : search_params :=
  if existsb (fun kv => String.eqb kv.1 name) q
  then sp_set_first name value false q
  else q ++ [(name, value)].

(** ** The authorization request, add-account.ts:48-56

    The base URL has no query; the parameters are set in this order. *)
Definition authorize_query (challenge verifier : string) : search_params :=
  sp_set "state" verifier
    (sp_set "code_challenge_method" "S256"
      (sp_set "code_challenge" challenge
        (sp_set "scope" SCOPE
          (sp_set "redirect_uri" REDIRECT_URI
            (sp_set "response_type" "code"
              (sp_set "client_id" CLIENT_ID
                (sp_set "code" "true" []))))))).

(** ** The URL parser the script calls *)

Class UrlParser : Type := {
  (** [new URL(s).searchParams], or [None] when the constructor throws *)
  url_search : string -> option search_params
}.

(** ** Reading the pasted line *)

Definition is_js_space (c : ascii) : bool :=
  match Ascii.nat_of_ascii c with
  | 9 | 10 | 11 | 12 | 13 | 32 => true
  | _ => false
  end.

Fixpoint drop_leading_space (s : string) : string :=
  match s with
  | EmptyString => EmptyString
  | String c t => if is_js_space c then drop_leading_space t else s
  end.

Fixpoint drop_trailing_space (s : string) : string :=
  match s with
  | EmptyString => EmptyString
  | String c t =>
      let t' := drop_trailing_space t in
      if is_js_space c && String.eqb t' "" then EmptyString else String c t'
  end.

(** [String.prototype.trim], for the ASCII white space and line terminators. *)
Definition js_trim (s : string) : string :=
  drop_trailing_space (drop_leading_space s).

Section WithUrl.
Context `{UrlParser}.

(** add-account.ts:66-76 *)
Definition extract_code (callbackUrl : string) : string :=
  match url_search callbackUrl with
  | None => callbackUrl
  | Some q =>
      let code := default "" (sp_get q "code") in
      let state := default "" (sp_get q "state") in
      if negb (String.eqb code "") && negb (String.eqb state "")
      then code +:+ "#" +:+ state
      else code
  end.
End WithUrl.

(** [s.split(sep)] for a one-character separator. *)
Fixpoint split_on (sep : ascii) (s : string) : list string :=
  match s with
  | EmptyString => [""]
  | String c t =>
      let r := split_on sep t in
      if Ascii.eqb c sep then "" :: r
      else match r with
           | [] => [String c EmptyString]
           | h :: rest => String c h :: rest
           end
  end.

(** [code.split("#")], add-account.ts:85 *)
Definition split_hash (s : string) : list string := split_on "#"%char s.

(** [splits[i]] *)
Definition js_index (l : list string) (i : nat) : jsval :=
  match l !! i with Some s => JStr s | None => JUndefined end.

(** add-account.ts:85-96: the object whose [JSON.stringify] is the body of
    the token request. *)
Definition token_request (code verifier : string) : jsval :=
  let splits := split_hash code in
  JObj [("code", js_index splits 0); ("state", js_index splits 1);
        ("grant_type", JStr "authorization_code"); ("client_id", JStr CLIENT_ID);
        ("redirect_uri", JStr REDIRECT_URI); ("code_verifier", JStr verifier)].

(** ** The authorization request carries the PKCE pair *)

Lemma authorize_query_state challenge verifier :
  sp_get (authorize_query challenge verifier) "state" = Some verifier.
Proof. reflexivity. Qed.

Lemma authorize_query_challenge challenge verifier :
  sp_get (authorize_query challenge verifier) "code_challenge" = Some challenge.
Proof. reflexivity. Qed.

(** ** Splitting on ["#"] *)

Fixpoint has_char (c : ascii) (s : string) : bool :=
  match s with
  | EmptyString => false
  | String x t => Ascii.eqb x c || has_char c t
  end.

Lemma split_on_free c s : has_char c s = false -> split_on c s = [s].
Proof.
  induction s as [|x t IH]; simpl; [done|].
  intros [Hx Ht]%orb_false_iff. rewrite Hx, IH by done. done.
Qed.

Lemma split_on_app c a b :
  has_char c a = false -> split_on c (a +:+ String c b) = a :: split_on c b.
Proof.
  induction a as [|x t IH]; simpl.
  - by rewrite Ascii.eqb_refl.
  - intros [Hx Ht]%orb_false_iff. by rewrite Hx, (IH Ht).
Qed.

Lemma split_hash_join a b :
  has_char "#" a = false -> has_char "#" b = false ->
  split_hash (a +:+ "#" +:+ b) = [a; b].
Proof.
  intros Ha Hb. unfold split_hash. change ("#" +:+ b) with (String "#" b).
  rewrite split_on_app, split_on_free by done. done.
Qed.

Lemma split_hash_join3 a b c :
  has_char "#" a = false -> has_char "#" b = false ->
  split_hash ((a +:+ "#" +:+ b) +:+ "#" +:+ c) = a :: b :: split_hash c.
Proof.
  intros Ha Hb. unfold split_hash. rewrite append_assoc_str.
  change (split_on "#" (a +:+ String "#" (b +:+ String "#" c)) = a :: b :: split_on "#" c).
  by rewrite split_on_app, split_on_app.
Qed.

Section Extraction.
Context `{UrlParser}.

Lemma token_request_extract s q c st verifier :
  url_search s = Some q -> sp_get q "code" = Some c -> sp_get q "state" = Some st ->
  c <> "" -> st <> "" -> has_char "#" c = false -> has_char "#" st = false ->
  token_request (extract_code s) verifier =
  JObj [("code", JStr c); ("state", JStr st);
        ("grant_type", JStr "authorization_code"); ("client_id", JStr CLIENT_ID);
        ("redirect_uri", JStr REDIRECT_URI); ("code_verifier", JStr verifier)].
Proof.
  intros Hs Hc Hst Hc0 Hst0 Hhc Hhs. unfold extract_code. rewrite Hs, Hc, Hst. simpl.
  rewrite (proj2 (String.eqb_neq _ _) Hc0), (proj2 (String.eqb_neq _ _) Hst0). simpl.
  unfold token_request. by rewrite split_hash_join.
Qed.

(** C5. What the operator pastes is a URL whose query has non-empty
    [code] and [state] without ["#"]: the JSON body of the token request
    carries exactly that code and that state, next to the fixed fields. *)
Theorem extract_request_roundtrip s q c st verifier :
  url_search s = Some q -> sp_get q "code" = Some c -> sp_get q "state" = Some st ->
  c <> "" -> st <> "" -> has_char "#" c = false -> has_char "#" st = false ->
  json_of (token_request (extract_code s) verifier) =
  Some (JObj [("code", JStr c); ("state", JStr st);
              ("grant_type", JStr "authorization_code"); ("client_id", JStr CLIENT_ID);
              ("redirect_uri", JStr REDIRECT_URI); ("code_verifier", JStr verifier)]).
Proof. intros. by rewrite (token_request_extract s q c st verifier). Qed.

(** C6. The verifier travels through [state]: when the callback returns the
    [state] the authorization URL was given, the token request's [state]
    is the PKCE verifier, the same value as its [code_verifier]. *)
Theorem state_carries_verifier s q c challenge verifier :
  url_search s = Some q -> sp_get q "code" = Some c -> c <> "" -> has_char "#" c = false ->
  sp_get q "state" = sp_get (authorize_query challenge verifier) "state" ->
  verifier <> "" -> has_char "#" verifier = false ->
  exists ps, token_request (extract_code s) verifier = JObj ps /\
             assoc_get "state" ps = Some (JStr verifier) /\
             assoc_get "code_verifier" ps = Some (JStr verifier).
Proof.
  intros Hs Hc Hc0 Hhc Hst Hv0 Hhv. rewrite authorize_query_state in Hst.
  rewrite (token_request_extract s q c verifier verifier) by done.
  eexists. split; [reflexivity|]. done.
Qed.

(** C11 (finding).  A code that itself contains ["#"] (pasted percent-encoded as
    [%23], which [searchParams.get] decodes) is cut at its first ["#"] and
    the rest of it is sent as [state]; the real [state] is dropped. *)
Theorem extract_code_with_hash s q a b st verifier :
  url_search s = Some q -> sp_get q "code" = Some (a +:+ "#" +:+ b) ->
  sp_get q "state" = Some st -> st <> "" ->
  has_char "#" a = false -> has_char "#" b = false ->
  exists ps, token_request (extract_code s) verifier = JObj ps /\
             assoc_get "code" ps = Some (JStr a) /\
             assoc_get "state" ps = Some (JStr b).
Proof.
  intros Hs Hc Hst Hst0 Ha Hb. unfold extract_code. rewrite Hs, Hc, Hst. simpl.
  rewrite (proj2 (String.eqb_neq _ _) Hst0).
  assert (Hne : (a +:+ "#" +:+ b) <> "") by (destruct a; discriminate).
  rewrite (proj2 (String.eqb_neq _ _) Hne). simpl.
  unfold token_request. rewrite split_hash_join3 by done.
  eexists. split; [reflexivity|]. done.
Qed.
End Extraction.

(** ** A concrete parser, for running the model on examples

    A scheme of letters before the first [:]; the query between the first
    [?] and the next [#]; pairs separated by [&], name and value by the
    first [=]; no percent-decoding.  The theorems do not depend on it. *)
Definition is_letter (c : ascii) : bool :=
  let n := Ascii.nat_of_ascii c in ((65 <=? n) && (n <=? 90)) || ((97 <=? n) && (n <=? 122)).

Fixpoint all_letters (s : string) : bool :=
  match s with EmptyString => true | String c t => is_letter c && all_letters t end.

Definition sample_pair (p : string) : string * string :=
  match split_on "=" p with
  | n :: v :: _ => (n, v)
  | [n] => (n, "")
  | [] => ("", "")
  end.

Definition sample_url_search (s : string) : option search_params :=
  match split_on ":" s with
  | scheme :: _ :: _ =>
      if negb (String.eqb scheme "") && all_letters scheme then
        match split_on "?" s with
        | _ :: q :: _ => Some (map sample_pair (split_on "&" (default "" (head (split_on "#" q)))))
        | _ => Some []
        end
      else None
  | _ => None
  end.

Definition sample_url : UrlParser := {| url_search := sample_url_search |}.

(** ** Witnesses *)

Definition sample_callback : string :=
  "https://console.anthropic.com/oauth/code/callback?code=abc&state=xyz".

(** The spec's example: [?code=abc&state=xyz] gives [code = "abc"],
    [state = "xyz"]. *)
Lemma extract_request_roundtrip_witness :
  json_of (token_request (extract_code (H:=sample_url) sample_callback) "VER") =
  Some (JObj [("code", JStr "abc"); ("state", JStr "xyz");
              ("grant_type", JStr "authorization_code"); ("client_id", JStr CLIENT_ID);
              ("redirect_uri", JStr REDIRECT_URI); ("code_verifier", JStr "VER")]).
Proof.
  apply (@extract_request_roundtrip sample_url sample_callback [("code", "abc"); ("state", "xyz")]);
    try reflexivity; discriminate.
Defined.

Lemma state_carries_verifier_witness :
  exists ps, token_request (extract_code (H:=sample_url)
               "https://console.anthropic.com/oauth/code/callback?code=abc&state=VER") "VER"
             = JObj ps /\
             assoc_get "state" ps = Some (JStr "VER") /\
             assoc_get "code_verifier" ps = Some (JStr "VER").
Proof.
  apply (@state_carries_verifier sample_url _ [("code", "abc"); ("state", "VER")] "abc" "CH" "VER");
    try reflexivity; discriminate.
Defined.

(** A parser that decodes [code=a%23b&state=s] to the pairs below. *)
Definition decoding_url : UrlParser := {| url_search _ := Some [("code", "a#b"); ("state", "s")] |}.

Lemma extract_code_with_hash_witness :
  exists ps, token_request (extract_code (H:=decoding_url) "https://h/cb?code=a%23b&state=s") "VER"
             = JObj ps /\
             assoc_get "code" ps = Some (JStr "a") /\
             assoc_get "state" ps = Some (JStr "b").
Proof.
  apply (@extract_code_with_hash decoding_url _ [("code", "a#b"); ("state", "s")] "a" "b" "s");
    try reflexivity; discriminate.
Defined.
