(* ===== verification/Pkce.v ===== *)
(** * Pkce: the PKCE pair of [@openauthjs/openauth/pkce]

    add-account.ts:46 calls [generatePKCE()] and uses the pair it returns
    twice: [pkce.challenge] goes into the authorization URL
    (add-account.ts:54) and [pkce.verifier] into both [state]
    (add-account.ts:56) and the token request's [code_verifier]
    (add-account.ts:95).  The generator is a library, not code of the
    repository; this file models it from its contract (RFC 7636, S256):
    the verifier is the base64url text, without padding, of random bytes,
    and the challenge is the base64url text of the SHA-256 digest of the
    verifier's bytes.  The random bytes are an input.

    - [b64url_encode]: base64url without padding (RFC 4648, section 5),
      three bytes to four characters;
    - [sha256]: FIPS 180-4 on bytes, with 32-bit words as [Z] and their
      wrap-around written out ([w32]);
    - [generatePKCE]: the pair from the random bytes.

    Bytes are [Z] values in [0, 256) inside the encoder and [Byte.byte]
    at the boundary.  The encoder and SHA-256 are checked against the
    test vector of RFC 7636, appendix B ([generatePKCE_rfc7636]).

    Theorem: the lengths and alphabet of what the authorization URL
    carries (C25). *)

From Stdlib Require Import ZArith Ascii.
From stdpp Require Import base list strings.
From S2P Require Import Prelude JsValue Callback.

Local Open Scope Z_scope.

(** ** base64url *)

Definition b64url_alphabet : string :=
  "ABCDEFGHIJKLMNOPQRSTUVWXYZabcdefghijklmnopqrstuvwxyz0123456789-_".

(** The character of a sextet [0 <= s < 64]. *)
Definition sextet_char (s : Z) : ascii :=
  match String.get (Z.to_nat s) b64url_alphabet with Some c => c | None => "A"%char end.

Definition byte_z (b : Byte.byte) : Z := Z.of_N (Byte.to_N b).

(** Three bytes [a b c] are four sextets; a final pair is three, a final
    byte two (no [=] padding). *)
Fixpoint b64url_encode_z (l : list Z) : string :=
  match l with
  | a :: b :: c :: t =>
      String (sextet_char (a / 4)) (String (sextet_char (a mod 4 * 16 + b / 16))
        (String (sextet_char (b mod 16 * 4 + c / 64)) (String (sextet_char (c mod 64))
          (b64url_encode_z t))))
  | [a; b] =>
      String (sextet_char (a / 4)) (String (sextet_char (a mod 4 * 16 + b / 16))
        (String (sextet_char (b mod 16 * 4)) EmptyString))
  | [a] => String (sextet_char (a / 4)) (String (sextet_char (a mod 4 * 16)) EmptyString)
  | [] => EmptyString
  end.

Definition b64url_encode (l : list Byte.byte) : string := b64url_encode_z (map byte_z l).

(** The characters RFC 3986 calls unreserved (letters, digits, [-], [.],
    [_], [~]): [URLSearchParams] and the URL serializer leave them as
    they are, and none of them is ["#"], ["&"] or ["="]. *)
Definition url_safe_char (c : ascii) : bool :=
  let n := Ascii.nat_of_ascii c in
  let within lo hi := (lo <=? n)%nat && (n <=? hi)%nat in
  within 65%nat 90%nat || within 97%nat 122%nat || within 48%nat 57%nat ||
  (c =? "-")%char || (c =? ".")%char || (c =? "_")%char || (c =? "~")%char.

Fixpoint url_safe (s : string) : bool :=
  match s with EmptyString => true | String c t => url_safe_char c && url_safe t end.

(** ** SHA-256 (FIPS 180-4) *)

Definition w32 (x : Z) : Z := Z.land x (Z.ones 32).
Definition add32 (x y : Z) : Z := w32 (x + y).
Definition rotr (n x : Z) : Z := Z.lor (Z.shiftr x n) (w32 (Z.shiftl x (32 - n))).

Definition Ch (x y z : Z) : Z := Z.lxor (Z.land x y) (Z.land (Z.lxor x (Z.ones 32)) z).
Definition Maj (x y z : Z) : Z := Z.lxor (Z.lxor (Z.land x y) (Z.land x z)) (Z.land y z).
Definition Sigma0 (x : Z) : Z := Z.lxor (Z.lxor (rotr 2 x) (rotr 13 x)) (rotr 22 x).
Definition Sigma1 (x : Z) : Z := Z.lxor (Z.lxor (rotr 6 x) (rotr 11 x)) (rotr 25 x).
Definition sigma0 (x : Z) : Z := Z.lxor (Z.lxor (rotr 7 x) (rotr 18 x)) (Z.shiftr x 3).
Definition sigma1 (x : Z) : Z := Z.lxor (Z.lxor (rotr 17 x) (rotr 19 x)) (Z.shiftr x 10).

(** The 64 round constants of section 4.2.2 (the first 32 bits of the
    fractional parts of the cube roots of the first 64 primes), in decimal. *)
Definition K256 : list Z :=
  [1116352408; 1899447441; 3049323471; 3921009573; 961987163; 1508970993; 2453635748; 2870763221;
   3624381080; 310598401; 607225278; 1426881987; 1925078388; 2162078206; 2614888103; 3248222580;
   3835390401; 4022224774; 264347078; 604807628; 770255983; 1249150122; 1555081692; 1996064986;
   2554220882; 2821834349; 2952996808; 3210313671; 3336571891; 3584528711; 113926993; 338241895;
   666307205; 773529912; 1294757372; 1396182291; 1695183700; 1986661051; 2177026350; 2456956037;
   2730485921; 2820302411; 3259730800; 3345764771; 3516065817; 3600352804; 4094571909; 275423344;
   430227734; 506948616; 659060556; 883997877; 958139571; 1322822218; 1537002063; 1747873779;
   1955562222; 2024104815; 2227730452; 2361852424; 2428436474; 2756734187; 3204031479; 3329325298].

(** The eight working variables, and the hash value between blocks. *)
Record sha_state : Type := ShaState {
  sa : Z; sb : Z; sc : Z; sd : Z; se : Z; sf : Z; sg : Z; sh : Z
}.

Definition H256 : sha_state :=
  ShaState 1779033703 3144134277 1013904242 2773480762
           1359893119 2600822924 528734635 1541459225.

(** One round with constant [k] and schedule word [w] (section 6.2.2, step 3). *)
Definition sha_round (s : sha_state) (kw : Z * Z) : sha_state :=
  let '(ShaState a b c d e f g h) := s in
  let T1 := add32 (add32 (add32 (add32 h (Sigma1 e)) (Ch e f g)) kw.1) kw.2 in
  let T2 := add32 (Sigma0 a) (Maj a b c) in
  ShaState (add32 T1 T2) a b c (add32 d T1) e f g.

(** The message schedule: from the block's sixteen words, each further
    word from the four that come 2, 7, 15 and 16 before it. *)
Fixpoint schedule (n : nat) (ws : list Z) : list Z :=
  match n with
  | O => ws
  | S n =>
      let m := length ws in
      let w t := nth (m - t) ws 0 in
      schedule n (ws ++ [add32 (add32 (add32 (sigma1 (w 2%nat)) (w 7%nat)) (sigma0 (w 15%nat))) (w 16%nat)])
  end.

Definition be_word (l : list Z) : Z := fold_left (fun acc b => acc * 256 + b) l 0.

Fixpoint words (n : nat) (l : list Z) : list Z :=
  match n with
  | O => []
  | S n => be_word (take 4 l) :: words n (drop 4 l)
  end.

Definition add_state (s t : sha_state) : sha_state :=
  ShaState (add32 (sa s) (sa t)) (add32 (sb s) (sb t)) (add32 (sc s) (sc t)) (add32 (sd s) (sd t))
           (add32 (se s) (se t)) (add32 (sf s) (sf t)) (add32 (sg s) (sg t)) (add32 (sh s) (sh t)).

(** One 64-byte block (section 6.2.2, steps 1-4). *)
Definition sha_block (H : sha_state) (block : list Z) : sha_state :=
  add_state H (fold_left sha_round (zip K256 (schedule 48 (words 16 block))) H).

(** The message split into 64-byte blocks. *)
Fixpoint blocks (fuel : nat) (l : list Z) : list (list Z) :=
  match fuel, l with
  | O, _ | _, [] => []
  | S fuel, _ => take 64 l :: blocks fuel (drop 64 l)
  end.

(** [n] as [k] bytes, most significant first. *)
Definition be_bytes (k : nat) (n : Z) : list Z :=
  map (fun i => Z.land (Z.shiftr n (8 * Z.of_nat (k - 1 - i))) 255) (seq 0 k).

(** Padding (section 5.1.1): a 1 bit, zeros up to 56 bytes modulo 64,
    the length in bits on eight bytes. *)
Definition sha_pad (msg : list Z) : list Z :=
  let len := length msg in
  msg ++ 128 :: replicate (Z.to_nat ((55 - Z.of_nat len) mod 64)) 0 ++ be_bytes 8 (8 * Z.of_nat len).

Definition state_bytes (s : sha_state) : list Z :=
  be_bytes 4 (sa s) ++ be_bytes 4 (sb s) ++ be_bytes 4 (sc s) ++ be_bytes 4 (sd s) ++
  be_bytes 4 (se s) ++ be_bytes 4 (sf s) ++ be_bytes 4 (sg s) ++ be_bytes 4 (sh s).

Definition sha256 (msg : list Z) : list Z :=
  let p := sha_pad msg in state_bytes (fold_left sha_block (blocks (length p) p) H256).

(** ** The pair *)

(** [new TextEncoder().encode(s)] on a string of 8-bit characters below 128. *)
Definition ascii_bytes (s : string) : list Z :=
  map (fun c => Z.of_N (Ascii.N_of_ascii c)) (String.list_ascii_of_string s).

Record pkce_pair : Type := PkcePair { verifier : string; challenge : string }.

(** [generatePKCE()]: the verifier from the random bytes, the challenge
    from the verifier (S256). *)
Definition generatePKCE (random : list Byte.byte) : pkce_pair :=
  let v := b64url_encode random in
  PkcePair v (b64url_encode_z (sha256 (ascii_bytes v))).

(** ** Lemmas *)

Definition is_byte (z : Z) : Prop := 0 <= z < 256.

Ltac zdiv := unfold is_byte in *; Z.div_mod_to_equations; lia.

(** Three bytes at a time, with the final one or two apart. *)
Lemma list_ind3 {A} (P : list A -> Prop) :
  P [] -> (forall a, P [a]) -> (forall a b, P [a; b]) ->
  (forall a b c t, P t -> P (a :: b :: c :: t)) -> forall l, P l.
Proof.
  intros H0 H1 H2 H3. fix IH 1.
  intros [|a [|b [|c t]]]; [exact H0 | apply H1 | apply H2 | apply H3, IH].
Qed.

Lemma sextet_table :
  forallb (fun n => url_safe_char (sextet_char (Z.of_nat n))) (seq 0 64) = true.
Proof. vm_compute. reflexivity. Qed.

(** The 64 characters of the alphabet are unreserved URL characters. *)
Lemma sextet_char_safe s : 0 <= s < 64 -> url_safe_char (sextet_char s) = true.
Proof.
  intros Hs. pose proof sextet_table as Ht.
  apply (proj1 (forallb_forall _ _)) with (x := Z.to_nat s) in Ht; [| apply in_seq; lia].
  by rewrite Z2Nat.id in Ht by lia.
Qed.

Lemma byte_z_range b : is_byte (byte_z b).
Proof. pose proof (Byte.to_N_bounded b). unfold is_byte, byte_z. lia. Qed.

Lemma b64url_encode_z_length l :
  String.length (b64url_encode_z l) = ((4 * length l + 2) `div` 3)%nat.
Proof.
  induction l as [|a|a b|a b c t IH] using list_ind3; [done..|].
  cbn [b64url_encode_z String.length length]. rewrite IH.
  replace (4 * S (S (S (length t))) + 2)%nat with (4 * length t + 2 + 4 * 3)%nat by lia.
  rewrite Nat.div_add by lia. lia.
Qed.

Lemma b64url_encode_z_safe l : Forall is_byte l -> url_safe (b64url_encode_z l) = true.
Proof.
  induction l as [|a|a b|a b c t IH] using list_ind3; intros Hl; [done|..];
    repeat (apply Forall_cons in Hl as [? Hl]); simpl;
    rewrite !sextet_char_safe by zdiv; simpl; auto.
Qed.

Lemma be_bytes_length k n : length (be_bytes k n) = k.
Proof. unfold be_bytes. by rewrite length_map, length_seq. Qed.

Lemma be_bytes_range k n : Forall is_byte (be_bytes k n).
Proof.
  unfold be_bytes. apply Forall_forall. intros x Hx. apply list_elem_of_fmap_1 in Hx as (i & -> & _).
  change 255 with (Z.ones 8). rewrite Z.land_ones by lia. unfold is_byte.
  pose proof (Z.mod_pos_bound (Z.shiftr n (8 * Z.of_nat (k - 1 - i))) (2 ^ 8)). lia.
Qed.

Lemma state_bytes_length s : length (state_bytes s) = 32%nat.
Proof. unfold state_bytes. by rewrite !length_app, !be_bytes_length. Qed.

Lemma state_bytes_range s : Forall is_byte (state_bytes s).
Proof. unfold state_bytes. repeat (apply Forall_app; split); apply be_bytes_range. Qed.

(** The digest is 32 bytes. *)
Lemma sha256_length msg : length (sha256 msg) = 32%nat.
Proof. apply state_bytes_length. Qed.

Lemma sha256_range msg : Forall is_byte (sha256 msg).
Proof. apply state_bytes_range. Qed.

Lemma b64url_encode_safe l : url_safe (b64url_encode l) = true.
Proof.
  apply b64url_encode_z_safe. apply Forall_forall. intros x Hx.
  apply list_elem_of_fmap_1 in Hx as (b & -> & _). apply byte_z_range.
Qed.

(** ** The pair's shape *)

Lemma generatePKCE_lengths random :
  (32 <= length random)%nat ->
  let p := generatePKCE random in
  String.length (verifier p) = ((4 * length random + 2) `div` 3)%nat /\
  (43 <= String.length (verifier p))%nat /\ url_safe (verifier p) = true /\
  String.length (challenge p) = 43%nat /\ url_safe (challenge p) = true.
Proof.
  intros Hn. unfold generatePKCE. cbn [verifier challenge]. unfold b64url_encode at 1 2.
  rewrite !b64url_encode_z_length, length_map, sha256_length. split_and!.
  - done.
  - apply Nat.div_le_lower_bound; lia.
  - apply b64url_encode_safe.
  - reflexivity.
  - apply b64url_encode_z_safe, sha256_range.
Qed.

(** C25: from at least 32 random bytes, the authorization URL built at
    add-account.ts:48-56 carries as [code_challenge] a text of exactly 43
    characters and as [state] one of [ceil(4n/3) >= 43] characters, all
    of them unreserved URL characters (so neither holds ["#"], ["&"] or
    ["="], and both travel through the query unchanged). *)
Theorem generatePKCE_shape random :
  (32 <= length random)%nat ->
  exists ch v,
    sp_get (authorize_query (challenge (generatePKCE random)) (verifier (generatePKCE random)))
      "code_challenge" = Some ch /\
    sp_get (authorize_query (challenge (generatePKCE random)) (verifier (generatePKCE random)))
      "state" = Some v /\
    String.length ch = 43%nat /\ url_safe ch = true /\
    String.length v = ((4 * length random + 2) `div` 3)%nat /\
    (43 <= String.length v)%nat /\ url_safe v = true.
Proof.
  intros Hn. destruct (generatePKCE_lengths random Hn) as (Hv & Hv43 & Hvs & Hc & Hcs).
  do 2 eexists. rewrite authorize_query_challenge, authorize_query_state. by split_and!.
Qed.

(** ** The example of RFC 7636, appendix B *)

(** The 32 random octets of the RFC's example. *)
Definition rfc7636_octets : list Byte.byte :=
  [Byte.x74; Byte.x18; Byte.xdf; Byte.xb4; Byte.x97; Byte.x99; Byte.xe0; Byte.x25;
   Byte.x4f; Byte.xfa; Byte.x60; Byte.x7d; Byte.xd8; Byte.xad; Byte.xbb; Byte.xba;
   Byte.x16; Byte.xd4; Byte.x25; Byte.x4d; Byte.x69; Byte.xd6; Byte.xbf; Byte.xf0;
   Byte.x5b; Byte.x58; Byte.x05; Byte.x58; Byte.x53; Byte.x84; Byte.x8d; Byte.x79].

(** The base64url encoder and SHA-256 of this file reproduce the
    standard's vector: the RFC's [code_verifier] and its S256
    [code_challenge]. *)
Example generatePKCE_rfc7636 :
  generatePKCE rfc7636_octets =
    PkcePair "dBjftJeZ4CVP-mB92K27uhbUJU1p1r_wW1gFWFOEjXk"
             "E9Melhoa2OwvFrEMTJguCHaoeK1t8URWbuGJSstw-cM".
Proof. vm_compute. reflexivity. Qed.

(** ** Witnesses *)

Lemma generatePKCE_shape_witness :
  (32 <= length rfc7636_octets)%nat /\
  exists ch v,
    sp_get (authorize_query (challenge (generatePKCE rfc7636_octets)) (verifier (generatePKCE rfc7636_octets)))
      "code_challenge" = Some ch /\
    sp_get (authorize_query (challenge (generatePKCE rfc7636_octets)) (verifier (generatePKCE rfc7636_octets)))
      "state" = Some v /\
    String.length ch = 43%nat /\ url_safe ch = true /\
    String.length v = ((4 * length rfc7636_octets + 2) `div` 3)%nat /\
    (43 <= String.length v)%nat /\ url_safe v = true.
Proof. split; [simpl; lia | apply generatePKCE_shape; simpl; lia]. Defined.

