(* ===== verification/Enroll.v ===== *)
(** * Enroll: one run of [src/add-account.ts]

    [main] (lines 35-135) is modelled as a function from the run's inputs to
    its observable outcome.  The inputs are what the environment supplies:
    the command-line argument, the PKCE pair [generatePKCE] returns, the
    line the operator types, the response of the token endpoint, the clock
    read by [Date.now()], whether the file system accepts the write, and the
    store file as it is when [loadAuth] reads it.  The outcome is the exit
    status, the token request the run sent (if any), the store file after
    the run, and the ordered status messages it printed.

    [main().catch(console.error)] (line 137) turns every exception thrown
    inside [main] into a printed error, after which the process ends
    normally, with status 0; only the three [process.exit(1)] calls end it
    with status 1. *)

From Stdlib Require Import ZArith Floats.
From stdpp Require Import base list sets strings.
From S2P Require Import Prelude JsValue AuthStore Accounts Callback.

(** What [fetch] yields: a rejected promise, or a response with its status
    and, when its body is JSON text, the parsed body. *)
Inductive fetch_outcome : Type :=
  | FetchRejected
  | Response (status : Z) (body : option jsval).

Record env : Type := {
  argv2 : option string;            (** [process.argv[2]] *)
  pkce_verifier : string;           (** [pkce.verifier] *)
  pkce_challenge : string;          (** [pkce.challenge] *)
  typed_line : option string;       (** the line typed at the prompt; [None]
                                        when standard input closes first *)
  token_reply : fetch_outcome;      (** the token endpoint's answer *)
  clock : float;                    (** [Date.now()] at line 121 *)
  fs_writable : bool                (** whether [writeFileSync] succeeds *)
}.

(** The status lines of the run, in order (their glyphs and wording are
    not modelled). *)
Inductive message : Type :=
  | MsgUsage                        (** lines 39-40 *)
  | MsgAuthorizeUrl (q : search_params)  (** lines 58-62 *)
  | MsgNoCode                       (** line 79 *)
  | MsgExchanging                   (** line 83 *)
  | MsgExchangeFailed (status : Z)  (** lines 101-102 *)
  | MsgUpdated                      (** line 126 *)
  | MsgAdded                        (** line 129 *)
  | MsgSaved                        (** lines 133-134 *)
  | MsgError (e : js_error).        (** [console.error] of line 137 *)

Record outcome : Type := {
  exit_code : Z;
  request : option jsval;           (** [JSON.stringify] view of the body sent *)
  store_after : file_state;
  messages : list message
}.

(** A response status for which [response.ok] holds. *)
Definition status_ok (status : Z) : bool := (200 <=? status)%Z && (status <? 300)%Z.

Section Run.
Context `{JsHost} `{UrlParser}.

(** Lines 108-134: from [loadAuth()] to the end of [main]. *)
Definition persist (name : string) (json : jsval) (now : float) (writable : bool)
  (f : file_state) (log : list message) (sent : option jsval) : outcome :=
  match upsert_account (loadAuth f) name json now with
  | Throw err =>
      {| exit_code := 0; request := sent; store_after := f;
         messages := log ++ [MsgError err] |}
  | Ok (auth, updated) =>
      let log := log ++ [if updated then MsgUpdated else MsgAdded] in
      match saveAuth writable auth with
      | Throw err =>
          {| exit_code := 0; request := sent; store_after := f;
             messages := log ++ [MsgError err] |}
      | Ok f' =>
          {| exit_code := 0; request := sent; store_after := f';
             messages := log ++ [MsgSaved] |}
      end
  end.

(** Lines 97-106: the token endpoint's answer, then [persist]. *)
Definition exchange (name : string) (e : env) (f : file_state)
  (log : list message) (sent : option jsval) : outcome :=
  match token_reply e with
  | FetchRejected =>
      {| exit_code := 0; request := sent; store_after := f;
         messages := log ++ [MsgError SystemError] |}
  | Response status body =>
      if negb (status_ok status) then
        {| exit_code := 1; request := sent; store_after := f;
           messages := log ++ [MsgExchangeFailed status] |}
      else
        match body with
        | None =>
            {| exit_code := 0; request := sent; store_after := f;
               messages := log ++ [MsgError SyntaxError] |}
        | Some json => persist name json (clock e) (fs_writable e) f log sent
        end
  end.

(** Lines 35-135 with the [catch] of line 137. *)
Definition main (e : env) (f : file_state) : outcome :=
  match argv2 e with
  | None | Some EmptyString =>
      {| exit_code := 1; request := None; store_after := f; messages := [MsgUsage] |}
  | Some name =>
      let log := [MsgAuthorizeUrl (authorize_query (pkce_challenge e) (pkce_verifier e))] in
      match typed_line e with
      | None =>
          (* the prompt's promise never settles; nothing else is pending *)
          {| exit_code := 0; request := None; store_after := f; messages := log |}
      | Some line =>
          let code := extract_code (js_trim line) in
          if String.eqb code "" then
            {| exit_code := 1; request := None; store_after := f;
               messages := log ++ [MsgNoCode] |}
          else
            exchange name e f (log ++ [MsgExchanging])
              (json_of (token_request code (pkce_verifier e)))
      end
  end.
End Run.

(** ** A run up to the token request *)

Section Props.
Context `{JsHost} `{UrlParser}.

(** The authorization URL, then the exchange: a run with a non-empty
    account name and a pasted line from which a code is extracted. *)
Lemma main_exchange e f name line :
  argv2 e = Some name -> name <> "" -> typed_line e = Some line ->
  extract_code (js_trim line) <> "" ->
  main e f =
  exchange name e f
    [MsgAuthorizeUrl (authorize_query (pkce_challenge e) (pkce_verifier e)); MsgExchanging]
    (json_of (token_request (extract_code (js_trim line)) (pkce_verifier e))).
Proof.
  intros Ha Hn Hl Hc. unfold main. rewrite Ha, Hl.
  rewrite (proj2 (String.eqb_neq _ _) Hc).
  destruct name; [done|]. reflexivity.
Qed.

Lemma loadAuth_default f : (f = Absent \/ exists t, f = Unparsable t) -> loadAuth f = default_auth.
Proof. by intros [->|[t ->]]. Qed.

Lemma json_of_obj_some ps : exists j, json_of (JObj ps) = Some j.
Proof. simpl. eauto. Qed.

(** C7. Without an account name the run prints the usage and exits with
    status 1: no request, no write. *)
Theorem main_usage e f :
  argv2 e = None \/ argv2 e = Some "" ->
  main e f = {| exit_code := 1; request := None; store_after := f; messages := [MsgUsage] |}.
Proof. unfold main. by intros [-> | ->]. Qed.

(** C4. A token endpoint answering with a status outside 200-299 ends the
    run with status 1 and leaves the store file as it was. *)
Theorem main_exchange_failure_keeps_store e f name line status body :
  argv2 e = Some name -> name <> "" -> typed_line e = Some line ->
  extract_code (js_trim line) <> "" ->
  token_reply e = Response status body -> status_ok status = false ->
  exit_code (main e f) = 1%Z /\ store_after (main e f) = f /\
  request (main e f) = json_of (token_request (extract_code (js_trim line)) (pkce_verifier e)).
Proof.
  intros Ha Hn Hl Hc Hr Hs. rewrite (main_exchange e f name line) by done.
  unfold exchange. by rewrite Hr, Hs.
Qed.

(** C3. On a missing or unparsable store a successful exchange whose
    answer carries [access_token], [refresh_token] and [expires_in]
    creates the store with the one new account
    [{name, access, refresh, expires: Date.now() + expires_in * 1000}]
    (as [JSON.stringify] writes it), reported as added, exit status 0. *)
Theorem main_fresh_store e f name line status json access refresh expires_in :
  argv2 e = Some name -> name <> "" -> typed_line e = Some line ->
  extract_code (js_trim line) <> "" ->
  token_reply e = Response status (Some json) -> status_ok status = true ->
  js_get json "access_token" = Ok access -> js_get json "refresh_token" = Ok refresh ->
  js_get json "expires_in" = Ok expires_in -> fs_writable e = true ->
  (f = Absent \/ exists t, f = Unparsable t) ->
  exists a,
    json_of (JObj [("name", JStr name); ("access", access); ("refresh", refresh);
                   ("expires", JNum (clock e + js_to_number expires_in * 1000)%float)]) = Some a /\
    store_after (main e f) =
      Stored (JObj [("anthropic", JObj [("multiAccounts",
               JObj [("accounts", JArr [a] [])])])]) /\
    exit_code (main e f) = 0%Z /\
    messages (main e f) =
      [MsgAuthorizeUrl (authorize_query (pkce_challenge e) (pkce_verifier e));
       MsgExchanging; MsgAdded; MsgSaved].
Proof.
  intros Ha Hn Hl Hc Hr Hs Hat Hrt Hei Hw Hf.
  assert (Hacc : make_account name json (clock e) =
    Ok (JObj [("name", JStr name); ("access", access); ("refresh", refresh);
              ("expires", JNum (clock e + js_to_number expires_in * 1000)%float)]))
    by (unfold make_account; by rewrite Hat, Hrt, Hei).
  rewrite (main_exchange e f name line) by done.
  unfold exchange, persist. rewrite Hr, Hs. simpl negb. cbv iota.
  rewrite loadAuth_default, (upsert_default name json (clock e) _ Hacc) by done.
  unfold saveAuth. rewrite Hw. simpl. eexists. split_and!; reflexivity.
Qed.

(** C2. Re-enrolling into a store whose accounts have distinct names keeps
    them distinct and leaves exactly one record under the enrolled name,
    the new one; the document written is the [JSON.stringify] of that
    document. *)
Theorem main_one_record_per_name e ps pa pm es lp name line status json account :
  argv2 e = Some name -> name <> "" -> typed_line e = Some line ->
  extract_code (js_trim line) <> "" ->
  token_reply e = Response status (Some json) -> status_ok status = true ->
  make_account name json (clock e) = Ok account -> fs_writable e = true ->
  assoc_get "anthropic" ps = Some (JObj pa) ->
  assoc_get "multiAccounts" pa = Some (JObj pm) ->
  assoc_get "accounts" pm = Some (JArr es lp) ->
  Forall (fun a => readable a = true) es -> NoDup (account_names es) ->
  exists es' j,
    store_after (main e (Stored (JObj ps))) = Stored j /\
    json_of (with_accounts ps pa pm es' lp) = Some j /\
    exit_code (main e (Stored (JObj ps))) = 0%Z /\
    NoDup (account_names es') /\ List.filter (has_name name) es' = [account].
Proof.
  intros Ha Hn Hl Hc Hr Hs Hacc Hw Hpa Hpm Hpl Hrd Hnd.
  destruct (upsert_account_one_record ps pa pm es lp name json (clock e) account)
    as (es' & upd & Hup & Hnd' & Hone); [done..|].
  destruct (json_of_obj_some (assoc_set "anthropic" (JObj (assoc_set "multiAccounts"
    (JObj (assoc_set "accounts" (JArr es' lp) pm)) pa)) ps)) as [j Hj].
  exists es', j. rewrite (main_exchange e _ name line) by done.
  unfold exchange, persist. rewrite Hr, Hs. simpl negb. cbv iota. simpl loadAuth.
  rewrite Hup. unfold saveAuth. unfold with_accounts in *. rewrite Hj, Hw.
  split_and!; done.
Qed.

(** C10 (finding).  A [fetch] that rejects (no network) is caught by
    [main().catch(console.error)]: the run ends with status 0. *)
Theorem main_fetch_rejected_exit_zero e f name line :
  argv2 e = Some name -> name <> "" -> typed_line e = Some line ->
  extract_code (js_trim line) <> "" -> token_reply e = FetchRejected ->
  exit_code (main e f) = 0%Z /\ store_after (main e f) = f /\
  last (messages (main e f)) = Some (MsgError SystemError).
Proof.
  intros Ha Hn Hl Hc Hr. rewrite (main_exchange e f name line) by done.
  unfold exchange. rewrite Hr. done.
Qed.

(** C9 (finding).  When the store cannot be written the run has already
    reported the account as added or updated; the write error is caught and
    the run ends with status 0, the store unchanged. *)
Theorem main_write_failure_reported_as_success e ps pa pm es lp name line status json account :
  argv2 e = Some name -> name <> "" -> typed_line e = Some line ->
  extract_code (js_trim line) <> "" ->
  token_reply e = Response status (Some json) -> status_ok status = true ->
  make_account name json (clock e) = Ok account -> fs_writable e = false ->
  assoc_get "anthropic" ps = Some (JObj pa) ->
  assoc_get "multiAccounts" pa = Some (JObj pm) ->
  assoc_get "accounts" pm = Some (JArr es lp) ->
  Forall (fun a => readable a = true) es ->
  exit_code (main e (Stored (JObj ps))) = 0%Z /\
  store_after (main e (Stored (JObj ps))) = Stored (JObj ps) /\
  exists report, report ∈ [MsgAdded; MsgUpdated] /\
    messages (main e (Stored (JObj ps))) =
      [MsgAuthorizeUrl (authorize_query (pkce_challenge e) (pkce_verifier e));
       MsgExchanging; report; MsgError SystemError].
Proof.
  intros Ha Hn Hl Hc Hr Hs Hacc Hw Hpa Hpm Hpl Hrd.
  rewrite (main_exchange e _ name line) by done.
  unfold exchange, persist. rewrite Hr, Hs. simpl negb. cbv iota. simpl loadAuth.
  rewrite (upsert_refines ps pa pm es lp Hpa Hpm Hpl name json (clock e) account Hrd Hacc).
  unfold saveAuth, with_accounts. simpl json_of. rewrite Hw. simpl.
  split_and!; [done|done|].
  destruct (upsert_list es name account).2; eexists; (split; [|reflexivity]); set_solver.
Qed.
(** C22 (finding).  A store that parses but whose accounts array holds
    [null] (or [undefined]) before any record of the enrolled name is not
    replaced by the default document: [a.name] throws a [TypeError] inside
    [findIndex], [main().catch] reports it, the store is left as it was,
    no account is stored, and the run ends with status 0. *)
Theorem main_malformed_store_fails e ps pa pm l1 x l2 lp name line status json :
  argv2 e = Some name -> name <> "" -> typed_line e = Some line ->
  extract_code (js_trim line) <> "" ->
  token_reply e = Response status (Some json) -> status_ok status = true ->
  assoc_get "anthropic" ps = Some (JObj pa) ->
  assoc_get "multiAccounts" pa = Some (JObj pm) ->
  assoc_get "accounts" pm = Some (JArr (l1 ++ x :: l2) lp) ->
  Forall (fun a => readable a = true /\ has_name name a = false) l1 -> readable x = false ->
  exit_code (main e (Stored (JObj ps))) = 0%Z /\
  store_after (main e (Stored (JObj ps))) = Stored (JObj ps) /\
  last (messages (main e (Stored (JObj ps)))) = Some (MsgError TypeError).
Proof.
  intros Ha Hn Hl Hc Hr Hs Hpa Hpm Hpl Hl1 Hx.
  rewrite (main_exchange e _ name line) by done.
  unfold exchange, persist. rewrite Hr, Hs. simpl negb. cbv iota. simpl loadAuth.
  rewrite (upsert_unreadable_throws ps pa pm _ lp Hpa Hpm Hpl name json (clock e) l1 x l2)
    by done.
  split_and!; [done | done | apply last_snoc].
Qed.
End Props.

(** ** Witnesses *)

Definition sample_env_with (arg : option string) (reply : fetch_outcome) (writable : bool) : env := {|
  argv2 := arg;
  pkce_verifier := "VER";
  pkce_challenge := "CH";
  typed_line := Some ("  " +:+ sample_callback +:+ " ");
  token_reply := reply;
  clock := 1700000000000%float;
  fs_writable := writable
|}.

Definition sample_env : env :=
  sample_env_with (Some "max-5x") (Response 200 (Some sample_response)) true.

(** The record the sample run stores: [expires] is the spec's
    [T + 3600 * 1000] for [T = 1700000000000]. *)
Definition sample_account : jsval :=
  JObj [("name", JStr "max-5x"); ("access", JStr "at-2"); ("refresh", JStr "rt-2");
        ("expires", JNum 1700003600000%float)].

Lemma main_usage_witness :
  @main sample_host sample_url (sample_env_with None FetchRejected true) Absent =
  {| exit_code := 1; request := None; store_after := Absent; messages := [MsgUsage] |}.
Proof. apply main_usage. left. reflexivity. Defined.

Definition sample_line : string := "  " +:+ sample_callback +:+ " ".

Ltac discharge := try reflexivity; try discriminate; try (vm_compute; discriminate);
                  try (left; reflexivity);
                  try (apply (bool_decide_unpack _); vm_compute; exact I);
                  try (repeat constructor).

Lemma main_exchange_failure_keeps_store_witness :
  let e := sample_env_with (Some "max-5x") (Response 401 None) true in
  exit_code (@main sample_host sample_url e Absent) = 1%Z /\
  store_after (@main sample_host sample_url e Absent) = Absent /\
  request (@main sample_host sample_url e Absent) =
    json_of (token_request (extract_code (H:=sample_url) (js_trim sample_line)) "VER").
Proof.
  apply (@main_exchange_failure_keeps_store sample_host sample_url
           (sample_env_with (Some "max-5x") (Response 401 None) true) Absent "max-5x"
           sample_line 401 None); discharge.
Defined.

(** The spec's example: [expires_in = 3600] at [Date.now() = 1700000000000]
    gives [expires = 1700003600000]. *)
Lemma main_fresh_store_witness :
  exists a,
    json_of (JObj [("name", JStr "max-5x"); ("access", JStr "at-2"); ("refresh", JStr "rt-2");
                   ("expires", JNum (clock sample_env + @js_to_number sample_host (JNum 3600) * 1000)%float)]) = Some a /\
    store_after (@main sample_host sample_url sample_env Absent) =
      Stored (JObj [("anthropic", JObj [("multiAccounts",
               JObj [("accounts", JArr [a] [])])])]) /\
    exit_code (@main sample_host sample_url sample_env Absent) = 0%Z /\
    messages (@main sample_host sample_url sample_env Absent) =
      [MsgAuthorizeUrl (authorize_query "CH" "VER"); MsgExchanging; MsgAdded; MsgSaved].
Proof.
  apply (@main_fresh_store sample_host sample_url sample_env Absent "max-5x" sample_line 200
           sample_response); discharge.
Defined.

Lemma main_one_record_per_name_witness :
  exists es' j,
    store_after (@main sample_host sample_url sample_env (Stored (JObj sample_store_props))) = Stored j /\
    json_of (with_accounts sample_store_props sample_pa sample_pm es' []) = Some j /\
    exit_code (@main sample_host sample_url sample_env (Stored (JObj sample_store_props))) = 0%Z /\
    NoDup (account_names es') /\ List.filter (has_name "max-5x") es' = [sample_account].
Proof.
  apply (@main_one_record_per_name sample_host sample_url sample_env sample_store_props
           sample_pa sample_pm
           [sample_old_record] [] "max-5x" sample_line 200 sample_response sample_account);
    discharge.
Defined.

Lemma main_fetch_rejected_exit_zero_witness :
  let e := sample_env_with (Some "max-5x") FetchRejected true in
  exit_code (@main sample_host sample_url e Absent) = 0%Z /\
  store_after (@main sample_host sample_url e Absent) = Absent /\
  last (messages (@main sample_host sample_url e Absent)) = Some (MsgError SystemError).
Proof.
  apply (@main_fetch_rejected_exit_zero sample_host sample_url
           (sample_env_with (Some "max-5x") FetchRejected true) Absent "max-5x" sample_line);
    discharge.
Defined.

Lemma main_write_failure_reported_as_success_witness :
  let e := sample_env_with (Some "max-5x") (Response 200 (Some sample_response)) false in
  exit_code (@main sample_host sample_url e (Stored (JObj sample_store_props))) = 0%Z /\
  store_after (@main sample_host sample_url e (Stored (JObj sample_store_props))) =
    Stored (JObj sample_store_props) /\
  exists report, report ∈ [MsgAdded; MsgUpdated] /\
    messages (@main sample_host sample_url e (Stored (JObj sample_store_props))) =
      [MsgAuthorizeUrl (authorize_query "CH" "VER"); MsgExchanging; report;
       MsgError SystemError].
Proof.
  apply (@main_write_failure_reported_as_success sample_host sample_url
           (sample_env_with (Some "max-5x") (Response 200 (Some sample_response)) false)
           sample_store_props sample_pa sample_pm
           [sample_old_record] [] "max-5x" sample_line 200 sample_response sample_account);
    discharge.
Defined.

Lemma main_malformed_store_fails_witness :
  let store := [("anthropic", JObj [("multiAccounts", JObj [("accounts", JArr [JNull] [])])])] in
  exit_code (@main sample_host sample_url sample_env (Stored (JObj store))) = 0%Z /\
  store_after (@main sample_host sample_url sample_env (Stored (JObj store))) = Stored (JObj store) /\
  last (messages (@main sample_host sample_url sample_env (Stored (JObj store)))) =
    Some (MsgError TypeError).
Proof.
  apply (@main_malformed_store_fails sample_host sample_url sample_env _
           [("multiAccounts", JObj [("accounts", JArr [JNull] [])])]
           [("accounts", JArr [JNull] [])] [] JNull [] [] "max-5x" sample_line 200 sample_response);
    discharge.
Defined.
