(* ===== verification/Usage.v ===== *)
(** * Usage: the report of [src/usage.ts]

    [usage.ts] reads the store ([loadAuth], lines 10-18, which exits with
    status 1 on any read or parse error), stops with status 0 when there is
    no account (lines 43-47), and prints for each account either
    "no usage data yet" or three windows, each a 50-cell bar
    ([progressBar], lines 21-27), the rounded percentage and the reset
    time ([formatResetTime], lines 30-40).

    The report is a trace of printed lines ([usage_line]) ended by the exit
    status; an uncaught exception (a [RangeError] of [repeat] or of an
    invalid [Date], a [TypeError] of a [null] account) ends the process
    with status 1 after the lines already printed.

    Numbers: [utilization * 100] is the binary64 product; [Math.round] of
    it is computed exactly from the float's mantissa and exponent
    ([js_round]); from there the bar's arithmetic is on the integral value
    (an integer [Z], or NaN, or an infinity), which is exact: [p / 2],
    [p % 2] and [50 - filled - h] on an integral binary64 value are exact
    below 2^53, and above it [repeat] has already thrown. *)

From Stdlib Require Import ZArith Floats.
From Stdlib Require Uint63.
From stdpp Require Import base list sets strings.
From S2P Require Import Prelude JsValue AuthStore.

#[local] Set Warnings "-inexact-float".

(** ** Integral JavaScript numbers *)

Inductive jsint : Type :=
  | IFin (z : Z)
  | INaN
  | IPosInf
  | INegInf.

(** The integer nearest to [n * 2^e], halves rounded up. *)
Definition round_half_up (n e : Z) : Z :=
  if (0 <=? e)%Z then n * 2 ^ e else ((2 * n + 2 ^ (- e)) / 2 ^ (1 - e))%Z.

(** [Math.round] *)
Definition js_round (x : float) : jsint :=
  match Prim2SF x with
  | S754_zero _ => IFin 0
  | S754_infinity s => if s then INegInf else IPosInf
  | S754_nan => INaN
  | S754_finite s m e => IFin (round_half_up (if s then Z.neg m else Z.pos m) e)
  end.

(** The integral part of a finite value, rounding toward zero. *)
Definition js_trunc (x : float) : option Z :=
  match Prim2SF x with
  | S754_zero _ => Some 0%Z
  | S754_finite s m e =>
      let n := if s then Z.neg m else Z.pos m in
      Some (if (0 <=? e)%Z then n * 2 ^ e else Z.quot n (2 ^ (- e)))%Z
  | _ => None
  end.

(** [Math.floor(p / 2)] *)
Definition floor_half (p : jsint) : jsint :=
  match p with IFin z => IFin (z / 2) | q => q end.

(** [p % 2 === 1] *)
Definition rem2_is_one (p : jsint) : bool :=
  match p with IFin z => (Z.rem z 2 =? 1)%Z | _ => false end.

(** [k - p] *)
Definition sub_from (k : Z) (p : jsint) : jsint :=
  match p with
  | IFin z => IFin (k - z)
  | INaN => INaN
  | IPosInf => INegInf
  | INegInf => IPosInf
  end.

(** [Math.max(0, p)] *)
Definition max0 (p : jsint) : jsint :=
  match p with
  | IFin z => IFin (Z.max 0 z)
  | INegInf => IFin 0
  | q => q
  end.

(** ** The bar *)

Inductive cell : Type := Full | Half | Blank.

Section WithHost.
Context `{JsHost}.

(** [c.repeat(n)] for a one-unit string [c]: NaN counts as 0; a negative or
    infinite count, or a result longer than the engine allows, throws. *)
Definition js_repeat (c : cell) (n : jsint) : throws (list cell) :=
  match n with
  | INaN => Ok []
  | IPosInf | INegInf => Throw RangeError
  | IFin z =>
      if (z <? 0)%Z then Throw RangeError
      else if (host_max_string_length <? z)%Z then Throw RangeError
      else Ok (repeat c (Z.to_nat z))
  end.

(** usage.ts:21-27 *)
Definition progressBar (utilization : float) : throws (list cell) :=
  let percentage := js_round (utilization * 100)%float in
  let filled := floor_half percentage in
  let halfBlock := rem2_is_one percentage in
  let empty := sub_from (50 - (if halfBlock then 1 else 0)) filled in
  full <- js_repeat Full filled;;
  blank <- js_repeat Blank (max0 empty);;
  Ok (full ++ (if halfBlock then [Half] else []) ++ blank).

(** usage.ts:30-40.  [new Date(t)] is invalid when [t] is not finite or
    beyond 8.64e15 ms, and formatting an invalid date throws. *)
Definition formatResetTime (unixTimestamp : jsval) : throws string :=
  if negb (truthy unixTimestamp) then Ok "Unknown"
  else match js_trunc (js_to_number unixTimestamp * 1000)%float with
       | Some ms =>
           if (Z.abs ms <=? 8640000000000000)%Z then Ok (host_format_date ms)
           else Throw RangeError
       | None => Throw RangeError
       end.
End WithHost.

(** The value [Math.round] returned, as the binary64 number the template
    literal prints. *)
Definition float_of_Z (z : Z) : float := SF2Prim (SpecFloat.binary_normalize prec emax z 0 false).

Definition float_of_jsint (p : jsint) : float :=
  match p with
  | IFin z => float_of_Z z
  | INaN => PrimFloat.nan
  | IPosInf => PrimFloat.infinity
  | INegInf => PrimFloat.neg_infinity
  end.

(** ** The report *)

Inductive window : Type := Session5h | Weekly7d | Weekly7dSonnet.

Definition window_key (w : window) : string :=
  match w with
  | Session5h => "session5h"
  | Weekly7d => "weekly7d"
  | Weekly7dSonnet => "weekly7dSonnet"
  end.

(** The printed lines (their wording and glyphs are not modelled). *)
Inductive usage_line : Type :=
  | LReadError (e : js_error)                 (** line 15 *)
  | LNoConfig                                 (** line 45 *)
  | LAccount (name : string)                  (** line 50 *)
  | LNoUsage                                  (** line 54 *)
  | LWindow (w : window)                      (** lines 59, 65, 71 *)
  | LBar (bar : list cell) (percent : string) (** lines 61, 67, 73 *)
  | LResets (text : string)                   (** lines 62, 68, 74 *)
  | LUncaught (e : js_error).                 (** the runtime's report of an
                                                  uncaught exception *)

(** Lines printed, and the exception that stopped the script if any. *)
Definition trace : Type := list usage_line * option js_error.

(** Run [t1], then, unless it threw, [t2]. *)
Definition seq_trace (t1 t2 : trace) : trace :=
  match t1 with
  | (l, Some e) => (l, Some e)
  | (l, None) => (l ++ t2.1, t2.2)
  end.

Record report : Type := { lines : list usage_line; exit_status : Z }.

Definition nullish (v : jsval) : bool :=
  match v with JUndefined | JNull => true | _ => false end.

(** [v?.[k]] *)
Definition opt_get (v : jsval) (k : string) : throws jsval :=
  if nullish v then Ok JUndefined else js_get v k.

(** [for (const x of v)]: the values iterated; a value that is not iterable
    throws. *)
Definition js_iterate (v : jsval) : throws (list jsval) :=
  match v with
  | JArr es _ => Ok es
  | JStr s => Ok (map (fun c => JStr (String c EmptyString)) (String.list_ascii_of_string s))
  | _ => Throw TypeError
  end.

(** usage.ts:10-18: any read or parse error, and a [null] document, is
    reported and ends the script with status 1. *)
Definition loadAuth_usage (f : file_state) : throws jsval :=
  match f with
  | Absent => Throw SystemError
  | Unparsable _ => Throw SyntaxError
  | Stored data => a <- js_get data "anthropic";; opt_get a "multiAccounts"
  end.

Section Render.
Context `{JsHost}.

(** [usage.w?.utilization || 0] *)
Definition window_utilization (usage : jsval) (w : window) : throws jsval :=
  ws <- js_get usage (window_key w);;
  u <- opt_get ws "utilization";;
  Ok (if truthy u then u else JNum 0).

(** usage.ts:59-62 (and 65-68, 71-74 for the other windows) *)
Definition render_window (usage : jsval) (w : window) : trace :=
  match (u <- window_utilization usage w;;
         let pct := js_round (js_to_number u * 100)%float in
         bar <- progressBar (js_to_number u);;
         Ok (bar, pct)) with
  | Throw e => ([LWindow w], Some e)
  | Ok (bar, pct) =>
      let barline := LBar bar (host_number_to_string (float_of_jsint pct)) in
      match (ws <- js_get usage (window_key w);;
             r <- opt_get ws "reset";;
             formatResetTime r) with
      | Throw e => ([LWindow w; barline], Some e)
      | Ok txt => ([LWindow w; barline; LResets txt], None)
      end
  end.

(** usage.ts:50-74: one iteration of the loop. *)
Definition render_account (multi account : jsval) : trace :=
  match js_get account "name" with
  | Throw e => ([], Some e)
  | Ok name =>
      let key := js_to_string name in
      match (u0 <- js_get multi "usage";; opt_get u0 key) with
      | Throw e => ([LAccount key], Some e)
      | Ok usage =>
          if negb (truthy usage) then ([LAccount key; LNoUsage], None)
          else seq_trace ([LAccount key], None)
                 (seq_trace (render_window usage Session5h)
                    (seq_trace (render_window usage Weekly7d)
                       (render_window usage Weekly7dSonnet)))
      end
  end.

(** usage.ts:49-75 *)
Fixpoint render_accounts (multi : jsval) (accounts : list jsval) : trace :=
  match accounts with
  | [] => ([], None)
  | a :: t => seq_trace (render_account multi a) (render_accounts multi t)
  end.

(** usage.ts:43-75: the script.  An uncaught exception ends it with status 1
    after the lines already printed. *)
Definition usage_main (f : file_state) : report :=
  match loadAuth_usage f with
  | Throw e => {| lines := [LReadError e]; exit_status := 1 |}
  | Ok multi =>
      match (accs <- opt_get multi "accounts";; len <- opt_get accs "length";; Ok (accs, len)) with
      | Throw e => {| lines := [LUncaught e]; exit_status := 1 |}
      | Ok (accs, len) =>
          if negb (truthy len) then {| lines := [LNoConfig]; exit_status := 0 |}
          else match js_iterate accs with
               | Throw e => {| lines := [LUncaught e]; exit_status := 1 |}
               | Ok items =>
                   match render_accounts multi items with
                   | (ls, None) => {| lines := ls; exit_status := 0 |}
                   | (ls, Some e) => {| lines := ls ++ [LUncaught e]; exit_status := 1 |}
                   end
               end
      end
  end.
End Render.

(** ** The bar *)

(** The bar the spec describes for an integral percentage [p]: [p / 2] full
    cells, a half cell when [p] is odd, and blank cells up to 50. *)
Definition bar_cells (p : Z) : list cell :=
  repeat Full (Z.to_nat (p / 2)) ++ (if Z.odd p then [Half] else []) ++
  repeat Blank (Z.to_nat (50 - p / 2 - (if Z.odd p then 1 else 0))).

(** ** Stores the report renders without an exception *)

Section Renderable.
Context `{JsHost}.

(** [usage.w?.utilization || 0] rounds to a percentage in [0, 100]. *)
Definition utilization_ok (u : jsval) : bool :=
  match js_round (js_to_number (if truthy u then u else JNum 0) * 100)%float with
  | IFin p => (0 <=? p)%Z && (p <=? 100)%Z
  | _ => false
  end.

(** [usage.w?.reset] is falsy, or a time in seconds a [Date] can hold. *)
Definition reset_ok (r : jsval) : bool :=
  negb (truthy r) ||
  match js_trunc (js_to_number r * 1000)%float with
  | Some ms => (Z.abs ms <=? 8640000000000000)%Z
  | None => false
  end.

(** A window entry that is absent, or an object whose two fields pass. *)
Definition window_ok (wv : jsval) : bool :=
  match wv with
  | JUndefined => true
  | JObj wps =>
      utilization_ok (default JUndefined (assoc_get "utilization" wps)) &&
      reset_ok (default JUndefined (assoc_get "reset" wps))
  | _ => false
  end.

Definition windows : list window := [Session5h; Weekly7d; Weekly7dSonnet].

(** An account object whose [name] is a string, not a key of
    [Object.prototype], whose entry in the usage object [us] is absent or an
    object whose three windows pass [window_ok]. *)
Definition account_ok (us : list (string * jsval)) (a : jsval) : bool :=
  match a with
  | JObj aps =>
      match assoc_get "name" aps with
      | Some (JStr n) =>
          negb (existsb (String.eqb n) object_proto_keys) &&
          match assoc_get n us with
          | None => true
          | Some (JObj sps) =>
              forallb (fun w => window_ok (default JUndefined (assoc_get (window_key w) sps)))
                windows
          | Some _ => false
          end
      | _ => false
      end
  | _ => false
  end.
End Renderable.

(** The lines of one window: its title, a bar of 50 cells with the
    percentage, and the reset time. *)
Definition window_block (w : window) (ls : list usage_line) : Prop :=
  exists bar pct txt, ls = [LWindow w; LBar bar pct; LResets txt] /\ length bar = 50.

(** The lines of one account: its name, then "no usage data" when it has no
    entry in [us], or its three windows in order. *)
Definition account_block (us : list (string * jsval)) (a : jsval) (ls : list usage_line) : Prop :=
  exists aps n, a = JObj aps /\ assoc_get "name" aps = Some (JStr n) /\
  match assoc_get n us with
  | None => ls = [LAccount n; LNoUsage]
  | Some _ =>
      exists l1 l2 l3, ls = LAccount n :: l1 ++ l2 ++ l3 /\ window_block Session5h l1 /\
                       window_block Weekly7d l2 /\ window_block Weekly7dSonnet l3
  end.

(** The lines of a window with no data: an empty bar at 0% and an unknown
    reset time. *)
Definition empty_window_lines `{JsHost} (w : window) : list usage_line :=
  [LWindow w; LBar (repeat Blank 50) (host_number_to_string (float_of_Z 0)); LResets "Unknown"].

(** ** Numbers *)

(** [binary_normalize] of a positive integer below 2^53 is finite and
    positive: both shifts of the rounding are by zero. *)
Lemma digits2_pos_iter_xO (p k : positive) :
  SpecFloat.digits2_pos (Pos.iter xO p k) = (SpecFloat.digits2_pos p + k)%positive.
Proof.
  induction k using Pos.peano_ind; [simpl; lia|].
  rewrite Pos.iter_succ. simpl. rewrite IHk. lia.
Qed.

Lemma digits2_pos_le (p : positive) (d : Z) :
  (Z.pos p < 2 ^ d)%Z -> (0 <= d)%Z -> (Z.pos (SpecFloat.digits2_pos p) <= d)%Z.
Proof.
  revert d. induction p as [p IH|p IH|]; intros d Hp Hd; simpl;
    (destruct (Z.eq_dec d 0%Z); [subst; simpl in Hp; lia|]); [..|lia];
    specialize (IH (d - 1)%Z); rewrite Pos2Z.inj_succ;
    replace d with (Z.succ (d - 1)) in Hp by lia; rewrite Z.pow_succ_r in Hp by lia; lia.
Qed.

Ltac shr_zero :=
  repeat (cbn [SpecFloat.Zdigits2]; rewrite ?digits2_pos_iter_xO;
          match goal with
          | |- context [(Z.max ?a ?b - ?c)%Z] => replace (Z.max a b - c)%Z with 0%Z by lia
          end;
          cbn [SpecFloat.shr SpecFloat.shr_record_of_loc SpecFloat.round_nearest_even
               SpecFloat.loc_of_shr_record SpecFloat.shr_m]).

Lemma binary_normalize_small (p : positive) :
  (Z.pos p < 2 ^ 53)%Z ->
  exists m e, SpecFloat.binary_normalize prec emax (Z.pos p) 0 false = S754_finite false m e.
Proof.
  intros Hp. pose proof (digits2_pos_le p 53 Hp ltac:(lia)) as Hd.
  simpl SpecFloat.binary_normalize. unfold SpecFloat.binary_round, SpecFloat.shl_align,
    SpecFloat.binary_round_aux, SpecFloat.shr_fexp, SpecFloat.fexp, SpecFloat.emin.
  unfold prec, emax. change IntDef.Z.max with Z.max. change IntDef.Z.sub with Z.sub.
  change IntDef.Z.add with Z.add.
  rewrite Z.add_0_r. rewrite (Z.max_l (Z.pos _ - 53)) by lia.
  destruct (Z.pos (SpecFloat.digits2_pos p) - 53 - 0)%Z eqn:E; [| lia |];
    shr_zero; rewrite (proj2 (Z.leb_le _ _)) by lia; eauto.
Qed.

Lemma SFeqb_finite_refl s m e : SpecFloat.SFeqb (S754_finite s m e) (S754_finite s m e) = true.
Proof.
  unfold SpecFloat.SFeqb, SpecFloat.SFcompare.
  destruct s; rewrite Z.compare_refl, Pos.compare_cont_refl; reflexivity.
Qed.

(** The length of a non-empty array, as a number, is truthy. *)
Lemma float_of_nat_truthy n :
  (0 < n)%nat -> (Z.of_nat n < 2 ^ 53)%Z -> truthy (JNum (float_of_nat n)) = true.
Proof.
  intros Hn Hb. unfold truthy, float_of_nat, PrimFloat.is_zero, PrimFloat.is_nan.
  rewrite !FloatAxioms.eqb_spec, FloatAxioms.of_uint63_spec, Uint63.of_Z_spec.
  rewrite Z.mod_small by (unfold Uint63.wB, Uint63.size; simpl; lia).
  destruct (Z.of_nat n) as [|q|q] eqn:E; [lia| |lia].
  destruct (binary_normalize_small q Hb) as (m & e & ->).
  by rewrite SFeqb_finite_refl.
Qed.

Lemma half_split (p : Z) : p = (2 * (p / 2) + (if Z.odd p then 1 else 0))%Z.
Proof. rewrite <- Zmod_odd. apply Z.div_mod. lia. Qed.

Lemma rem2_is_one_odd (p : Z) : (0 <= p)%Z -> rem2_is_one (IFin p) = Z.odd p.
Proof. intros Hp. simpl. rewrite Z.rem_mod_nonneg by lia. by rewrite Zodd_mod. Qed.

Lemma bar_cells_length (p : Z) : (0 <= p <= 100)%Z -> length (bar_cells p) = 50.
Proof.
  intros Hp. unfold bar_cells. pose proof (half_split p).
  rewrite !length_app, !repeat_length. destruct (Z.odd p); simpl; lia.
Qed.

Section BarProps.
Context `{JsHost}.

Lemma js_repeat_ok c z :
  (0 <= z <= host_max_string_length)%Z -> js_repeat c (IFin z) = Ok (repeat c (Z.to_nat z)).
Proof.
  intros Hz. simpl. by rewrite !(proj2 (Z.ltb_ge _ _)) by lia.
Qed.

Lemma js_repeat_neg c z : (z < 0)%Z -> js_repeat c (IFin z) = Throw RangeError.
Proof. intros Hz. simpl. by rewrite (proj2 (Z.ltb_lt _ _)). Qed.

(** The bar of a utilization whose rounded percentage is in [0, 100]. *)
Lemma progressBar_pct u p :
  js_round (u * 100)%float = IFin p -> (0 <= p <= 100)%Z ->
  (50 <= host_max_string_length)%Z -> progressBar u = Ok (bar_cells p).
Proof.
  intros Hr Hp Hm. pose proof (half_split p). unfold progressBar, bar_cells.
  rewrite Hr. cbn [floor_half sub_from max0]. rewrite rem2_is_one_odd by lia.
  rewrite js_repeat_ok by (destruct (Z.odd p); lia). rewrite bind_Ok.
  rewrite js_repeat_ok by (destruct (Z.odd p); lia). rewrite bind_Ok.
  do 5 f_equal. destruct (Z.odd p); lia.
Qed.

(** A negative rounded percentage makes the first [repeat] throw. *)
Lemma progressBar_neg u p :
  js_round (u * 100)%float = IFin p -> (p < 0)%Z -> progressBar u = Throw RangeError.
Proof.
  intros Hr Hp. unfold progressBar. rewrite Hr. cbn [floor_half].
  rewrite js_repeat_neg; [done | apply Z.div_lt_upper_bound; lia].
Qed.
End BarProps.

(** ** Properties of the bar *)

Section BarTheorems.
Context `{JsHost}.

(** C12: for a utilization whose rounded percentage [p] is in [0, 100] (the
    spec's range), [progressBar] returns the spec's bar: [p / 2] full cells,
    a half cell exactly when [p] is odd, blank cells up to a width of 50. *)
Theorem progressBar_in_range u p :
  js_round (u * 100)%float = IFin p -> (0 <= p <= 100)%Z ->
  (50 <= host_max_string_length)%Z ->
  progressBar u = Ok (bar_cells p) /\ length (bar_cells p) = 50.
Proof. intros Hr Hp Hm. split; [by apply progressBar_pct | by apply bar_cells_length]. Qed.

(** C13: outside [0, 1] the bar is not the spec's: a negative rounded
    percentage makes [repeat] throw a [RangeError] (which ends the report),
    and one above 100 gives a bar wider than 50 cells. *)
Theorem progressBar_out_of_range u p :
  js_round (u * 100)%float = IFin p ->
  ((p < 0)%Z -> progressBar u = Throw RangeError) /\
  ((100 < p)%Z -> (p / 2 <= host_max_string_length)%Z ->
   exists cells, progressBar u = Ok cells /\ 50 < length cells).
Proof.
  intros Hr. split; [by apply progressBar_neg|]. intros Hp Hm.
  pose proof (half_split p). unfold progressBar. rewrite Hr.
  cbn [floor_half sub_from max0]. rewrite rem2_is_one_odd by lia.
  rewrite js_repeat_ok by (destruct (Z.odd p); lia). rewrite bind_Ok.
  rewrite Z.max_l by (destruct (Z.odd p); lia).
  rewrite js_repeat_ok by (destruct (Z.odd p); lia). rewrite bind_Ok. eexists; split; [done|].
  rewrite !length_app, !repeat_length. destruct (Z.odd p); simpl; lia.
Qed.
End BarTheorems.

Lemma progressBar_in_range_witness :
  js_round (0.43 * 100)%float = IFin 43 /\
  @progressBar sample_host 0.43%float = Ok (bar_cells 43) /\ length (bar_cells 43) = 50.
Proof.
  split; [reflexivity|].
  apply (@progressBar_in_range sample_host 0.43%float 43); [reflexivity | lia | simpl; lia].
Defined.

Lemma progressBar_out_of_range_witness :
  @progressBar sample_host (-0.1)%float = Throw RangeError /\
  exists cells, @progressBar sample_host 1.5%float = Ok cells /\ 50 < length cells.
Proof.
  split.
  - apply (proj1 (@progressBar_out_of_range sample_host (-0.1)%float (-10) eq_refl)); lia.
  - apply (proj2 (@progressBar_out_of_range sample_host 1.5%float 150 eq_refl)); [lia | apply Z.leb_le; reflexivity].
Defined.

(** ** Reads of the report *)

Lemma js_get_obj_plain ps k :
  existsb (String.eqb k) object_proto_keys = false ->
  js_get (JObj ps) k = Ok (default JUndefined (assoc_get k ps)).
Proof. intros Hk. unfold js_get. destruct (assoc_get k ps); [done|]. simpl. unfold inherited. by rewrite Hk. Qed.

Lemma opt_get_obj_plain ps k :
  existsb (String.eqb k) object_proto_keys = false ->
  opt_get (JObj ps) k = Ok (default JUndefined (assoc_get k ps)).
Proof. apply js_get_obj_plain. Qed.

Lemma window_key_plain w : existsb (String.eqb (window_key w)) object_proto_keys = false.
Proof. by destruct w. Qed.

#[export] Hint Resolve window_key_plain : ma.

Section ReportProps.
Context `{JsHost}.

Lemma formatResetTime_ok r : reset_ok r = true -> exists txt, formatResetTime r = Ok txt.
Proof.
  unfold reset_ok, formatResetTime. destruct (truthy r); simpl; [|eauto].
  destruct (js_trunc _) as [ms|]; [|done]. destruct (_ <=? _)%Z; [eauto|done].
Qed.

Lemma window_ok_fields wv :
  window_ok wv = true ->
  exists u r, opt_get wv "utilization" = Ok u /\ opt_get wv "reset" = Ok r /\
              utilization_ok u = true /\ reset_ok r = true.
Proof.
  destruct wv as [| | | | | |wps|]; try discriminate; intros Hw.
  - by exists JUndefined, JUndefined.
  - apply andb_prop in Hw as [Hu Hr]. rewrite !opt_get_obj_plain by done. by do 2 eexists.
Qed.

(** A window whose entry passes [window_ok] prints its three lines. *)
Lemma render_window_ok sps w :
  window_ok (default JUndefined (assoc_get (window_key w) sps)) = true ->
  (50 <= host_max_string_length)%Z ->
  exists ls, render_window (JObj sps) w = (ls, None) /\ window_block w ls.
Proof.
  intros Hw Hm. destruct (window_ok_fields _ Hw) as (u & r & Hu & Hr & Hu' & Hr').
  destruct (formatResetTime_ok r Hr') as [txt Ht].
  unfold utilization_ok in Hu'. destruct (js_round _) as [p| | |] eqn:Ep; try discriminate.
  apply andb_prop in Hu' as [H1 H2]. apply Z.leb_le in H1, H2.
  unfold render_window, window_utilization. rewrite js_get_obj_plain by auto with ma.
  rewrite !bind_Ok, Hu, !bind_Ok, (progressBar_pct _ p Ep) by lia. rewrite bind_Ok, Hr, bind_Ok, Ht.
  eexists; split; [reflexivity|]. do 3 eexists; split; [reflexivity|]. by apply bar_cells_length.
Qed.
(** An account that passes [account_ok] prints its block. *)
Lemma render_account_ok pm us a :
  assoc_get "usage" pm = Some (JObj us) -> account_ok us a = true ->
  (50 <= host_max_string_length)%Z ->
  exists ls, render_account (JObj pm) a = (ls, None) /\ account_block us a ls.
Proof.
  intros Hu Ha Hm. destruct a as [| |?|?|?|? ?|aps|?]; try discriminate.
  unfold account_ok in Ha. destruct (assoc_get "name" aps) as [[| |?|?|n|? ?|?|?]|] eqn:En; try discriminate.
  apply andb_prop in Ha as [Hn Hs]. apply negb_true_iff in Hn.
  unfold render_account. rewrite js_get_obj_plain, En by done.
  rewrite js_get_obj_plain, Hu, bind_Ok by done. cbn [default id js_to_string].
  rewrite opt_get_obj_plain by done.
  unfold account_block. destruct (assoc_get n us) as [[| |?|?|?|? ?|sps|?]|] eqn:Es;
    try discriminate; [|eexists; split; [reflexivity|exists aps, n; rewrite Es; by split_and!]].
  cbn [default id]. simpl in Hs. repeat (apply andb_prop in Hs as [? Hs]).
  destruct (render_window_ok sps Session5h) as (l1 & -> & B1); [done..|].
  destruct (render_window_ok sps Weekly7d) as (l2 & -> & B2); [done..|].
  destruct (render_window_ok sps Weekly7dSonnet) as (l3 & -> & B3); [done..|].
  exists (LAccount n :: l1 ++ l2 ++ l3). split; [done|].
  exists aps, n. rewrite Es. eauto 10.
Qed.

Lemma render_accounts_ok pm us es :
  assoc_get "usage" pm = Some (JObj us) -> forallb (account_ok us) es = true ->
  (50 <= host_max_string_length)%Z ->
  exists blocks, render_accounts (JObj pm) es = (concat blocks, None) /\
                 Forall2 (account_block us) es blocks.
Proof.
  intros Hu Hes Hm. induction es as [|a es IH]; simpl in *; [by exists []|].
  apply andb_prop in Hes as [Ha Hes].
  destruct (render_account_ok pm us a Hu Ha Hm) as (ls & -> & Hb).
  destruct (IH Hes) as (bs & Hr & Hbs). rewrite Hr. by exists (ls :: bs); split; [|constructor].
Qed.
Lemma loadAuth_usage_multi ps pa pm :
  assoc_get "anthropic" ps = Some (JObj pa) -> assoc_get "multiAccounts" pa = Some (JObj pm) ->
  loadAuth_usage (Stored (JObj ps)) = Ok (JObj pm).
Proof.
  intros Ha Hm. unfold loadAuth_usage.
  rewrite js_get_obj_plain, Ha, bind_Ok by done. cbn [default id].
  by rewrite opt_get_obj_plain, Hm by done.
Qed.

Lemma opt_get_arr_length es ps :
  opt_get (JArr es ps) "length" = Ok (JNum (float_of_nat (length es))).
Proof. reflexivity. Qed.

(** A store with a non-empty account array runs the loop over it. *)
Lemma usage_main_loop ps pa pm es lp :
  assoc_get "anthropic" ps = Some (JObj pa) -> assoc_get "multiAccounts" pa = Some (JObj pm) ->
  assoc_get "accounts" pm = Some (JArr es lp) ->
  es <> [] -> (Z.of_nat (length es) < 2 ^ 53)%Z ->
  usage_main (Stored (JObj ps)) =
    match render_accounts (JObj pm) es with
    | (ls, None) => {| lines := ls; exit_status := 0 |}
    | (ls, Some e) => {| lines := ls ++ [LUncaught e]; exit_status := 1 |}
    end.
Proof.
  intros Ha Hm Hacc Hne Hlen. unfold usage_main.
  rewrite (loadAuth_usage_multi ps pa pm), opt_get_obj_plain, Hacc by done.
  cbn [default id]. rewrite bind_Ok, opt_get_arr_length, !bind_Ok.
  rewrite float_of_nat_truthy by (done || (destruct es; [done | simpl; lia])).
  reflexivity.
Qed.
Lemma js_get_builtin_window k w : js_get (JBuiltin k) (window_key w) = Ok JUndefined.
Proof. by destruct w. Qed.

(** A snapshot read from a prototype ([Object], [Object.prototype]) has no
    window: each prints as a window with no data. *)
Lemma render_window_builtin k w :
  (50 <= host_max_string_length)%Z ->
  render_window (JBuiltin k) w = (empty_window_lines w, None).
Proof.
  intros Hm. assert (Hb : progressBar 0%float = Ok (repeat Blank 50))
    by (apply (progressBar_pct _ 0); [reflexivity | lia | done]).
  unfold render_window, window_utilization. rewrite js_get_builtin_window, !bind_Ok.
  cbn [opt_get nullish negb truthy js_to_number]. rewrite !bind_Ok. cbn [truthy js_to_number]. rewrite Hb, bind_Ok. reflexivity.
Qed.

Lemma existsb_eqb_in k l : k ∈ l -> existsb (String.eqb k) l = true.
Proof.
  intros Hk. apply existsb_exists. exists k.
  split; [by apply list_elem_of_In | apply String.eqb_refl].
Qed.
End ReportProps.

(** ** Properties of the report *)

Section ReportTheorems.
Context `{JsHost}.

(** C14: a store whose accounts all pass [account_ok] is reported whole:
    one block per account, in store order, each its name then either
    "no usage data" (no entry under its name) or its three windows in the
    fixed order, every bar 50 cells wide; the script exits with 0. *)
Theorem usage_report_renders ps pa pm es lp us :
  assoc_get "anthropic" ps = Some (JObj pa) ->
  assoc_get "multiAccounts" pa = Some (JObj pm) ->
  assoc_get "accounts" pm = Some (JArr es lp) ->
  assoc_get "usage" pm = Some (JObj us) ->
  es <> [] -> (Z.of_nat (length es) < 2 ^ 53)%Z ->
  forallb (account_ok us) es = true ->
  (50 <= host_max_string_length)%Z ->
  exists blocks,
    usage_main (Stored (JObj ps)) = {| lines := concat blocks; exit_status := 0 |} /\
    Forall2 (account_block us) es blocks.
Proof.
  intros Ha Hm Hacc Hu Hne Hlen Hok Hmax.
  destruct (render_accounts_ok pm us es Hu Hok Hmax) as (bs & Hr & Hbs).
  exists bs. split; [|done]. by rewrite (usage_main_loop ps pa pm es lp), Hr.
Qed.

(** C15: a store that is missing, is not JSON, or is [null] ends the report
    at once with the read error and exit status 1. *)
Theorem usage_main_unreadable f :
  f = Absent \/ (exists t, f = Unparsable t) \/ f = Stored JNull ->
  exists e, usage_main f = {| lines := [LReadError e]; exit_status := 1 |}.
Proof. intros [->|[[t ->]| ->]]; eexists; reflexivity. Qed.

(** C16: a store without the [anthropic], [multiAccounts] or [accounts]
    subtree, or with an empty account array, reports "no configuration" and
    exits with 0: a missing subtree is not an error. *)
Theorem usage_main_missing_subtree ps :
  (assoc_get "anthropic" ps = None \/
   exists pa, assoc_get "anthropic" ps = Some (JObj pa) /\
     (assoc_get "multiAccounts" pa = None \/
      exists pm, assoc_get "multiAccounts" pa = Some (JObj pm) /\
        (assoc_get "accounts" pm = None \/
         exists lp, assoc_get "accounts" pm = Some (JArr [] lp)))) ->
  usage_main (Stored (JObj ps)) = {| lines := [LNoConfig]; exit_status := 0 |}.
Proof.
  intros [Ha | (pa & Ha & [Hm | (pm & Hm & [Hacc | (lp & Hacc)])])]; unfold usage_main.
  - unfold loadAuth_usage. by rewrite js_get_obj_plain, Ha by done.
  - unfold loadAuth_usage. rewrite js_get_obj_plain, Ha, bind_Ok by done. cbn [default id].
    by rewrite opt_get_obj_plain, Hm by done.
  - by rewrite (loadAuth_usage_multi ps pa pm), opt_get_obj_plain, Hacc by done.
  - by rewrite (loadAuth_usage_multi ps pa pm), opt_get_obj_plain, Hacc by done.
Qed.

(** C17: an account named after a key of [Object.prototype] (such as
    "constructor" or "toString") with no usage entry is not reported as
    "no usage data": the lookup [multi.usage[name]] finds the inherited
    member, and the account prints three windows with empty bars. *)
Theorem render_account_inherited_name pm us aps k :
  k ∈ object_proto_keys ->
  assoc_get "usage" pm = Some (JObj us) -> assoc_get k us = None ->
  assoc_get "name" aps = Some (JStr k) ->
  (50 <= host_max_string_length)%Z ->
  render_account (JObj pm) (JObj aps) =
    (LAccount k :: empty_window_lines Session5h ++ empty_window_lines Weekly7d ++
       empty_window_lines Weekly7dSonnet, None).
Proof.
  intros Hk Hu Hn En Hm. unfold render_account.
  rewrite js_get_obj_plain, En by done.
  rewrite js_get_obj_plain, Hu, bind_Ok by done. cbn [default id js_to_string].
  unfold opt_get, js_get at 1. cbn [nullish negb]. rewrite Hn. unfold inherited.
  rewrite existsb_eqb_in by done. cbn [truthy negb].
  by rewrite !render_window_builtin.
Qed.

(** C18: a negative utilization (as the code reads it, [|| 0] applied)
    in the first window of the first account ends the script with a
    [RangeError] and exit status 1 after two lines: no later window or
    account is reported. *)
Theorem usage_main_negative_stops ps pa pm aps t lp us n sps wps v p :
  assoc_get "anthropic" ps = Some (JObj pa) ->
  assoc_get "multiAccounts" pa = Some (JObj pm) ->
  assoc_get "accounts" pm = Some (JArr (JObj aps :: t) lp) ->
  assoc_get "usage" pm = Some (JObj us) ->
  (Z.of_nat (S (length t)) < 2 ^ 53)%Z ->
  assoc_get "name" aps = Some (JStr n) -> existsb (String.eqb n) object_proto_keys = false ->
  assoc_get n us = Some (JObj sps) -> assoc_get "session5h" sps = Some (JObj wps) ->
  assoc_get "utilization" wps = Some v ->
  js_round (js_to_number (if truthy v then v else JNum 0) * 100)%float = IFin p -> (p < 0)%Z ->
  usage_main (Stored (JObj ps)) =
    {| lines := [LAccount n; LWindow Session5h; LUncaught RangeError]; exit_status := 1 |}.
Proof.
  intros Ha Hm Hacc Hu Hlen En Hn Es Ew Ev Ep Hp.
  rewrite (usage_main_loop ps pa pm _ lp) by done. cbn [render_accounts].
  unfold render_account. rewrite js_get_obj_plain, En by done.
  rewrite js_get_obj_plain, Hu, bind_Ok by done. cbn [default id js_to_string].
  rewrite opt_get_obj_plain, Es by done. cbn [default id truthy negb].
  unfold render_window, window_utilization.
  rewrite (js_get_obj_plain sps (window_key Session5h)) by auto with ma.
  cbn [window_key]. rewrite Ew, bind_Ok. cbn [default id]. rewrite opt_get_obj_plain, Ev, !bind_Ok by done. cbn [default id].
  by rewrite (progressBar_neg _ p Ep Hp).
Qed.
End ReportTheorems.

(** ** Witnesses *)

Definition report_pm (accs : list jsval) (us : list (string * jsval)) : list (string * jsval) :=
  [("accounts", JArr accs []); ("usage", JObj us)].

Definition report_pa (accs : list jsval) (us : list (string * jsval)) : list (string * jsval) :=
  [("multiAccounts", JObj (report_pm accs us))].

Definition report_store (accs : list jsval) (us : list (string * jsval)) : list (string * jsval) :=
  [("anthropic", JObj (report_pa accs us)); ("openai", JObj [])].

Definition named (n : string) : jsval := JObj [("name", JStr n); ("access_token", JStr "t")].

(** Two accounts, one with a snapshot: a full window, one without reset
    and one without utilization. *)
Definition report_usage : list (string * jsval) :=
  [("work", JObj [("session5h", JObj [("utilization", JNum 0.43); ("reset", JNum 1700000000)]);
                  ("weekly7d", JObj [("utilization", JNum 0.1)]);
                  ("weekly7dSonnet", JObj [("reset", JNull)])])].

Definition negative_usage : list (string * jsval) :=
  [("work", JObj [("session5h", JObj [("utilization", JNum (-0.1))])])].

Lemma usage_report_renders_witness :
  exists blocks,
    @usage_main sample_host (Stored (JObj (report_store [named "work"; named "home"] report_usage))) =
      {| lines := concat blocks; exit_status := 0 |} /\
    Forall2 (account_block report_usage) [named "work"; named "home"] blocks.
Proof.
  apply (@usage_report_renders sample_host _ (report_pa [named "work"; named "home"] report_usage)
           (report_pm [named "work"; named "home"] report_usage) _ [] report_usage);
    try reflexivity; try discriminate; simpl; lia.
Defined.

Lemma usage_main_unreadable_witness :
  exists e, @usage_main sample_host (Unparsable "{") = {| lines := [LReadError e]; exit_status := 1 |}.
Proof. apply usage_main_unreadable. right; left. by exists "{". Defined.

Lemma usage_main_missing_subtree_witness :
  @usage_main sample_host (Stored (JObj [("openai", JObj [])])) =
    {| lines := [LNoConfig]; exit_status := 0 |}.
Proof. apply usage_main_missing_subtree. left. reflexivity. Defined.

Lemma render_account_inherited_name_witness :
  @render_account sample_host (JObj (report_pm [named "constructor"] report_usage))
    (named "constructor") =
    (LAccount "constructor" :: @empty_window_lines sample_host Session5h ++
       @empty_window_lines sample_host Weekly7d ++ @empty_window_lines sample_host Weekly7dSonnet,
     None).
Proof.
  apply (@render_account_inherited_name sample_host
           (report_pm [named "constructor"] report_usage) report_usage
           [("name", JStr "constructor"); ("access_token", JStr "t")]); try reflexivity.
  - apply (bool_decide_unpack _). vm_compute. exact I.
  - simpl. lia.
Defined.

Lemma usage_main_negative_stops_witness :
  @usage_main sample_host (Stored (JObj (report_store [named "work"; named "home"] negative_usage))) =
    {| lines := [LAccount "work"; LWindow Session5h; LUncaught RangeError]; exit_status := 1 |}.
Proof.
  apply (@usage_main_negative_stops sample_host
           (report_store [named "work"; named "home"] negative_usage)
           (report_pa [named "work"; named "home"] negative_usage)
           (report_pm [named "work"; named "home"] negative_usage)
           [("name", JStr "work"); ("access_token", JStr "t")] [named "home"] [] negative_usage
           "work" [("session5h", JObj [("utilization", JNum (-0.1))])]
           [("utilization", JNum (-0.1))] (JNum (-0.1)) (-10));
    try reflexivity; simpl; lia.
Defined.
