(* ===== verification/History.v ===== *)
(** * History: enrollments one after another

    Each run of [add-account.ts] that gets a token rewrites the store with
    [persist] (lines 108-134).  Runs that do not overlap compose: the store
    after a sequence of runs is the store after the last run, started on the
    store the previous runs left.  [enroll_history] folds [persist] over a
    list of runs (name, token response, clock) on a writable file.

    The theorem of this file is a refinement across runs: from a missing
    store, the accounts stored after the runs are those of the abstract
    contract [Accounts.upsert_list] folded over the runs' records (a new
    name is appended, a known name is replaced in place), with distinct
    names, provided each token response gives a record that is a JSON
    value (strings for the tokens, a finite expiry), so that what
    [JSON.stringify] writes is read back unchanged. *)

From stdpp Require Import base list sets strings.
From Stdlib Require Import Floats.
From S2P Require Import Prelude JsValue AuthStore Accounts Enroll.

(** The document [{ anthropic: { multiAccounts: { accounts: es } } }]. *)
Definition store_doc (es : list jsval) : jsval :=
  JObj [("anthropic", JObj [("multiAccounts", JObj [("accounts", JArr es [])])])].

(** A run that reached the store: the account name, the token endpoint's
    JSON answer, and [Date.now()]. *)
Definition enroll_run : Type := (string * jsval * float)%type.

Section History.
Context `{JsHost}.

(** One run's effect on the file: [persist] on a writable file system. *)
Definition persist_store (f : file_state) (r : enroll_run) : file_state :=
  let '(name, json, now) := r in store_after (persist name json now true f [] None).

Definition enroll_history (runs : list enroll_run) (f : file_state) : file_state :=
  fold_left persist_store runs f.
End History.

(** The abstract contract folded over records [(name, record)]. *)
Definition upsert_records (es : list jsval) (recs : list (string * jsval)) : list jsval :=
  fold_left (fun es '(name, a) => (upsert_list es name a).1) recs es.

(** A run and the record it stores: the name agrees, [make_account] gives
    the record, and the record is a JSON value. *)
Definition run_record `{JsHost} (r : enroll_run) (rec : string * jsval) : Prop :=
  let '(name, json, now) := r in
  rec.1 = name /\ make_account name json now = Ok rec.2 /\ is_json rec.2 = true.

(** ** Lemmas *)

Lemma is_json_store_doc es :
  Forall (fun e => is_json e = true) es -> is_json (store_doc es) = true.
Proof.
  intros Hes. unfold store_doc.
  do 3 (apply is_json_obj_iff; split; [apply Forall_singleton; cbn [snd]|apply NoDup_singleton]).
  by apply is_json_arr_iff.
Qed.

Lemma upsert_list_forall (P : jsval -> Prop) es name a :
  Forall P es -> P a -> Forall P (upsert_list es name a).1.
Proof.
  intros Hes Ha. unfold upsert_list. destruct (find_index _ _); simpl.
  - by apply Forall_insert. - apply Forall_app; auto.
Qed.

Lemma make_account_readable `{JsHost} name json now a :
  make_account name json now = Ok a -> readable a = true.
Proof. unfold make_account. intros Hmk. by throws_inv. Qed.

Section Step.
Context `{JsHost}.

(** One run on a store of the expected shape whose accounts are readable
    JSON values. *)
Lemma persist_store_doc f es name json now a :
  loadAuth f = store_doc es ->
  Forall (fun e => is_json e = true /\ readable e = true) es ->
  make_account name json now = Ok a -> is_json a = true ->
  persist_store f (name, json, now) = Stored (store_doc (upsert_list es name a).1).
Proof.
  intros Hf Hes Hmk Hj. unfold persist_store, persist. rewrite Hf.
  rewrite (upsert_refines [("anthropic", JObj [("multiAccounts", JObj [("accounts", JArr es [])])])]
             [("multiAccounts", JObj [("accounts", JArr es [])])] [("accounts", JArr es [])] es []
             eq_refl eq_refl eq_refl name json now a);
    [| by eapply Forall_impl; [exact Hes|]; intros ? [] | done].
  change (with_accounts _ _ _ ?es' []) with (store_doc es').
  unfold saveAuth. rewrite json_of_json; [done|]. apply is_json_store_doc.
  apply (upsert_list_forall (fun e => is_json e = true)); [|done].
  by eapply Forall_impl; [exact Hes|]; intros ? [].
Qed.

Lemma enroll_history_doc runs recs f es :
  loadAuth f = store_doc es -> (runs <> [] \/ f = Stored (store_doc es)) ->
  Forall (fun e => is_json e = true /\ readable e = true) es ->
  Forall2 run_record runs recs ->
  enroll_history runs f = Stored (store_doc (upsert_records es recs)).
Proof.
  intros Hf Hne Hes Hr. revert f es Hf Hne Hes.
  induction Hr as [|[[n j] now] [n' a] runs recs [Hn [Hmk Hj]] Hr IH]; intros f es Hf Hne Hes;
    simpl in *; subst.
  - destruct Hne as [Hne | ->]; [done | reflexivity].
  - pose proof (persist_store_doc f es n j now a Hf Hes Hmk Hj) as Hs. simpl in Hs. rewrite Hs.
    apply IH; [done | by right |].
    apply upsert_list_forall; [done|]. split; [done | by eapply make_account_readable].
Qed.

Lemma upsert_records_nodup es recs runs :
  Forall2 run_record runs recs -> NoDup (account_names es) ->
  NoDup (account_names (upsert_records es recs)).
Proof.
  intros Hr. revert es.
  induction Hr as [|[[n j] now] [n' a] runs recs [Hn [Hmk Hj]] Hr IH]; intros es Hnd; [done|].
  simpl in *; subst. apply IH. apply upsert_list_names_nodup; [|done]. by eapply make_account_name.
Qed.
End Step.

(** ** Runs in sequence *)

Section Sequence.
Context `{JsHost}.

(** C23: from a missing store, a sequence of runs that each get a token
    whose record is a JSON value leaves the store
    [{anthropic: {multiAccounts: {accounts}}}] whose accounts are the
    abstract contract [upsert_list] folded over the runs' records (a new
    name appended, a known name replaced in place, whole), and the stored
    names are distinct. *)
Theorem enroll_history_refines runs recs :
  Forall2 run_record runs recs -> runs <> [] ->
  enroll_history runs Absent = Stored (store_doc (upsert_records [] recs)) /\
  NoDup (account_names (upsert_records [] recs)).
Proof.
  intros Hr Hne. split.
  - apply enroll_history_doc; auto.
  - apply (upsert_records_nodup [] recs runs Hr). constructor.
Qed.
End Sequence.

(** ** Witness: "work", then "home", then "work" again *)

Definition hist_json (token : string) : jsval :=
  JObj [("access_token", JStr token); ("refresh_token", JStr "r"); ("expires_in", JNum 3600)].

Definition hist_record (name token : string) : jsval :=
  JObj [("name", JStr name); ("access", JStr token); ("refresh", JStr "r");
        ("expires", JNum 1700003600000%float)].

Definition hist_runs : list enroll_run :=
  [("work", hist_json "w1", 1700000000000%float); ("home", hist_json "h1", 1700000000000%float);
   ("work", hist_json "w2", 1700000000000%float)].

Definition hist_records : list (string * jsval) :=
  [("work", hist_record "work" "w1"); ("home", hist_record "home" "h1");
   ("work", hist_record "work" "w2")].

Lemma enroll_history_refines_witness :
  @enroll_history sample_host hist_runs Absent =
    Stored (store_doc (upsert_records [] hist_records)) /\
  NoDup (account_names (upsert_records [] hist_records)) /\
  upsert_records [] hist_records = [hist_record "work" "w2"; hist_record "home" "h1"].
Proof.
  destruct (@enroll_history_refines sample_host hist_runs hist_records) as [Hs Hn];
    [| discriminate | split_and!; [exact Hs | exact Hn | reflexivity]].
  repeat (constructor; [vm_compute; split_and!; reflexivity|]). constructor.
Defined.
