(* ===== verification/Concurrent.v ===== *)
(** * Concurrent: runs of the two scripts sharing the store file

    Neither script locks [auth.json].  An enrollment ([add-account.ts])
    reads the file once ([loadAuth], line 108), builds the new document
    (lines 109-130) and rewrites the file whole ([saveAuth], lines 21-23);
    a report ([usage.ts]) reads it once (lines 10-18).  [writeFileSync]
    opens the file with [O_TRUNC] and then writes the text, so between the
    two the file is empty, a text [JSON.parse] rejects.

    The system is the file and a list of processes, each at a phase of its
    run; a step advances one process by one of its file operations:

    - an enrollment reads the file and computes the text it will write
      ([enroll_read]), truncates (the file becomes [empty_file]), writes;
    - a report reads the file and prints its report ([usage_main]).

    The token exchange and the prompt do not touch the file and happen
    before [step_load]: an enrollment enters the system with its token
    response and clock.  The write is assumed to succeed (a refused write
    is [Enroll.persist]'s concern) and to be one [write] call.

    [step_at] is the step of one process, [run] a schedule of process
    indices.  The theorems are about interleavings: the lost update (C19),
    the store wiped by a read between truncation and write (C20), and what
    a report beside an enrollment can print (C21, an invariant over every
    schedule). *)

From stdpp Require Import base list sets strings.
From Stdlib Require Import Floats.
From S2P Require Import Prelude JsValue AuthStore Accounts Enroll Usage.

(** ** Processes and the system *)

(** The phases of an enrollment from line 108 on. *)
Inductive enroll_phase : Type :=
  | EReady (name : string) (json : jsval) (now : float)
      (** the token response [json] in hand, [loadAuth] not yet called *)
  | EWrite (text : jsval)
      (** the document built, [JSON.stringify] of it is [text] *)
  | ETrunc (text : jsval)
      (** [writeFileSync] has truncated the file, [text] not yet written *)
  | EWritten (text : jsval)
      (** [text] is written; the run is over *)
  | EFailed (e : js_error).
      (** the upsert or [JSON.stringify] threw: nothing is written *)

Inductive report_phase : Type :=
  | RReady
  | RDone (r : report).

Inductive proc : Type :=
  | PEnroll (ph : enroll_phase)
  | PReport (ph : report_phase).

Record sys : Type := { file : file_state; procs : list proc }.

(** What a reader sees between the truncation and the write. *)
Definition empty_file : file_state := Unparsable "".

Definition set_proc (s : sys) (i : nat) (p : proc) (f : file_state) : sys :=
  {| file := f; procs := <[i := p]> (procs s) |}.

Section Steps.
Context `{JsHost}.

(** add-account.ts:108-132 up to the [writeFileSync] call: the document
    built from what [loadAuth] read, and the text [JSON.stringify] makes of
    it ([undefined] makes [writeFileSync] throw before opening the file). *)
Definition enroll_read (name : string) (json : jsval) (now : float) (f : file_state)
  : enroll_phase :=
  match upsert_account (loadAuth f) name json now with
  | Throw e => EFailed e
  | Ok (auth, _) =>
      match json_of auth with
      | None => EFailed TypeError
      | Some text => EWrite text
      end
  end.

(** The step of process [i], if it has one left: an enrollment reads the
    file and computes the text it will write, truncates, writes; a report
    reads the file and prints its report. *)
Definition step_at (i : nat) (s : sys) : option sys :=
  match procs s !! i with
  | Some (PEnroll (EReady name json now)) =>
      Some (set_proc s i (PEnroll (enroll_read name json now (file s))) (file s))
  | Some (PEnroll (EWrite text)) => Some (set_proc s i (PEnroll (ETrunc text)) empty_file)
  | Some (PEnroll (ETrunc text)) => Some (set_proc s i (PEnroll (EWritten text)) (Stored text))
  | Some (PReport RReady) => Some (set_proc s i (PReport (RDone (usage_main (file s)))) (file s))
  | _ => None
  end.

(** A schedule: the processes that step, in order. *)
Fixpoint run (sched : list nat) (s : sys) : option sys :=
  match sched with
  | [] => Some s
  | i :: rest => match step_at i s with Some s' => run rest s' | None => None end
  end.
End Steps.

Section EnrollSteps.
Context `{JsHost}.

Lemma enroll_read_write name json now f auth updated text :
  upsert_account (loadAuth f) name json now = Ok (auth, updated) -> json_of auth = Some text ->
  enroll_read name json now f = EWrite text.
Proof. intros Hu Hj. unfold enroll_read. by rewrite Hu, Hj. Qed.

(** An enrollment that reads the empty file starts from the default
    document: the store it writes holds its own record alone. *)
Lemma enroll_read_empty name json now account :
  make_account name json now = Ok account ->
  exists text,
    json_of (JObj [("anthropic", JObj [("multiAccounts", JObj [("accounts", JArr [account] [])])])])
      = Some text /\ enroll_read name json now empty_file = EWrite text.
Proof.
  intros Hacc. destruct (json_of_obj_some
    [("anthropic", JObj [("multiAccounts", JObj [("accounts", JArr [account] [])])])]) as [t Ht].
  exists t. split; [done|]. eapply enroll_read_write; [|done]. by apply upsert_default.
Qed.
End EnrollSteps.

(** ** Interleavings of two runs *)

(** Two enrollments, [A] at index 0 and [B] at index 1, on file [f]. *)
Definition two_enrollments (f : file_state) (na : string) (ja : jsval) (nowa : float)
  (nb : string) (jb : jsval) (nowb : float) : sys :=
  {| file := f; procs := [PEnroll (EReady na ja nowa); PEnroll (EReady nb jb nowb)] |}.

Section Interleavings.
Context `{JsHost}.

(** C19: lost update.  When both enrollments read the store before either
    writes, the file ends with the text [B] built from the initial store;
    [A]'s write is overwritten, although [A] finished as a success. *)
Theorem both_read_first_loses_update f na ja nowa nb jb nowb ta tb :
  enroll_read na ja nowa f = EWrite ta -> enroll_read nb jb nowb f = EWrite tb ->
  run [0; 1; 0; 0; 1; 1] (two_enrollments f na ja nowa nb jb nowb) =
    Some {| file := Stored tb; procs := [PEnroll (EWritten ta); PEnroll (EWritten tb)] |}.
Proof. intros Ha Hb. simpl. by rewrite Ha, Hb. Qed.

(** C20: an enrollment [B] that reads the store between the truncation and
    the write of an enrollment [A] reads the empty file, which [loadAuth]
    takes for a missing store: the file ends with [B]'s record alone, and
    every account stored before, [A]'s included, is lost. *)
Theorem read_during_write_wipes_store f na ja nowa ta nb jb nowb rb :
  enroll_read na ja nowa f = EWrite ta -> make_account nb jb nowb = Ok rb ->
  exists tb,
    json_of (JObj [("anthropic", JObj [("multiAccounts", JObj [("accounts", JArr [rb] [])])])])
      = Some tb /\
    run [0; 0; 1; 0; 1; 1] (two_enrollments f na ja nowa nb jb nowb) =
      Some {| file := Stored tb; procs := [PEnroll (EWritten ta); PEnroll (EWritten tb)] |}.
Proof.
  intros Ha Hb. destruct (enroll_read_empty nb jb nowb rb Hb) as (tb & Hj & He).
  exists tb. split; [done|]. simpl. rewrite Ha. simpl. by rewrite He.
Qed.
End Interleavings.

(** An enrollment at index 0 and a report at index 1 on file [f]. *)
Definition enroll_and_report (f : file_state) (na : string) (ja : jsval) (nowa : float) : sys :=
  {| file := f; procs := [PEnroll (EReady na ja nowa); PReport RReady] |}.

Section ReportRace.
Context `{JsHost}.
Variables (f : file_state) (na : string) (ja : jsval) (nowa : float) (ta : jsval).
Hypothesis Ha : enroll_read na ja nowa f = EWrite ta.

(** The reports a reader can print: of the old store, of the empty file,
    of the new store. *)
Definition seen_report (r : report) : Prop :=
  r = usage_main f \/ r = usage_main empty_file \/ r = usage_main (Stored ta).

(** The phase of the enrollment and the file it has left. *)
Definition phase_file (a : enroll_phase) (fa : file_state) : Prop :=
  (a = EReady na ja nowa /\ fa = f) \/ (a = EWrite ta /\ fa = f) \/
  (a = ETrunc ta /\ fa = empty_file) \/ (a = EWritten ta /\ fa = Stored ta).

Definition duo_ok (s : sys) : Prop :=
  exists a fa r, s = {| file := fa; procs := [PEnroll a; PReport r] |} /\ phase_file a fa /\
    (r = RReady \/ exists rep, r = RDone rep /\ seen_report rep).

Lemma duo_step i s s' : duo_ok s -> step_at i s = Some s' -> duo_ok s'.
Proof.
  intros (a & fa & r & -> & Hp & Hr) Hs. unfold step_at in Hs.
  destruct i as [|[|i]]; simpl in Hs; [| |discriminate].
  - destruct Hp as [[-> ->]|[[-> ->]|[[-> ->]|[-> ->]]]]; simpl in Hs;
      rewrite ?Ha in Hs; simplify_eq; eexists _, _, r; (split; [reflexivity|]);
      unfold phase_file; naive_solver.
  - destruct Hr as [->|(rep & -> & _)]; simplify_eq.
    exists a, fa, (RDone (usage_main fa)). split; [reflexivity|]. split; [done|].
    right. eexists; split; [reflexivity|]. unfold seen_report, phase_file in *. naive_solver.
Qed.

Lemma duo_run sched s s' : duo_ok s -> run sched s = Some s' -> duo_ok s'.
Proof.
  revert s. induction sched as [|i t IH]; intros s Hs; simpl; [by intros [= <-]|].
  destruct (step_at i s) eqn:E; [|done]. apply IH. by eapply duo_step.
Qed.

(** C21: a report run beside an enrollment prints the report of the old
    store, of the new store, or, when it reads between the truncation and
    the write, a read error with exit status 1, under every schedule; the
    last happens for the schedule truncate, read, write. *)
Theorem report_during_write :
  (forall sched s r, run sched (enroll_and_report f na ja nowa) = Some s ->
     procs s !! 1 = Some (PReport (RDone r)) ->
     r = usage_main f \/ r = usage_main (Stored ta) \/
     r = {| lines := [LReadError SyntaxError]; exit_status := 1 |}) /\
  run [0; 0; 1; 0] (enroll_and_report f na ja nowa) =
    Some {| file := Stored ta;
            procs := [PEnroll (EWritten ta);
                      PReport (RDone {| lines := [LReadError SyntaxError]; exit_status := 1 |})] |}.
Proof.
  split; [|by simpl; rewrite Ha].
  intros sched s r Hrun Hr.
  destruct (duo_run sched (enroll_and_report f na ja nowa) s) as (a & fa & r' & -> & _ & Hr');
    [| done |].
  - exists (EReady na ja nowa), f, RReady. unfold phase_file. naive_solver.
  - simpl in Hr. simplify_eq. destruct Hr' as [?|(rep & ? & Hs)]; simplify_eq.
    unfold seen_report in Hs. naive_solver.
Qed.
End ReportRace.

(** ** Witnesses *)

Definition race_json (token : string) : jsval :=
  JObj [("access_token", JStr token); ("refresh_token", JStr "r"); ("expires_in", JNum 3600)].

Definition race_store_doc : jsval :=
  JObj [("anthropic", JObj [("multiAccounts",
          JObj [("accounts", JArr [JObj [("name", JStr "old"); ("access", JStr "o")]] [])])])].

Definition race_store : file_state := Stored race_store_doc.

Definition race_now : float := 1700000000000%float.

(** The text an enrollment is about to write. *)
Definition written_text (ph : enroll_phase) : jsval :=
  match ph with EWrite t => t | _ => JNull end.

Definition race_text (name token : string) (f : file_state) : jsval :=
  written_text (@enroll_read sample_host name (race_json token) race_now f).

Definition race_two : sys :=
  two_enrollments race_store "a" (race_json "ta") race_now "b" (race_json "tb") race_now.

Definition after (sched : list nat) (s : sys) : sys := default s (@run sample_host sched s).

Lemma both_read_first_loses_update_witness :
  @run sample_host [0; 1; 0; 0; 1; 1] race_two =
    Some {| file := Stored (race_text "b" "tb" race_store);
            procs := [PEnroll (EWritten (race_text "a" "ta" race_store));
                      PEnroll (EWritten (race_text "b" "tb" race_store))] |}.
Proof. apply (@both_read_first_loses_update sample_host); vm_compute; reflexivity. Defined.

Lemma read_during_write_wipes_store_witness :
  exists tb,
    json_of (JObj [("anthropic", JObj [("multiAccounts", JObj [("accounts",
      JArr [JObj [("name", JStr "b"); ("access", JStr "tb"); ("refresh", JStr "r");
                  ("expires", JNum 1700003600000%float)]] [])])])]) = Some tb /\
    @run sample_host [0; 0; 1; 0; 1; 1] race_two =
      Some {| file := Stored tb;
              procs := [PEnroll (EWritten (race_text "a" "ta" race_store)); PEnroll (EWritten tb)] |}.
Proof. apply (@read_during_write_wipes_store sample_host); vm_compute; reflexivity. Defined.

Lemma report_during_write_witness :
  (forall sched s r,
     @run sample_host sched (enroll_and_report race_store "a" (race_json "ta") race_now) = Some s ->
     procs s !! 1 = Some (PReport (RDone r)) ->
     r = @usage_main sample_host race_store \/
     r = @usage_main sample_host (Stored (race_text "a" "ta" race_store)) \/
     r = {| lines := [LReadError SyntaxError]; exit_status := 1 |}) /\
  @run sample_host [0; 0; 1; 0] (enroll_and_report race_store "a" (race_json "ta") race_now) =
    Some {| file := Stored (race_text "a" "ta" race_store);
            procs := [PEnroll (EWritten (race_text "a" "ta" race_store));
                      PReport (RDone {| lines := [LReadError SyntaxError]; exit_status := 1 |})] |}.
Proof. apply (@report_during_write sample_host). vm_compute. reflexivity. Defined.

